(** * sc-quote: the Salesforce quote pipeline

    A shallow embedding of [api/salesforce.js] (the serverless handler) and of
    the formatting and transformation code of [server.js] (the local
    development server), followed by the properties of the pipeline:
    token acquisition, paginated retrieval and record transformation. *)

From Stdlib Require Import ZArith String Ascii List Bool Lia DecimalString.
Import ListNotations.

Local Open Scope string_scope.
Local Open Scope Z_scope.

(** ** The fragment of the JavaScript runtime the program relies on

    Strings are byte strings; text outside ASCII is its UTF-8 encoding. *)
Module JS.

(** [x || d] on a value that is a string, [null] or [undefined]:
    the empty string is falsy, as are [null] and [undefined]. *)
Definition truthy (v : option string) : option string :=
  match v with
  | Some s => if String.eqb s "" then None else Some s
  | None => None
  end.

Definition or_else (v : option string) (d : string) : string :=
  match truthy v with
  | Some s => s
  | None => d
  end.

(** Template-literal conversion of a value that is a string or [undefined]. *)
Definition ToString (v : option string) : string :=
  match v with
  | Some s => s
  | None => "undefined"
  end.

(** A value that is a string, [null] or [undefined], where the code tells
    the three apart. *)
Inductive Value :=
| Undefined
| Null
| Text (s : string).

(** Template-literal conversion of such a value. *)
Definition Value_toString (v : Value) : string :=
  match v with
  | Undefined => "undefined"
  | Null => "null"
  | Text s => s
  end.

(** The string in it, for the tests that treat [null] and [undefined] alike. *)
Definition defined (v : Value) : option string :=
  match v with
  | Text s => Some s
  | Undefined | Null => None
  end.

(** [String.prototype.split] with a one-character separator. *)
Fixpoint split (sep : ascii) (s : string) : list string :=
  match s with
  | EmptyString => [EmptyString]
  | String c rest =>
      if Ascii.eqb c sep then EmptyString :: split sep rest
      else match split sep rest with
           | x :: xs => String c x :: xs
           | [] => [String c EmptyString]
           end
  end.

(** Decimal rendering of an integer, as [Number.prototype.toString] gives it
    for a safe integer. *)
Definition decimal (z : Z) : string := NilZero.string_of_int (Z.to_int z).

Definition digit_value (c : ascii) : option Z :=
  let n := Z.of_nat (nat_of_ascii c) in
  if (48 <=? n) && (n <=? 57) then Some (n - 48) else None.

(** The longest prefix of decimal digits, accumulated most significant first;
    [None] when the string does not start with a digit. *)
Fixpoint digits_prefix (acc : option Z) (s : string) : option Z :=
  match s with
  | EmptyString => acc
  | String c rest =>
      match digit_value c with
      | Some d => digits_prefix (Some (match acc with Some a => 10 * a + d | None => d end)) rest
      | None => acc
      end
  end.

(** Leading white space and line terminators skipped by [parseInt]
    (ECMAScript [StrWhiteSpaceChar], in UTF-8). *)
Fixpoint skip_white_space (s : string) : string :=
  match s with
  | String c rest =>
      let n := nat_of_ascii c in
      if ((9 <=? n) && (n <=? 13))%nat || (n =? 32)%nat then skip_white_space rest
      else
        match n, rest with
        | 194%nat, String c1 r1 =>
            if (nat_of_ascii c1 =? 160)%nat then skip_white_space r1 else s
        | 225%nat, String c1 (String c2 r2) =>
            if ((nat_of_ascii c1 =? 154) && (nat_of_ascii c2 =? 128))%nat
            then skip_white_space r2 else s
        | 226%nat, String c1 (String c2 r2) =>
            let n1 := nat_of_ascii c1 in
            let n2 := nat_of_ascii c2 in
            if ((n1 =? 128) && (((128 <=? n2) && (n2 <=? 138)) || (n2 =? 168) || (n2 =? 169) || (n2 =? 175)))%nat
               || ((n1 =? 129) && (n2 =? 159))%nat
            then skip_white_space r2 else s
        | 227%nat, String c1 (String c2 r2) =>
            if ((nat_of_ascii c1 =? 128) && (nat_of_ascii c2 =? 128))%nat
            then skip_white_space r2 else s
        | 239%nat, String c1 (String c2 r2) =>
            if ((nat_of_ascii c1 =? 187) && (nat_of_ascii c2 =? 191))%nat
            then skip_white_space r2 else s
        | _, _ => s
        end
  | EmptyString => EmptyString
  end.

(** The integer read by [parseInt(s, 10)]: [None] stands for [NaN]. *)
Definition parseInt10_value (s : string) : option Z :=
  match skip_white_space s with
  | String "-" rest =>
      match digits_prefix None rest with Some v => Some (- v) | None => None end
  | String "+" rest => digits_prefix None rest
  | t => digits_prefix None t
  end.

Definition hex_digit (n : nat) : ascii :=
  ascii_of_nat (if (n <? 10)%nat then 48 + n else 55 + n).

Definition percent_encode (c : ascii) : string :=
  let n := nat_of_ascii c in
  String "%" (String (hex_digit (n / 16)) (String (hex_digit (n mod 16)) EmptyString)).

Definition is_alnum (c : ascii) : bool :=
  let n := nat_of_ascii c in
  (((48 <=? n) && (n <=? 57)) || ((65 <=? n) && (n <=? 90)) || ((97 <=? n) && (n <=? 122)))%nat.

Definition is_one_of (set : string) (c : ascii) : bool :=
  existsb (Ascii.eqb c) (list_ascii_of_string set).

(** [encodeURIComponent]: everything but [A-Z a-z 0-9 - _ . ! ~ * ' ( )]
    is percent-encoded byte by byte. *)
Fixpoint encodeURIComponent (s : string) : string :=
  match s with
  | EmptyString => EmptyString
  | String c rest =>
      if is_alnum c || is_one_of "-_.!~*'()" c
      then String c (encodeURIComponent rest)
      else percent_encode c ++ encodeURIComponent rest
  end.

(** The [application/x-www-form-urlencoded] serializer behind
    [URLSearchParams.prototype.toString]. *)
Fixpoint form_encode (s : string) : string :=
  match s with
  | EmptyString => EmptyString
  | String c rest =>
      if is_alnum c || is_one_of "*-._" c then String c (form_encode rest)
      else if Ascii.eqb c " " then String "+" (form_encode rest)
      else percent_encode c ++ form_encode rest
  end.

Fixpoint URLSearchParams_toString (params : list (string * string)) : string :=
  match params with
  | [] => ""
  | [(k, v)] => form_encode k ++ "=" ++ form_encode v
  | (k, v) :: more => form_encode k ++ "=" ++ form_encode v ++ "&" ++ URLSearchParams_toString more
  end.

Definition is_space (c : ascii) : bool :=
  let n := nat_of_ascii c in
  (((9 <=? n) && (n <=? 13)) || (n =? 32))%nat.

(** [s.replace(/\s+/g, ' ')] on ASCII text: [in_run] records that the
    previous character was white space. *)
Fixpoint collapse_spaces (in_run : bool) (s : string) : string :=
  match s with
  | EmptyString => EmptyString
  | String c rest =>
      if is_space c
      then if in_run then collapse_spaces true rest
           else String " " (collapse_spaces true rest)
      else String c (collapse_spaces false rest)
  end.

Fixpoint trim_start (s : string) : string :=
  match s with
  | String c rest => if is_space c then trim_start rest else s
  | EmptyString => EmptyString
  end.

Definition rev_string (s : string) : string :=
  string_of_list_ascii (rev (list_ascii_of_string s)).

Definition trim (s : string) : string :=
  rev_string (trim_start (rev_string (trim_start s))).

End JS.

(** ** The host platform

    The parts of the runtime that the language leaves to the implementation:
    doubles outside the safe integers, date parsing and the locale and
    time-zone data behind [Date.prototype.toLocaleString]. *)

Record DateTimeFormatOptions := {
  opt_month : option string;
  opt_day : option string;
  opt_year : option string;
  opt_hour : option string;
  opt_minute : option string;
  opt_hour12 : option bool;
  opt_timeZone : option string
}.

Class Platform := {
  (** doubles that are not safe integers *)
  Float : Type;
  Float_toString : Float -> string;
  (** the double nearest to an integer beyond the safe range *)
  Float_ofZ : Z -> Float;
  (** [new Date(s)] on a host in the given time zone: the time value in
      milliseconds since the epoch, [None] for an invalid date; the zone
      matters for texts that carry no offset, which are local times *)
  Date_parse : string -> string -> option Z;
  (** [Intl.DateTimeFormat(locale, options).format] in a resolved time zone *)
  DateTimeFormat : string -> DateTimeFormatOptions -> string -> Z -> string
}.

(** The four variables read from [process.env]; a variable that is not set
    is [None]. *)
Record ProcessEnv := {
  SF_CLIENT_ID : option string;
  SF_CLIENT_SECRET : option string;
  SF_REFRESH_TOKEN : option string;
  SF_INSTANCE_URL : option string
}.

(** The process the code runs in: its environment variables, its default
    time zone and its clock (as [new Date().toISOString()] reads it). *)
Record Host := {
  process_env : ProcessEnv;
  host_timeZone : string;
  host_now : string
}.

Section DataModel.
Context {P : Platform}.

(** A JavaScript number: [NaN], a safe integer, or any other double. *)
Inductive Number :=
| NaN
| Int (z : Z)
| Dbl (f : Float).

Definition Number_ofZ (z : Z) : Number :=
  if Z.abs z <? 2 ^ 53 then Int z else Dbl (Float_ofZ z).

Definition Number_toString (n : Number) : string :=
  match n with
  | NaN => "NaN"
  | Int z => JS.decimal z
  | Dbl f => Float_toString f
  end.

(** [parseInt(v, 10)] for [v] a string or [undefined]. *)
Definition parseInt (v : option string) : Number :=
  match JS.parseInt10_value (JS.ToString v) with
  | Some z => Number_ofZ z
  | None => NaN
  end.

(** [date.toLocaleString(locale, options)]: the time zone of the options,
    or the host's when the options name none. *)
Definition Date_toLocaleString (host : Host) (date : option Z) (locale : string)
    (options : DateTimeFormatOptions) : string :=
  match date with
  | None => "Invalid Date"
  | Some t =>
      DateTimeFormat locale options
        (match opt_timeZone options with Some z => z | None => host_timeZone host end) t
  end.

(** *** Records of the remote API

    The fields the query selects, with the types of the Opportunity object:
    [Amount] is a number, [CloseDate] a date text, the quote timestamp a
    date-time text, [StageName] a text and [Owner] a nested object with a
    [Name]. A field that is [null] and a field that is absent are both
    [None]: the code reads fields only through [!= null], [!], [?.] and
    [||], which do not tell them apart. *)
Record OwnerRecord := { Name : option string }.

Record RawRecord := {
  Id : option string;
  Amount : option Number;
  CloseDate : option string;
  Quote_sent_TImestamp_2__c : option string;
  StageName : option string;
  Owner : option OwnerRecord
}.

(** An output row: a JavaScript object with string values, keys in
    insertion order. *)
Definition TransformedRecord := list (string * string).

(** *** HTTP *)
Record Request := {
  req_url : string;
  req_method : string;
  req_headers : list (string * string);
  req_body : option string
}.

Record ErrorEntry := { ee_message : option string; ee_errorCode : option string }.

(** Of an object the code reads four fields. [access_token] is handed on as
    it is, so [null] and an absent field are told apart; the other three are
    read through [||] and [if] only, where a field that is [null] and one
    that is absent are both [None]. *)
Record JsonObject := {
  access_token : JS.Value;
  error_description : option string;
  records : option (list RawRecord);
  nextRecordsUrl : option string
}.

(** The JSON documents of the two endpoints, as the code reads them: an
    object, the array of error entries of the REST API, or [null]. A
    document that is a number, a text or a boolean reads like an object
    without the four fields, and an element of an array that is not an
    object reads like an entry without a message. *)
Inductive Json :=
| JObject (o : JsonObject)
| JArray (items : list ErrorEntry)
| JNull.

Definition empty_object : JsonObject :=
  {| access_token := JS.Undefined; error_description := None;
     records := None; nextRecordsUrl := None |}.

(** A response body either parses or makes [response.json()] reject with
    a [SyntaxError] of the given message. *)
Inductive Body :=
| Parsed (j : Json)
| Unparseable (syntax_error : string).

Record Response := { status : Z; body : Body }.

Definition ok (r : Response) : bool := (200 <=? status r) && (status r <=? 299).

(** [fetch] resolves with a response or rejects (network failure). *)
Inductive FetchOutcome :=
| Resolved (r : Response)
| Rejected (message : string).

(** The remote side: the reply to a request, given how many requests
    were issued before it. *)
Definition Remote := nat -> Request -> FetchOutcome.

(** A thrown [Error]: its message and the [code] and [status] properties
    the code may attach to it. *)
Record JsError := {
  err_message : string;
  err_code : option string;
  err_status : option Z
}.

(** *** Asynchronous computations

    State is the log of requests issued so far, oldest first. *)
Inductive Outcome (A : Type) :=
| Returned (a : A)
| Thrown (e : JsError)
| OutOfFuel.

Definition Async (A : Type) := list Request -> Outcome A * list Request.

Definition ret {A} (a : A) : Async A := fun log => (Returned A a, log).

Definition throw {A} (e : JsError) : Async A := fun log => (Thrown A e, log).

Definition out_of_fuel {A} : Async A := fun log => (OutOfFuel A, log).

Definition bind {A B} (m : Async A) (k : A -> Async B) : Async B :=
  fun log =>
    match m log with
    | (Returned _ a, log') => k a log'
    | (Thrown _ e, log') => (Thrown B e, log')
    | (OutOfFuel _, log') => (OutOfFuel B, log')
    end.

Definition native_error (message : string) : JsError :=
  {| err_message := message; err_code := None; err_status := None |}.

Definition fetch (remote : Remote) (req : Request) : Async Response :=
  fun log =>
    match remote (length log) req with
    | Resolved r => (Returned _ r, (log ++ [req])%list)
    | Rejected m => (Thrown _ (native_error m), (log ++ [req])%list)
    end.

(** [await response.json()] *)
Definition json (r : Response) : Async Json :=
  match body r with
  | Parsed j => ret j
  | Unparseable m => throw (native_error m)
  end.

(** [await response.json().catch(() => ({}))] *)
Definition json_or_empty (r : Response) : Json :=
  match body r with
  | Parsed j => j
  | Unparseable _ => JObject empty_object
  end.

(** The [TypeError] of a property read on [null], with the message V8
    gives it. *)
Definition TypeError_null (property : string) : JsError :=
  native_error ("Cannot read properties of null (reading '" ++ property ++ "')").

(** Property reads on a parsed document: on an array the four names are
    not defined, and on [null] the read throws. *)
Definition get_access_token (j : Json) : Async JS.Value :=
  match j with
  | JObject o => ret (access_token o)
  | JArray _ => ret JS.Undefined
  | JNull => throw (TypeError_null "access_token")
  end.

Definition get_error_description (j : Json) : Async (option string) :=
  match j with
  | JObject o => ret (error_description o)
  | JArray _ => ret None
  | JNull => throw (TypeError_null "error_description")
  end.

Definition get_records (j : Json) : Async (option (list RawRecord)) :=
  match j with
  | JObject o => ret (records o)
  | JArray _ => ret None
  | JNull => throw (TypeError_null "records")
  end.

Definition get_nextRecordsUrl (j : Json) : Async (option string) :=
  match j with
  | JObject o => ret (nextRecordsUrl o)
  | JArray _ => ret None
  | JNull => throw (TypeError_null "nextRecordsUrl")
  end.

(** [errorData[0]?.message]: the [?.] guards the element, not the document. *)
Definition get_first_message (j : Json) : Async (option string) :=
  match j with
  | JArray (e :: _) => ret (ee_message e)
  | JArray [] => ret None
  | JObject _ => ret None
  | JNull => throw (TypeError_null "0")
  end.

End DataModel.

Arguments Returned {A} a.
Arguments Thrown {A} e.
Arguments OutOfFuel {A}.

Declare Scope async_scope.
Delimit Scope async_scope with async.
Notation "x <- m ;; k" := (bind m (fun x => k))
  (at level 61, m at next level, right associativity) : async_scope.

(** ** The inbound side, shared by both entry points *)

Record IncomingMessage := { method : string }.

Inductive Payload :=
| Ended
| JsonFailure (error : string) (code : string)
| JsonSuccess (data : list (list (string * string))) (recordCount : nat) (fetchedAt : string).

Record ServerResponse := {
  statusCode : Z;
  headers : list (string * string);
  payload : Payload
}.

Definition LF : string := String (ascii_of_nat 10) EmptyString.

(** ** api/salesforce.js *)
Module Salesforce.
Section WithPlatform.
Context {P : Platform}.
Local Open Scope async_scope.

(** Exchange refresh token for access token. *)
Definition refreshAccessToken (host : Host) (remote : Remote) : Async JS.Value :=
  let env := process_env host in
  match JS.truthy (SF_CLIENT_ID env), JS.truthy (SF_CLIENT_SECRET env),
        JS.truthy (SF_REFRESH_TOKEN env) with
  | Some client_id, Some client_secret, Some refresh_token =>
      let tokenUrl := "https://login.salesforce.com/services/oauth2/token" in
      let params :=
        [("grant_type", "refresh_token"); ("client_id", client_id);
         ("client_secret", client_secret); ("refresh_token", refresh_token)] in
      response <- fetch remote
        {| req_url := tokenUrl;
           req_method := "POST";
           req_headers := [("Content-Type", "application/x-www-form-urlencoded")];
           req_body := Some (JS.URLSearchParams_toString params) |} ;;
      if negb (ok response) then
        let errorData := json_or_empty response in
        description <- get_error_description errorData ;;
        throw {| err_message :=
                   JS.or_else description "Failed to authenticate with Salesforce";
                 err_code := Some "AUTH_ERROR";
                 err_status := Some 401 |}
      else
        data <- json response ;;
        get_access_token data
  | _, _, _ =>
      throw {| err_message := "Missing Salesforce credentials in environment variables";
               err_code := Some "CONFIG_ERROR";
               err_status := Some 500 |}
  end.

Definition soqlTemplate : string :=
  LF ++ "        SELECT Id, Amount, CloseDate, Quote_sent_TImestamp_2__c, StageName, Owner.Name"
  ++ LF ++ "        FROM Opportunity"
  ++ LF ++ "        WHERE Quote_sent_TImestamp_2__c != null"
  ++ LF ++ "    ".

Definition soqlQuery : string := JS.collapse_spaces false (JS.trim soqlTemplate).

Definition queryUrl (instanceUrl : string) : string :=
  instanceUrl ++ "/services/data/v59.0/query?q=" ++ JS.encodeURIComponent soqlQuery.

Definition pageRequest (accessToken : JS.Value) (url : string) : Request :=
  {| req_url := url;
     req_method := "GET";
     req_headers := [("Authorization", "Bearer " ++ JS.Value_toString accessToken);
                     ("Content-Type", "application/json")];
     req_body := None |}.

(** The error built for a response that is not [ok]; building it reads the
    body. *)
Definition queryError (response : Response) : Async JsError :=
  let errorData := json_or_empty response in
  message <- get_first_message errorData ;;
  ret {| err_message := JS.or_else message "Failed to query Salesforce";
         err_code := Some "QUERY_ERROR";
         err_status := Some (status response) |}.

(** The [while (nextRecordsUrl)] loop; one unit of fuel per iteration. *)
Fixpoint paginate (fuel : nat) (remote : Remote) (accessToken : JS.Value)
    (instanceUrl : string) (nextRecordsUrl : option string)
    (allRecords : list RawRecord) {struct fuel} : Async (list RawRecord) :=
  match JS.truthy nextRecordsUrl with
  | None => ret allRecords
  | Some url =>
      match fuel with
      | O => out_of_fuel
      | S fuel' =>
          response <- fetch remote (pageRequest accessToken url) ;;
          if negb (ok response) then
            error <- queryError response ;;
            throw error
          else
            data <- json response ;;
            records <- get_records data ;;
            let allRecords' :=
              (allRecords ++ match records with Some rs => rs | None => [] end)%list in
            next <- get_nextRecordsUrl data ;;
            match JS.truthy next with
            | Some path =>
                paginate fuel' remote accessToken instanceUrl
                  (Some (instanceUrl ++ path)) allRecords'
            | None =>
                paginate fuel' remote accessToken instanceUrl None allRecords'
            end
      end
  end.

(** Execute SOQL query against Salesforce. *)
Definition querySalesforce (fuel : nat) (host : Host) (remote : Remote)
    (accessToken : JS.Value) : Async (list RawRecord) :=
  match JS.truthy (SF_INSTANCE_URL (process_env host)) with
  | None =>
      throw {| err_message := "Missing SF_INSTANCE_URL in environment variables";
               err_code := Some "CONFIG_ERROR";
               err_status := Some 500 |}
  | Some instanceUrl =>
      paginate fuel remote accessToken instanceUrl (Some (queryUrl instanceUrl)) []
  end.

(** Convert ISO date to M/D/YYYY format. *)
Definition formatDateMDY (isoDate : option string) : string :=
  match JS.truthy isoDate with
  | None => ""
  | Some s =>
      let parts := JS.split "-" s in
      let year := nth_error parts 0 in
      let month := nth_error parts 1 in
      let day := nth_error parts 2 in
      Number_toString (parseInt month) ++ "/" ++ Number_toString (parseInt day)
        ++ "/" ++ JS.ToString year
  end.

Definition timestampOptions : DateTimeFormatOptions :=
  {| opt_month := Some "numeric";
     opt_day := Some "numeric";
     opt_year := Some "numeric";
     opt_hour := Some "numeric";
     opt_minute := Some "2-digit";
     opt_hour12 := Some true;
     opt_timeZone := Some "America/New_York" |}.

(** Convert ISO timestamp to dashboard format. *)
Definition formatTimestamp (host : Host) (isoTimestamp : option string) : string :=
  match JS.truthy isoTimestamp with
  | None => ""
  | Some s =>
      Date_toLocaleString host (Date_parse (host_timeZone host) s) "en-US" timestampOptions
  end.

(** Derive Close Month from CloseDate. *)
Definition deriveCloseMonth (isoDate : option string) : string :=
  match JS.truthy isoDate with
  | None => ""
  | Some s =>
      let parts := JS.split "-" s in
      let year := nth_error parts 0 in
      let month := nth_error parts 1 in
      Number_toString (parseInt month) ++ "/1/" ++ JS.ToString year
  end.

Definition transformRecord (host : Host) (record : RawRecord) : TransformedRecord :=
  [ ("Amount", match Amount record with Some a => Number_toString a | None => "0" end);
    ("Close Date", formatDateMDY (CloseDate record));
    ("Quote sent TImestamp 2", formatTimestamp host (Quote_sent_TImestamp_2__c record));
    ("Stage", JS.or_else (StageName record) "");
    ("Opportunity Owner",
       JS.or_else (match Owner record with Some o => Name o | None => None end) "Unknown");
    ("Close Month", deriveCloseMonth (CloseDate record)) ].

(** Transform Salesforce API response to the format the dashboard expects. *)
Definition transformData (host : Host) (records : list RawRecord) : list TransformedRecord :=
  map (transformRecord host) records.

Definition corsHeaders : list (string * string) :=
  [ ("Access-Control-Allow-Origin", "*");
    ("Access-Control-Allow-Methods", "GET, OPTIONS");
    ("Access-Control-Allow-Headers", "Content-Type") ].

(** [error.status || 500] *)
Definition status_or_500 (e : JsError) : Z :=
  match err_status e with
  | Some s => if s =? 0 then 500 else s
  | None => 500
  end.

Definition errorResponse (hdrs : list (string * string)) (e : JsError) : ServerResponse :=
  {| statusCode := status_or_500 e;
     headers := hdrs;
     payload := JsonFailure (JS.or_else (Some (err_message e)) "An unexpected error occurred")
                            (JS.or_else (err_code e) "UNKNOWN_ERROR") |}.

(** The exported handler. *)
Definition handler (fuel : nat) (host : Host) (remote : Remote) (req : IncomingMessage)
  : Async ServerResponse :=
  if negb (String.eqb (method req) "GET") then
    ret {| statusCode := 405;
           headers := [];
           payload := JsonFailure "Method not allowed" "METHOD_NOT_ALLOWED" |}
  else if String.eqb (method req) "OPTIONS" then
    ret {| statusCode := 200; headers := corsHeaders; payload := Ended |}
  else
    fun log =>
      match (accessToken <- refreshAccessToken host remote ;;
             opportunities <- querySalesforce fuel host remote accessToken ;;
             ret (transformData host opportunities)) log with
      | (Returned transformedData, log') =>
          (Returned {| statusCode := 200;
                       headers := corsHeaders;
                       payload := JsonSuccess transformedData (length transformedData)
                                    (host_now host) |}, log')
      | (Thrown error, log') => (Returned (errorResponse corsHeaders error), log')
      | (OutOfFuel, log') => (OutOfFuel, log')
      end.

End WithPlatform.
End Salesforce.

(** ** server.js

    The development server carries its own copy of the pipeline; its
    configuration constants are resolved once, when the module is loaded. *)
Module Server.
Section WithPlatform.
Context {P : Platform}.
Local Open Scope async_scope.

Definition formatDateMDY (isoDate : option string) : string :=
  match JS.truthy isoDate with
  | None => ""
  | Some s =>
      let parts := JS.split "-" s in
      let year := nth_error parts 0 in
      let month := nth_error parts 1 in
      let day := nth_error parts 2 in
      Number_toString (parseInt month) ++ "/" ++ Number_toString (parseInt day)
        ++ "/" ++ JS.ToString year
  end.

Definition timestampOptions : DateTimeFormatOptions :=
  {| opt_month := Some "numeric";
     opt_day := Some "numeric";
     opt_year := Some "numeric";
     opt_hour := Some "numeric";
     opt_minute := Some "2-digit";
     opt_hour12 := Some true;
     opt_timeZone := None |}.

Definition formatTimestamp (host : Host) (isoTimestamp : option string) : string :=
  match JS.truthy isoTimestamp with
  | None => ""
  | Some s =>
      Date_toLocaleString host (Date_parse (host_timeZone host) s) "en-US" timestampOptions
  end.

Definition deriveCloseMonth (isoDate : option string) : string :=
  match JS.truthy isoDate with
  | None => ""
  | Some s =>
      let parts := JS.split "-" s in
      let year := nth_error parts 0 in
      let month := nth_error parts 1 in
      Number_toString (parseInt month) ++ "/1/" ++ JS.ToString year
  end.

(** The arrow function mapped over the records in [handleSalesforceAPI]. *)
Definition transformRecord (host : Host) (record : RawRecord) : TransformedRecord :=
  [ ("Amount", match Amount record with Some a => Number_toString a | None => "0" end);
    ("Close Date", formatDateMDY (CloseDate record));
    ("Quote sent TImestamp 2", formatTimestamp host (Quote_sent_TImestamp_2__c record));
    ("Stage", JS.or_else (StageName record) "");
    ("Opportunity Owner",
       JS.or_else (match Owner record with Some o => Name o | None => None end) "Unknown");
    ("Close Month", deriveCloseMonth (CloseDate record)) ].

Definition soqlQuery : string :=
  "SELECT Id, Amount, CloseDate, Quote_sent_TImestamp_2__c, StageName, Owner.Name FROM Opportunity WHERE Quote_sent_TImestamp_2__c != null".

(** The [while (nextUrl)] loop: the status of a response is not looked at,
    and [fetch] is called without a method, which makes it a GET. *)
Fixpoint paginate (fuel : nat) (remote : Remote) (accessToken : JS.Value)
    (instanceUrl : string) (nextUrl : option string)
    (allRecords : list RawRecord) {struct fuel} : Async (list RawRecord) :=
  match JS.truthy nextUrl with
  | None => ret allRecords
  | Some url =>
      match fuel with
      | O => out_of_fuel
      | S fuel' =>
          queryResponse <- fetch remote
            {| req_url := url;
               req_method := "GET";
               req_headers := [("Authorization", "Bearer " ++ JS.Value_toString accessToken);
                               ("Content-Type", "application/json")];
               req_body := None |} ;;
          queryData <- json queryResponse ;;
          records <- get_records queryData ;;
          let allRecords' :=
            match records with
            | Some rs => (allRecords ++ rs)%list
            | None => allRecords
            end in
          next <- get_nextRecordsUrl queryData ;;
          paginate fuel' remote accessToken instanceUrl
            (match JS.truthy next with
             | Some path => Some (instanceUrl ++ path)
             | None => None
             end) allRecords'
      end
  end.

(** [config] holds the four module-level constants; the response carries the
    headers given to [writeHead]. *)
Definition handleSalesforceAPI (fuel : nat) (config : ProcessEnv) (host : Host)
    (remote : Remote) : Async ServerResponse :=
  fun log =>
    match (tokenResponse <- fetch remote
             {| req_url := "https://login.salesforce.com/services/oauth2/token";
                req_method := "POST";
                req_headers := [("Content-Type", "application/x-www-form-urlencoded")];
                req_body := Some (JS.URLSearchParams_toString
                  [("grant_type", "refresh_token");
                   ("client_id", JS.ToString (SF_CLIENT_ID config));
                   ("client_secret", JS.ToString (SF_CLIENT_SECRET config));
                   ("refresh_token", JS.ToString (SF_REFRESH_TOKEN config))]) |} ;;
           tokenData <- json tokenResponse ;;
           accessToken <- get_access_token tokenData ;;
           match JS.truthy (JS.defined accessToken) with
           | None =>
               description <- get_error_description tokenData ;;
               throw (native_error (JS.or_else description "OAuth failed"))
           | Some _ =>
               let instanceUrl := JS.ToString (SF_INSTANCE_URL config) in
               allRecords <- paginate fuel remote accessToken instanceUrl
                 (Some (instanceUrl ++ "/services/data/v59.0/query?q="
                          ++ JS.encodeURIComponent soqlQuery)) [] ;;
               ret (map (transformRecord host) allRecords)
           end) log with
    | (Returned transformedData, log') =>
        (Returned {| statusCode := 200;
                     headers := [("Content-Type", "application/json")];
                     payload := JsonSuccess transformedData (length transformedData)
                                  (host_now host) |}, log')
    | (Thrown error, log') =>
        (Returned {| statusCode := 500;
                     headers := [("Content-Type", "application/json")];
                     payload := JsonFailure (err_message error) "API_ERROR" |}, log')
    | (OutOfFuel, log') => (OutOfFuel, log')
    end.

End WithPlatform.
End Server.

(** ** A reference platform

    Numbers are integers, date texts are ISO date-times with milliseconds and
    an optional offset, and every format request is answered with the [en-US]
    pattern [M/d/y, h:mm a] (an ASCII space before the day period, as in the
    locale data before CLDR 42), computed with the offsets of four United
    States zones under the daylight-time rule in force since 2007; any other
    zone name is rendered as UTC. It stands for [Date] and [Intl] on the
    inputs of the concrete runs below and is not a model of them beyond:
    the locale and the options of a format request are not looked at, an
    integer beyond the safe range is printed exactly, and a date text
    without milliseconds is an invalid date. *)
Module Reference.

Definition days_from_civil (y m d : Z) : Z :=
  let y' := if m <=? 2 then y - 1 else y in
  let era := y' / 400 in
  let yoe := y' - era * 400 in
  let doy := (153 * (if m <=? 2 then m + 9 else m - 3) + 2) / 5 + d - 1 in
  let doe := yoe * 365 + yoe / 4 - yoe / 100 + doy in
  era * 146097 + doe - 719468.

(** Year, month and day of a day number counted from 1970-01-01. *)
Definition civil_from_days (z : Z) : Z * Z * Z :=
  let z' := z + 719468 in
  let era := z' / 146097 in
  let doe := z' - era * 146097 in
  let yoe := (doe - doe / 1460 + doe / 36524 - doe / 146096) / 365 in
  let doy := doe - (365 * yoe + yoe / 4 - yoe / 100) in
  let mp := (5 * doy + 2) / 153 in
  let d := doy - (153 * mp + 2) / 5 + 1 in
  let m := if mp <? 10 then mp + 3 else mp - 9 in
  ((if m <=? 2 then yoe + era * 400 + 1 else yoe + era * 400), m, d).

(** Day of the week, Sunday being 0. *)
Definition weekday (days : Z) : Z := (days + 4) mod 7.

(** Day number of the [n]-th Sunday of a month. *)
Definition nth_sunday (y m n : Z) : Z :=
  let first := days_from_civil y m 1 in
  first + (7 - weekday first) mod 7 + 7 * (n - 1).

Definition ms_per_day : Z := 86400000.

(** Daylight time runs from 2:00 standard time on the second Sunday of March
    to 2:00 daylight time on the first Sunday of November. *)
Definition us_offset_minutes (standard : Z) (t : Z) : Z :=
  let '(y, _, _) := civil_from_days (t / ms_per_day) in
  let start := nth_sunday y 3 2 * ms_per_day + (120 - standard) * 60000 in
  let stop := nth_sunday y 11 1 * ms_per_day + (120 - (standard + 60)) * 60000 in
  if (start <=? t) && (t <? stop) then standard + 60 else standard.

Definition zone_offset_minutes (zone : string) (t : Z) : Z :=
  if String.eqb zone "America/New_York" then us_offset_minutes (-300) t
  else if String.eqb zone "America/Chicago" then us_offset_minutes (-360) t
  else if String.eqb zone "America/Denver" then us_offset_minutes (-420) t
  else if String.eqb zone "America/Los_Angeles" then us_offset_minutes (-480) t
  else 0.

Definition two_digits (n : Z) : string :=
  if n <? 10 then "0" ++ JS.decimal n else JS.decimal n.

Definition format_en_US (zone : string) (t : Z) : string :=
  let local := t + zone_offset_minutes zone t * 60000 in
  let '(y, m, d) := civil_from_days (local / ms_per_day) in
  let minutes := (local mod ms_per_day) / 60000 in
  let h := minutes / 60 in
  let h12 := if h mod 12 =? 0 then 12 else h mod 12 in
  JS.decimal m ++ "/" ++ JS.decimal d ++ "/" ++ JS.decimal y ++ ", "
    ++ JS.decimal h12 ++ ":" ++ two_digits (minutes mod 60)
    ++ (if h <? 12 then " AM" else " PM").

(** A run of exactly [n] decimal digits. *)
Definition number_at (s : string) (start n : nat) : option Z :=
  let t := substring start n s in
  if (String.length t =? n)%nat
     && forallb (fun c => match JS.digit_value c with Some _ => true | None => false end)
          (list_ascii_of_string t)
  then JS.digits_prefix None t else None.

Definition char_at (s : string) (i : nat) (c : ascii) : bool :=
  match String.get i s with
  | Some c' => Ascii.eqb c c'
  | None => false
  end.

(** The offset of a local time that carries none: the offset in force the
    day before when it fits, also for a local time that occurs twice or not
    at all, and the one in force the day after otherwise. *)
Definition local_offset_minutes (zone : string) (local : Z) : Z :=
  let before := zone_offset_minutes zone (local - ms_per_day) in
  let after := zone_offset_minutes zone (local + ms_per_day) in
  if zone_offset_minutes zone (local - before * 60000) =? before then before
  else if zone_offset_minutes zone (local - after * 60000) =? after then after
  else before.

(** The offset suffix: none, [Z], [+HH:mm], [-HH:mm], [+HHmm] or [-HHmm];
    minutes east of UTC. *)
Definition parse_offset (zone : string) (local : Z) (s : string) : option Z :=
  if String.eqb s "" then Some (local_offset_minutes zone local)
  else if String.eqb s "Z" then Some 0
  else
    let sign := if char_at s 0 "+" then Some 1 else if char_at s 0 "-" then Some (-1) else None in
    let mm_at := if char_at s 3 ":" then 4%nat else 3%nat in
    match sign, number_at s 1 2, number_at s mm_at 2 with
    | Some sg, Some hh, Some mm =>
        if (String.length s =? mm_at + 2)%nat && (hh <? 24) && (mm <? 60)
        then Some (sg * (hh * 60 + mm)) else None
    | _, _, _ => None
    end.

(** [YYYY-MM-DDTHH:mm:ss.sss] followed by an offset, or by none for a
    local time of the host's zone. *)
Definition parse_iso (zone : string) (s : string) : option Z :=
  match number_at s 0 4, number_at s 5 2, number_at s 8 2,
        number_at s 11 2, number_at s 14 2, number_at s 17 2, number_at s 20 3 with
  | Some y, Some mo, Some d, Some h, Some mi, Some sec, Some ms =>
      let local := days_from_civil y mo d * ms_per_day
                   + ((h * 60 + mi) * 60 + sec) * 1000 + ms in
      match parse_offset zone local (substring 23 (String.length s - 23) s) with
      | Some off =>
          if char_at s 4 "-" && char_at s 7 "-" && char_at s 10 "T" && char_at s 13 ":"
             && char_at s 16 ":" && char_at s 19 "."
             && (1 <=? mo) && (mo <=? 12) && (1 <=? d) && (d <=? 31)
             && (h <? 24) && (mi <? 60) && (sec <? 60)
          then Some (local - off * 60000)
          else None
      | None => None
      end
  | _, _, _, _, _, _, _ => None
  end.

#[export] Instance platform : Platform := {|
  Float := Z;
  Float_toString := JS.decimal;
  Float_ofZ := fun z => z;
  Date_parse := parse_iso;
  DateTimeFormat := fun _ _ zone t => format_en_US zone t
|}.

End Reference.

(** ** Vocabulary of the properties *)
Section Vocabulary.
Context {P : Platform}.

(** [obj[key]] on an output row. *)
Fixpoint field (key : string) (row : TransformedRecord) : option string :=
  match row with
  | [] => None
  | (k, v) :: rest => if String.eqb k key then Some v else field key rest
  end.

Definition sixKeys : list string :=
  ["Amount"; "Close Date"; "Quote sent TImestamp 2"; "Stage"; "Opportunity Owner"; "Close Month"].

(** The decimal digit [d] as a character. *)
Definition digit (d : nat) : ascii := ascii_of_nat (48 + d).

(** The text [YYYY-MM-DD] with the given digits. *)
Definition iso_date (y1 y2 y3 y4 m1 m2 d1 d2 : nat) : string :=
  String (digit y1) (String (digit y2) (String (digit y3) (String (digit y4)
    (String "-" (String (digit m1) (String (digit m2)
      (String "-" (String (digit d1) (String (digit d2) EmptyString))))))))).

Definition year_text (y1 y2 y3 y4 : nat) : string :=
  String (digit y1) (String (digit y2) (String (digit y3) (String (digit y4) EmptyString))).

(** The records a page carries: those of the [records] array of an object. *)
Definition page_records (r : Response) : list RawRecord :=
  match body r with
  | Parsed (JObject o) => match records o with Some rs => rs | None => [] end
  | _ => []
  end.

(** The continuation field of a page, when its body is an object that has
    one. *)
Definition page_nextRecordsUrl (r : Response) : option string :=
  match body r with
  | Parsed (JObject o) => nextRecordsUrl o
  | _ => None
  end.

(** A response whose body is a JSON document other than [null]. *)
Definition readable (r : Response) : bool :=
  match body r with
  | Parsed (JObject _) | Parsed (JArray _) => true
  | Parsed JNull | Unparseable _ => false
  end.

(** A successful page response: a 2xx status and a body that is a JSON
    document other than [null]. *)
Definition successful (r : Response) : bool := ok r && readable r.

(** The error thrown for a page response that is not [ok]: the
    [QUERY_ERROR] with the response's status and the message of the first
    error entry, or the [TypeError] of reading the first entry of [null]. *)
Definition page_failure (r : Response) : JsError :=
  match body r with
  | Parsed JNull => TypeError_null "0"
  | Parsed (JArray (entry :: _)) =>
      {| err_message := JS.or_else (ee_message entry) "Failed to query Salesforce";
         err_code := Some "QUERY_ERROR";
         err_status := Some (status r) |}
  | _ =>
      {| err_message := "Failed to query Salesforce";
         err_code := Some "QUERY_ERROR";
         err_status := Some (status r) |}
  end.

(** The error thrown for a token response that is not [ok]: the
    [AUTH_ERROR] with the description the body gives, or the [TypeError] of
    reading the description of [null]. *)
Definition token_failure (r : Response) : JsError :=
  match body r with
  | Parsed JNull => TypeError_null "error_description"
  | Parsed (JObject o) =>
      {| err_message := JS.or_else (error_description o) "Failed to authenticate with Salesforce";
         err_code := Some "AUTH_ERROR";
         err_status := Some 401 |}
  | _ =>
      {| err_message := "Failed to authenticate with Salesforce";
         err_code := Some "AUTH_ERROR";
         err_status := Some 401 |}
  end.

(** What reading [access_token] off a document comes to. *)
Definition token_read (j : Json) : Outcome JS.Value :=
  match j with
  | JObject o => Returned (access_token o)
  | JArray _ => Returned JS.Undefined
  | JNull => Thrown (TypeError_null "access_token")
  end.

(** A successful page whose continuation field the loop follows. *)
Definition continuing (r : Response) : bool :=
  successful r && match JS.truthy (page_nextRecordsUrl r) with Some _ => true | None => false end.

(** A successful page whose continuation field is absent, [null] or empty. *)
Definition final (r : Response) : bool :=
  successful r && match JS.truthy (page_nextRecordsUrl r) with Some _ => false | None => true end.

(** A successful page that carries the continuation field, whatever its value. *)
Definition carries_field (r : Response) : bool :=
  successful r && match page_nextRecordsUrl r with Some _ => true | None => false end.

(** A successful page that omits the continuation field. *)
Definition omits_field (r : Response) : bool :=
  successful r && match page_nextRecordsUrl r with Some _ => false | None => true end.

(** The URLs requested by a pagination run that starts at [url] and receives
    [pages] in turn. *)
Fixpoint run_urls (instanceUrl url : string) (pages : list Response) : list string :=
  url :: match pages with
         | [] => []
         | r :: rest =>
             match JS.truthy (page_nextRecordsUrl r) with
             | Some path => run_urls instanceUrl (instanceUrl ++ path) rest
             | None => []
             end
         end.

(** From its [idx]-th request on, the remote answers the page requests for
    [urls] with [responses], one by one. *)
Fixpoint answers (remote : Remote) (accessToken : JS.Value) (idx : nat)
    (urls : list string) (responses : list Response) : Prop :=
  match urls, responses with
  | url :: urls', r :: responses' =>
      remote idx (Salesforce.pageRequest accessToken url) = Resolved r
      /\ answers remote accessToken (S idx) urls' responses'
  | _, _ => True
  end.

(** A remote that plays back a script, whatever it is asked. *)
Definition scripted (script : list Response) : Remote :=
  fun idx _ =>
    match nth_error script idx with
    | Some r => Resolved r
    | None => Rejected "fetch failed"
    end.

(** A remote that never runs out of pages. *)
Definition endless (pages : nat -> Response) : Remote :=
  fun idx _ => Resolved (pages idx).

Definition page (rs : list RawRecord) (next : option string) : Response :=
  {| status := 200;
     body := Parsed (JObject {| access_token := JS.Undefined; error_description := None;
                                records := Some rs; nextRecordsUrl := next |}) |}.

Definition configured (id secret refresh url : option string) : Host :=
  {| process_env := {| SF_CLIENT_ID := id; SF_CLIENT_SECRET := secret;
                       SF_REFRESH_TOKEN := refresh; SF_INSTANCE_URL := url |};
     host_timeZone := "UTC";
     host_now := "2024-01-01T00:00:00.000Z" |}.

Definition host_in (zone : string) : Host :=
  {| process_env := {| SF_CLIENT_ID := None; SF_CLIENT_SECRET := None;
                       SF_REFRESH_TOKEN := None; SF_INSTANCE_URL := None |};
     host_timeZone := zone;
     host_now := "2024-01-01T00:00:00.000Z" |}.

Definition opportunity (id : string) : RawRecord :=
  {| Id := Some id; Amount := None; CloseDate := None;
     Quote_sent_TImestamp_2__c := None; StageName := None; Owner := None |}.

(** The request [refreshAccessToken] sends for the given credentials. *)
Definition token_request (client_id client_secret refresh_token : string) : Request :=
  {| req_url := "https://login.salesforce.com/services/oauth2/token";
     req_method := "POST";
     req_headers := [("Content-Type", "application/x-www-form-urlencoded")];
     req_body := Some (JS.URLSearchParams_toString
       [("grant_type", "refresh_token"); ("client_id", client_id);
        ("client_secret", client_secret); ("refresh_token", refresh_token)]) |}.

Definition token_response (code : Z) (token : JS.Value) (description : option string)
  : Response :=
  {| status := code;
     body := Parsed (JObject {| access_token := token; error_description := description;
                                records := None; nextRecordsUrl := None |}) |}.

Definition configError (message : string) : JsError :=
  {| err_message := message; err_code := Some "CONFIG_ERROR"; err_status := Some 500 |}.

End Vocabulary.

(** ** More of the runtime: trimming, joining and POSIX paths *)
Module Node.

(** [String.prototype.trimEnd]: everything from the point on where only
    white space and line terminators follow is dropped. *)
Fixpoint trimEnd (s : string) : string :=
  match s with
  | EmptyString => EmptyString
  | String c rest =>
      if String.eqb (JS.skip_white_space s) "" then EmptyString
      else String c (trimEnd rest)
  end.

(** [String.prototype.trim] *)
Definition trim (s : string) : string := trimEnd (JS.skip_white_space s).

(** [Array.prototype.join] on an array of strings. *)
Fixpoint join (sep : string) (parts : list string) : string :=
  match parts with
  | [] => ""
  | [x] => x
  | x :: rest => x ++ sep ++ join sep rest
  end.

(** The segment stack of [path.normalize]: empty and [.] segments are
    dropped, [..] removes the segment before it, and is kept only where
    the path may climb above its start. [stack] is innermost first. *)
Fixpoint normalize_segments (allowAboveRoot : bool) (stack segments : list string)
  : list string :=
  match segments with
  | [] => rev stack
  | seg :: rest =>
      if String.eqb seg "" || String.eqb seg "." then
        normalize_segments allowAboveRoot stack rest
      else if String.eqb seg ".." then
        match stack with
        | top :: below =>
            if String.eqb top ".."
            then normalize_segments allowAboveRoot
                   (if allowAboveRoot then ".." :: stack else stack) rest
            else normalize_segments allowAboveRoot below rest
        | [] =>
            normalize_segments allowAboveRoot
              (if allowAboveRoot then [".."] else []) rest
        end
      else normalize_segments allowAboveRoot (seg :: stack) rest
  end.

Definition starts_with_slash (s : string) : bool :=
  match s with String "/" _ => true | _ => false end.

Fixpoint ends_with_slash (s : string) : bool :=
  match s with
  | EmptyString => false
  | String c EmptyString => Ascii.eqb c "/"
  | String _ rest => ends_with_slash rest
  end.

(** [path.normalize] *)
Definition path_normalize (path : string) : string :=
  if String.eqb path "" then "."
  else
    let isAbsolute := starts_with_slash path in
    let trailingSeparator := ends_with_slash path in
    let body := join "/" (normalize_segments (negb isAbsolute) [] (JS.split "/" path)) in
    if String.eqb body "" then
      if isAbsolute then "/" else if trailingSeparator then "./" else "."
    else
      let body' := if trailingSeparator then body ++ "/" else body in
      if isAbsolute then "/" ++ body' else body'.

(** [path.join]: the non-empty arguments joined by a slash, normalized. *)
Definition path_join (parts : list string) : string :=
  match filter (fun p => negb (String.eqb p "")) parts with
  | [] => "."
  | nonempty => path_normalize (join "/" nonempty)
  end.

(** The text from the last dot on, [None] without a dot. *)
Fixpoint from_last_dot (s : string) : option string :=
  match s with
  | EmptyString => None
  | String c rest =>
      match from_last_dot rest with
      | Some e => Some e
      | None => if Ascii.eqb c "." then Some s else None
      end
  end.

(** [path.extname]: the extension of the last non-empty segment, from its
    last dot on; none when that dot starts the segment or the segment is
    [..]. *)
Definition path_extname (path : string) : string :=
  match last (filter (fun p => negb (String.eqb p "")) (JS.split "/" path)) "" with
  | EmptyString => ""
  | String c rest =>
      if String.eqb (String c rest) ".." then ""
      else match from_last_dot rest with Some e => e | None => "" end
  end.

End Node.

(** ** server.js: configuration, routing and static files *)
Module DevServer.

(** An object built by assignments of texts: the assignments in the order
    they were made. Reading a property gives the value assigned last. The
    properties the program reads are the four settings, none of which the
    object inherits. *)
Definition Env := list (string * string).

Fixpoint env_get (name : string) (env : Env) : option string :=
  match env with
  | [] => None
  | (k, v) :: rest =>
      match env_get name rest with
      | Some later => Some later
      | None => if String.eqb k name then Some v else None
      end
  end.

(** The body of the [forEach] callback: the assignment a line makes, if any.
    Assigning a text to [__proto__] leaves an object as it is. *)
Definition envLine (line : string) : Env :=
  match JS.split "=" line with
  | key :: valueParts =>
      match JS.truthy (Some key), valueParts with
      | Some _, _ :: _ =>
          if String.eqb (Node.trim key) "__proto__" then []
          else [(Node.trim key, Node.trim (Node.join "=" valueParts))]
      | _, _ => []
      end
  | [] => []
  end.

(** Load environment variables from .env.local; [None] stands for a file
    that cannot be read. *)
Definition loadEnvFile (envContent : option string) : Env :=
  match envContent with
  | Some content => flat_map envLine (JS.split (ascii_of_nat 10) content)
  | None => []
  end.

(** [a || b] for a value from the file and one from [process.env]. *)
Definition or_env (a b : option string) : option string :=
  match JS.truthy a with
  | Some s => Some s
  | None => b
  end.

(** The four module-level constants. *)
Definition config (envContent : option string) (process_env : ProcessEnv) : ProcessEnv :=
  let env := loadEnvFile envContent in
  {| SF_CLIENT_ID := or_env (env_get "SF_CLIENT_ID" env) (SF_CLIENT_ID process_env);
     SF_CLIENT_SECRET := or_env (env_get "SF_CLIENT_SECRET" env) (SF_CLIENT_SECRET process_env);
     SF_REFRESH_TOKEN := or_env (env_get "SF_REFRESH_TOKEN" env) (SF_REFRESH_TOKEN process_env);
     SF_INSTANCE_URL := or_env (env_get "SF_INSTANCE_URL" env) (SF_INSTANCE_URL process_env) |}.

Definition mimeTypes (ext : string) : option string :=
  if String.eqb ext ".html" then Some "text/html"
  else if String.eqb ext ".css" then Some "text/css"
  else if String.eqb ext ".js" then Some "application/javascript"
  else if String.eqb ext ".json" then Some "application/json"
  else if String.eqb ext ".csv" then Some "text/csv"
  else None.

Record HttpRequest := { http_method : string; http_url : string }.

Inductive Sent :=
| NoBody
| Raw (content : string)
| Json (p : Payload).

Record Reply := {
  reply_status : Z;
  reply_headers : list (string * string);
  reply_body : Sent
}.

Section WithPlatform.
Context {P : Platform}.
Local Open Scope async_scope.

Definition corsHeaders : list (string * string) :=
  [ ("Access-Control-Allow-Origin", "*");
    ("Access-Control-Allow-Methods", "GET, OPTIONS") ].

(** The listener given to [http.createServer]. [dirname] is the directory
    of the script and [readFile] the file system: the content of a path, or
    [None] when reading fails. Headers set with [setHeader] come first,
    those given to [writeHead] after them. *)
Definition requestListener (fuel : nat) (settings : ProcessEnv) (host : Host)
    (remote : Remote) (dirname : string) (readFile : string -> option string)
    (req : HttpRequest) : Async Reply :=
  if String.eqb (http_method req) "OPTIONS" then
    ret {| reply_status := 200; reply_headers := corsHeaders; reply_body := NoBody |}
  else if String.eqb (http_url req) "/api/salesforce" then
    res <- Server.handleSalesforceAPI fuel settings host remote ;;
    ret {| reply_status := statusCode res;
           reply_headers := (corsHeaders ++ headers res)%list;
           reply_body := Json (payload res) |}
  else
    let filePath := if String.eqb (http_url req) "/" then "/index.html" else http_url req in
    let filePath := Node.path_join [dirname; "public"; filePath] in
    let ext := Node.path_extname filePath in
    let contentType :=
      match mimeTypes ext with Some t => t | None => "application/octet-stream" end in
    match readFile filePath with
    | None =>
        ret {| reply_status := 404; reply_headers := corsHeaders;
               reply_body := Raw "Not Found" |}
    | Some content =>
        ret {| reply_status := 200;
               reply_headers := (corsHeaders ++ [("Content-Type", contentType)])%list;
               reply_body := Raw content |}
    end.

End WithPlatform.
End DevServer.

(** ** Vocabulary of the further properties *)
Section FurtherVocabulary.
Context {P : Platform}.

(** How often a character occurs in a text. *)
Fixpoint occurrences (c : ascii) (s : string) : nat :=
  match s with
  | EmptyString => O
  | String c' rest => ((if Ascii.eqb c' c then 1 else 0) + occurrences c rest)%nat
  end.

(** A text in which a character does not occur. *)
Definition free_of (c : ascii) (s : string) : Prop := occurrences c s = O.

(** A path segment that [path.normalize] keeps as it is. *)
Definition plain_segment (s : string) : Prop :=
  s <> "" /\ s <> "." /\ s <> ".." /\ free_of "/" s.

(** The absolute path with the given segments. *)
Definition absolute (segments : list string) : string := "/" ++ Node.join "/" segments.

(** A page answered with an arbitrary status. *)
Definition answer (code : Z) (rs : option (list RawRecord)) (next : option string)
  : Response :=
  {| status := code;
     body := Parsed (JObject {| access_token := JS.Undefined; error_description := None;
                                records := rs; nextRecordsUrl := next |}) |}.

Definition acme : Host :=
  configured (Some "id") (Some "secret") (Some "refresh")
    (Some "https://acme.my.salesforce.com").

Definition hex_value (c : ascii) : option nat :=
  let n := nat_of_ascii c in
  if ((48 <=? n) && (n <=? 57))%nat then Some (n - 48)%nat
  else if ((65 <=? n) && (n <=? 70))%nat then Some (n - 55)%nat
  else if ((97 <=? n) && (n <=? 102))%nat then Some (n - 87)%nat
  else None.

(** Reading a form-encoded text back: [+] is a space and [%XY] a byte. *)
Fixpoint form_decode (s : string) : string :=
  match s with
  | EmptyString => EmptyString
  | String c rest =>
      if Ascii.eqb c "+" then String " " (form_decode rest)
      else if Ascii.eqb c "%" then
        match rest with
        | String h (String l rest') =>
            match hex_value h, hex_value l with
            | Some a, Some b => String (ascii_of_nat (16 * a + b)) (form_decode rest')
            | _, _ => String c (form_decode rest)
            end
        | _ => String c (form_decode rest)
        end
      else String c (form_decode rest)
  end.

Definition GET : IncomingMessage := {| method := "GET" |}.

(** With the three credentials set, [sent] is the token request and
    [outcome] what the remote makes of it as the next request after [log]. *)
Definition token_exchange (host : Host) (remote : Remote) (log : list Request)
    (sent : Request) (outcome : FetchOutcome) : Prop :=
  exists client_id client_secret refresh_token,
    JS.truthy (SF_CLIENT_ID (process_env host)) = Some client_id
    /\ JS.truthy (SF_CLIENT_SECRET (process_env host)) = Some client_secret
    /\ JS.truthy (SF_REFRESH_TOKEN (process_env host)) = Some refresh_token
    /\ sent = token_request client_id client_secret refresh_token
    /\ remote (length log) sent = outcome.

(** The token request of the development server: constants that are not
    set go out as the text [undefined]. *)
Definition server_token_request (settings : ProcessEnv) : Request :=
  token_request (JS.ToString (SF_CLIENT_ID settings))
    (JS.ToString (SF_CLIENT_SECRET settings))
    (JS.ToString (SF_REFRESH_TOKEN settings)).

(** The non-empty access token of a document, if it has one. *)
Definition granted_token (j : Json) : option string :=
  match j with
  | JObject o => JS.truthy (JS.defined (access_token o))
  | JArray _ | JNull => None
  end.

(** The first URL the development server queries. *)
Definition server_queryUrl (settings : ProcessEnv) : string :=
  JS.ToString (SF_INSTANCE_URL settings) ++ "/services/data/v59.0/query?q="
    ++ JS.encodeURIComponent Server.soqlQuery.

(** The name a line of the configuration file assigns to: the text before
    its first [=], trimmed, when that text is not empty; [None] for a line
    that assigns nothing. *)
Definition assigned_name (line : string) : option string :=
  match JS.split "=" line with
  | key :: _ :: _ => if String.eqb key "" then None else Some (Node.trim key)
  | _ => None
  end.

(** One of the four settings, by the name of its variable. *)
Definition setting (name : string) (settings : ProcessEnv) : option string :=
  if String.eqb name "SF_CLIENT_ID" then SF_CLIENT_ID settings
  else if String.eqb name "SF_CLIENT_SECRET" then SF_CLIENT_SECRET settings
  else if String.eqb name "SF_REFRESH_TOKEN" then SF_REFRESH_TOKEN settings
  else if String.eqb name "SF_INSTANCE_URL" then SF_INSTANCE_URL settings
  else None.

Definition is_setting (name : string) : bool :=
  String.eqb name "SF_CLIENT_ID" || String.eqb name "SF_CLIENT_SECRET"
  || String.eqb name "SF_REFRESH_TOKEN" || String.eqb name "SF_INSTANCE_URL".

(** A status outside 200..299. *)
Definition not_2xx (code : Z) : Prop := code < 200 \/ 299 < code.

Definition starts_with_digit (s : string) : bool :=
  match s with
  | String c _ => match JS.digit_value c with Some _ => true | None => false end
  | EmptyString => false
  end.

End FurtherVocabulary.

(** * Properties *)

(** ** The runtime fragment on small inputs *)

Example split_date : JS.split "-" "2023-07-20" = ["2023"; "07"; "20"].
Proof. reflexivity. Qed.

Example split_without_separator : JS.split "-" "" = [""] /\ JS.split "-" "2023" = ["2023"].
Proof. split; reflexivity. Qed.

Example split_trailing_separator : JS.split "-" "a-" = ["a"; ""].
Proof. reflexivity. Qed.

Example parseInt10_samples :
  JS.parseInt10_value "07" = Some 7
  /\ JS.parseInt10_value " -12abc" = Some (-12)
  /\ JS.parseInt10_value "undefined" = None
  /\ JS.parseInt10_value "" = None.
Proof. repeat split; reflexivity. Qed.

Example decimal_samples : JS.decimal 20 = "20" /\ JS.decimal 0 = "0" /\ JS.decimal (-5) = "-5".
Proof. repeat split; reflexivity. Qed.

Example URLSearchParams_sample :
  JS.URLSearchParams_toString [("a", "x y"); ("b", "1/2")] = "a=x+y&b=1%2F2".
Proof. reflexivity. Qed.

Example soqlQuery_collapsed :
  Salesforce.soqlQuery =
  "SELECT Id, Amount, CloseDate, Quote_sent_TImestamp_2__c, StageName, Owner.Name FROM Opportunity WHERE Quote_sent_TImestamp_2__c != null".
Proof. reflexivity. Qed.

Lemma split_nonempty (sep : ascii) (s : string) : JS.split sep s <> [].
Proof.
  destruct s as [|c rest]; simpl; [discriminate|].
  destruct (Ascii.eqb c sep); [discriminate|].
  destruct (JS.split sep rest); discriminate.
Qed.

Lemma split_other (sep c : ascii) (s : string) :
  Ascii.eqb c sep = false ->
  JS.split sep (String c s) =
    String c (hd EmptyString (JS.split sep s)) :: tl (JS.split sep s).
Proof.
  intros Hc. simpl. rewrite Hc.
  pose proof (split_nonempty sep s) as Hne.
  destruct (JS.split sep s); [contradiction|reflexivity].
Qed.

Lemma split_separator (sep : ascii) (s : string) :
  JS.split sep (String sep s) = EmptyString :: JS.split sep s.
Proof. simpl. now rewrite Ascii.eqb_refl. Qed.

Ltac each_digit d H :=
  do 10 (destruct d as [|d]; [try reflexivity|]); exfalso; lia.

Lemma digit_not_dash (d : nat) : (d < 10)%nat -> Ascii.eqb (digit d) "-" = false.
Proof. intros H. each_digit d H. Qed.

Lemma split_iso_date (y1 y2 y3 y4 m1 m2 d1 d2 : nat) :
  (y1 < 10)%nat -> (y2 < 10)%nat -> (y3 < 10)%nat -> (y4 < 10)%nat ->
  (m1 < 10)%nat -> (m2 < 10)%nat -> (d1 < 10)%nat -> (d2 < 10)%nat ->
  JS.split "-" (iso_date y1 y2 y3 y4 m1 m2 d1 d2) =
    [ year_text y1 y2 y3 y4;
      String (digit m1) (String (digit m2) EmptyString);
      String (digit d1) (String (digit d2) EmptyString) ].
Proof.
  intros. unfold iso_date, year_text.
  repeat first [ rewrite split_separator
               | rewrite split_other by (apply digit_not_dash; assumption) ].
  reflexivity.
Qed.

Section Transformation.
Context {P : Platform}.

Lemma parseInt_two_digits (a b : nat) :
  (a < 10)%nat -> (b < 10)%nat ->
  parseInt (Some (String (digit a) (String (digit b) EmptyString)))
  = Int (Z.of_nat (10 * a + b)).
Proof.
  intros Ha Hb.
  do 10 (destruct a as [|a]; [each_digit b Hb|]). exfalso; lia.
Qed.

(** The rendering of a two-digit field has no leading zero, unless the
    field is zero and the rendering is the single digit. *)
Lemma decimal_no_leading_zero (a b : nat) :
  (a < 10)%nat -> (b < 10)%nat ->
  JS.decimal (Z.of_nat (10 * a + b)) = "0"
  \/ String.get 0 (JS.decimal (Z.of_nat (10 * a + b))) <> Some "0"%char.
Proof.
  intros Ha Hb.
  do 10 (destruct a as [|a];
         [do 10 (destruct b as [|b];
                 [first [left; reflexivity | right; discriminate]|]); exfalso; lia|]).
  exfalso; lia.
Qed.

(** The two date columns of a row are the two helpers applied to
    [CloseDate]. *)
Lemma transformRecord_date_columns (host : Host) (record : RawRecord) :
  field "Close Date" (Salesforce.transformRecord host record)
  = Some (Salesforce.formatDateMDY (CloseDate record))
  /\ field "Close Month" (Salesforce.transformRecord host record)
     = Some (Salesforce.deriveCloseMonth (CloseDate record)).
Proof. split; reflexivity. Qed.

(** C7. For a record whose [CloseDate] has the form YYYY-MM-DD, the [Close
    Date] of its row is M/D/YYYY and the [Close Month] is M/1/YYYY, month and
    day being the decimal renderings of their two-digit fields, without
    leading zero, and the year text passed through; this is what the two
    helpers return, it comes from splitting on [-] alone and holds on every
    platform and every host. A record whose [CloseDate] is null has the
    empty string in both columns. *)
Theorem close_date_by_string_split (host : Host) (record : RawRecord)
    (y1 y2 y3 y4 m1 m2 d1 d2 : nat) :
  (y1 < 10)%nat -> (y2 < 10)%nat -> (y3 < 10)%nat -> (y4 < 10)%nat ->
  (m1 < 10)%nat -> (m2 < 10)%nat -> (d1 < 10)%nat -> (d2 < 10)%nat ->
  CloseDate record = Some (iso_date y1 y2 y3 y4 m1 m2 d1 d2) ->
  field "Close Date" (Salesforce.transformRecord host record)
    = Some (JS.decimal (Z.of_nat (10 * m1 + m2)) ++ "/" ++ JS.decimal (Z.of_nat (10 * d1 + d2))
            ++ "/" ++ year_text y1 y2 y3 y4)
  /\ field "Close Month" (Salesforce.transformRecord host record)
    = Some (JS.decimal (Z.of_nat (10 * m1 + m2)) ++ "/1/" ++ year_text y1 y2 y3 y4)
  /\ Salesforce.formatDateMDY (Some (iso_date y1 y2 y3 y4 m1 m2 d1 d2))
    = JS.decimal (Z.of_nat (10 * m1 + m2)) ++ "/" ++ JS.decimal (Z.of_nat (10 * d1 + d2))
        ++ "/" ++ year_text y1 y2 y3 y4
  /\ Salesforce.deriveCloseMonth (Some (iso_date y1 y2 y3 y4 m1 m2 d1 d2))
    = JS.decimal (Z.of_nat (10 * m1 + m2)) ++ "/1/" ++ year_text y1 y2 y3 y4
  /\ (JS.decimal (Z.of_nat (10 * m1 + m2)) = "0"
      \/ String.get 0 (JS.decimal (Z.of_nat (10 * m1 + m2))) <> Some "0"%char)
  /\ (JS.decimal (Z.of_nat (10 * d1 + d2)) = "0"
      \/ String.get 0 (JS.decimal (Z.of_nat (10 * d1 + d2))) <> Some "0"%char)
  /\ (forall other : RawRecord,
        CloseDate other = None ->
        field "Close Date" (Salesforce.transformRecord host other) = Some ""
        /\ field "Close Month" (Salesforce.transformRecord host other) = Some "")
  /\ Salesforce.formatDateMDY None = ""
  /\ Salesforce.deriveCloseMonth None = "".
Proof.
  intros Hy1 Hy2 Hy3 Hy4 Hm1 Hm2 Hd1 Hd2 Hdate.
  assert (Htruthy : JS.truthy (Some (iso_date y1 y2 y3 y4 m1 m2 d1 d2))
                    = Some (iso_date y1 y2 y3 y4 m1 m2 d1 d2)) by reflexivity.
  assert (Hhelpers :
    Salesforce.formatDateMDY (Some (iso_date y1 y2 y3 y4 m1 m2 d1 d2))
      = JS.decimal (Z.of_nat (10 * m1 + m2)) ++ "/" ++ JS.decimal (Z.of_nat (10 * d1 + d2))
          ++ "/" ++ year_text y1 y2 y3 y4
    /\ Salesforce.deriveCloseMonth (Some (iso_date y1 y2 y3 y4 m1 m2 d1 d2))
      = JS.decimal (Z.of_nat (10 * m1 + m2)) ++ "/1/" ++ year_text y1 y2 y3 y4).
  { unfold Salesforce.formatDateMDY, Salesforce.deriveCloseMonth.
    rewrite Htruthy, split_iso_date by assumption.
    cbn [nth_error JS.ToString JS.truthy].
    rewrite !parseInt_two_digits by assumption. split; reflexivity. }
  destruct Hhelpers as [Hmdy Hmonth].
  destruct (transformRecord_date_columns host record) as [Hcol1 Hcol2].
  rewrite Hcol1, Hcol2, Hdate, Hmdy, Hmonth.
  repeat split; try reflexivity; try (now apply decimal_no_leading_zero);
    destruct (transformRecord_date_columns host other) as [Ho1 Ho2];
    rewrite ?Ho1, ?Ho2, H; reflexivity.
Qed.

End Transformation.

Lemma close_date_by_string_split_witness :
  let record := {| Id := Some "006-1"; Amount := None; CloseDate := Some "2023-07-20";
                   Quote_sent_TImestamp_2__c := None; StageName := None; Owner := None |} in
  field "Close Date" (@Salesforce.transformRecord Reference.platform (host_in "UTC") record)
  = Some "7/20/2023"
  /\ field "Close Month" (@Salesforce.transformRecord Reference.platform (host_in "UTC") record)
     = Some "7/1/2023".
Proof.
  intros record.
  destruct (@close_date_by_string_split Reference.platform (host_in "UTC") record
              2 0 2 3 0 7 2 0) as [Hdate [Hmonth _]]; try lia; try reflexivity.
  split; [exact Hdate | exact Hmonth].
Defined.

Section TransformationShape.
Context {P : Platform}.

(** No date validation takes place: the fields are split and re-joined. *)
Example formatDateMDY_not_a_calendar_date :
  Salesforce.formatDateMDY (Some "2023-13-45") = "13/45/2023"
  /\ Salesforce.formatDateMDY (Some "2023") = "NaN/NaN/2023"
  /\ Salesforce.formatDateMDY (Some "") = "".
Proof. repeat split; reflexivity. Qed.

Lemma server_date_helpers_agree (isoDate : option string) :
  Server.formatDateMDY isoDate = Salesforce.formatDateMDY isoDate
  /\ Server.deriveCloseMonth isoDate = Salesforce.deriveCloseMonth isoDate.
Proof. split; reflexivity. Qed.

Lemma transformRecord_keys (host : Host) (r : RawRecord) :
  map fst (Salesforce.transformRecord host r) = sixKeys.
Proof. reflexivity. Qed.

(** C6. [transformData] is a total function from sequences of raw records to
    sequences of rows: one row per record, in input order, each row having
    exactly the six keys, every value a string; a record with every field
    null maps to the defaults, and each null field maps to its default
    whatever the other fields hold. *)
Theorem transformData_total_six_string_keys (host : Host) (records : list RawRecord) :
  length (Salesforce.transformData host records) = length records
  /\ (forall i, nth_error (Salesforce.transformData host records) i
                = option_map (Salesforce.transformRecord host) (nth_error records i))
  /\ Forall (fun row => map fst row = sixKeys) (Salesforce.transformData host records)
  /\ (forall id,
        Salesforce.transformData host
          [ {| Id := id; Amount := None; CloseDate := None;
               Quote_sent_TImestamp_2__c := None; StageName := None; Owner := None |} ]
        = [ [ ("Amount", "0"); ("Close Date", ""); ("Quote sent TImestamp 2", "");
              ("Stage", ""); ("Opportunity Owner", "Unknown"); ("Close Month", "") ] ])
  /\ (forall id amount closeDate sent stage owner,
        field "Amount" (Salesforce.transformRecord host
          (Build_RawRecord id None closeDate sent stage owner)) = Some "0"
        /\ field "Close Date" (Salesforce.transformRecord host
          (Build_RawRecord id amount None sent stage owner)) = Some ""
        /\ field "Quote sent TImestamp 2" (Salesforce.transformRecord host
          (Build_RawRecord id amount closeDate None stage owner)) = Some ""
        /\ field "Stage" (Salesforce.transformRecord host
          (Build_RawRecord id amount closeDate sent None owner)) = Some ""
        /\ field "Opportunity Owner" (Salesforce.transformRecord host
          (Build_RawRecord id amount closeDate sent stage None)) = Some "Unknown"
        /\ field "Opportunity Owner" (Salesforce.transformRecord host
          (Build_RawRecord id amount closeDate sent stage (Some {| Name := None |})))
           = Some "Unknown"
        /\ field "Close Month" (Salesforce.transformRecord host
          (Build_RawRecord id amount None sent stage owner)) = Some "").
Proof.
  unfold Salesforce.transformData.
  split; [apply length_map|].
  split; [intros i; apply nth_error_map|].
  split.
  - apply Forall_forall. intros row Hin.
    apply in_map_iff in Hin. destruct Hin as [r [<- _]].
    apply transformRecord_keys.
  - split; [reflexivity|]. intros. repeat split; reflexivity.
Qed.

(** C10. An owner object whose [Name] is the empty string yields
    ["Unknown"], in the handler and in the development server alike: the
    default is chosen by falsiness. *)
Theorem empty_owner_name_is_Unknown (host : Host) (id : option string)
    (amount : option Number) (closeDate sent stage : option string) :
  field "Opportunity Owner"
    (Salesforce.transformRecord host
       (Build_RawRecord id amount closeDate sent stage (Some {| Name := Some "" |})))
  = Some "Unknown"
  /\ field "Opportunity Owner"
    (Server.transformRecord host
       (Build_RawRecord id amount closeDate sent stage (Some {| Name := Some "" |})))
  = Some "Unknown"
  /\ field "Opportunity Owner"
    (Salesforce.transformRecord host
       (Build_RawRecord id amount closeDate sent stage (Some {| Name := Some "Ada Lovelace" |})))
  = Some "Ada Lovelace".
Proof. repeat split; reflexivity. Qed.

End TransformationShape.

(** ** Pagination *)

Lemma truthy_Some_inv (v : option string) (s : string) :
  JS.truthy v = Some s -> v = Some s /\ s <> "".
Proof.
  destruct v as [t|]; simpl; [|discriminate].
  destruct (String.eqb_spec t ""); [discriminate|].
  intros [= ->]. now split.
Qed.

Lemma truthy_nonempty (s : string) : s <> "" -> JS.truthy (Some s) = Some s.
Proof.
  intros Hs. simpl. destruct (String.eqb_spec s ""); [contradiction|reflexivity].
Qed.

Lemma append_nonempty (a b : string) : a <> "" -> (a ++ b)%string <> "".
Proof. destruct a; [contradiction|discriminate]. Qed.

Section Pagination.
Context {P : Platform}.
Variable remote : Remote.
Variable accessToken : JS.Value.
Variable instanceUrl : string.
Hypothesis instanceUrl_nonempty : instanceUrl <> "".

Local Abbreviation loop fuel := (Salesforce.paginate fuel remote accessToken instanceUrl).
Local Abbreviation request := (Salesforce.pageRequest accessToken).

(** What the loop reads off a successful page. *)
Lemma successful_inv (r : Response) :
  successful r = true ->
  ok r = true /\ exists j rs,
    body r = Parsed j
    /\ get_records j = ret rs
    /\ page_records r = match rs with Some l => l | None => [] end
    /\ get_nextRecordsUrl j = ret (page_nextRecordsUrl r).
Proof.
  unfold successful, readable, page_records, page_nextRecordsUrl.
  destruct (ok r); [|discriminate].
  destruct (body r) as [[o|items|]|m]; try discriminate; intros _;
    (split; [reflexivity|]); eexists _, _; repeat split; reflexivity.
Qed.

Lemma continuing_inv (r : Response) :
  continuing r = true ->
  successful r = true /\ exists path, JS.truthy (page_nextRecordsUrl r) = Some path.
Proof.
  unfold continuing. destruct (successful r); [|discriminate].
  destruct (JS.truthy (page_nextRecordsUrl r)) as [path|]; [|discriminate].
  intros _. split; [reflexivity|]. now exists path.
Qed.

Lemma final_inv (r : Response) :
  final r = true ->
  successful r = true /\ JS.truthy (page_nextRecordsUrl r) = None.
Proof.
  unfold final. destruct (successful r); [|discriminate].
  destruct (JS.truthy (page_nextRecordsUrl r)); [discriminate|]. now split.
Qed.

Lemma paginate_null (fuel : nat) (acc : list RawRecord) (log : list Request) :
  loop fuel None acc log = (Returned acc, log).
Proof. destruct fuel; reflexivity. Qed.

(** One iteration on a successful page. *)
Lemma paginate_reads (fuel : nat) (url : string) (r : Response)
    (acc : list RawRecord) (log : list Request) :
  url <> "" ->
  remote (length log) (request url) = Resolved r ->
  successful r = true ->
  loop (S fuel) (Some url) acc log
  = loop fuel
      (match JS.truthy (page_nextRecordsUrl r) with
       | Some path => Some (instanceUrl ++ path)
       | None => None
       end)
      (acc ++ page_records r)%list (log ++ [request url])%list.
Proof.
  intros Hurl Hremote Hpage.
  destruct (successful_inv r Hpage) as [Hok [j [rs [Hbody [Hrecs [Hpr Hnext]]]]]].
  cbn [Salesforce.paginate].
  rewrite (truthy_nonempty url Hurl).
  unfold bind at 1. unfold fetch. rewrite Hremote. rewrite Hok. cbn [negb].
  unfold bind, json. rewrite Hbody. unfold ret. cbv beta iota.
  rewrite Hrecs. unfold ret. cbv beta iota. rewrite Hnext, Hpr. unfold ret. cbv beta iota.
  now destruct (JS.truthy (page_nextRecordsUrl r)).
Qed.

Lemma paginate_follows (fuel : nat) (url : string) (r : Response)
    (acc : list RawRecord) (log : list Request) :
  url <> "" ->
  remote (length log) (request url) = Resolved r ->
  continuing r = true ->
  exists path,
    JS.truthy (page_nextRecordsUrl r) = Some path
    /\ loop (S fuel) (Some url) acc log
       = loop fuel (Some (instanceUrl ++ path)) (acc ++ page_records r)%list
           (log ++ [request url])%list.
Proof.
  intros Hurl Hremote Hcont.
  destruct (continuing_inv r Hcont) as [Hpage [path Hpath]].
  exists path. split; [assumption|].
  now rewrite (paginate_reads fuel url r acc log Hurl Hremote Hpage), Hpath.
Qed.

Lemma paginate_stops (fuel : nat) (url : string) (r : Response)
    (acc : list RawRecord) (log : list Request) :
  url <> "" ->
  remote (length log) (request url) = Resolved r ->
  final r = true ->
  loop (S fuel) (Some url) acc log
  = (Returned (acc ++ page_records r)%list, (log ++ [request url])%list).
Proof.
  intros Hurl Hremote Hfinal.
  destruct (final_inv r Hfinal) as [Hpage Hnext].
  rewrite (paginate_reads fuel url r acc log Hurl Hremote Hpage), Hnext.
  apply (paginate_null fuel).
Qed.

(** What building the error for a response that is not [ok] comes to. *)
Lemma queryError_outcome (r : Response) (log : list Request) :
  (error <- Salesforce.queryError r ;; throw error)%async log
  = (@Thrown (list RawRecord) (page_failure r), log).
Proof.
  unfold Salesforce.queryError, page_failure, json_or_empty, bind.
  destruct (body r) as [[o|[|entry items]|]|m]; reflexivity.
Qed.

Lemma paginate_aborts (fuel : nat) (url : string) (r : Response)
    (acc : list RawRecord) (log : list Request) :
  url <> "" ->
  remote (length log) (request url) = Resolved r ->
  ok r = false ->
  loop (S fuel) (Some url) acc log
  = (Thrown (page_failure r), (log ++ [request url])%list).
Proof.
  intros Hurl Hremote Hok.
  cbn [Salesforce.paginate].
  rewrite (truthy_nonempty url Hurl).
  unfold bind at 1. unfold fetch. rewrite Hremote. rewrite Hok. cbn [negb].
  apply queryError_outcome.
Qed.

(** A run over continuing pages followed by one more response [e], whose
    effect on the loop is [ending]. *)
Lemma paginate_run (e : Response)
    (ending : list RawRecord -> Outcome (list RawRecord)) :
  (forall fuel url acc log,
     url <> "" ->
     remote (length log) (request url) = Resolved e ->
     loop (S fuel) (Some url) acc log = (ending acc, (log ++ [request url])%list)) ->
  forall (pages : list Response) (url : string) (acc : list RawRecord)
         (log : list Request) (fuel : nat),
    url <> "" ->
    Forall (fun r => continuing r = true) pages ->
    answers remote accessToken (length log) (run_urls instanceUrl url pages) (pages ++ [e]) ->
    loop (S (length pages + fuel)) (Some url) acc log
    = (ending (acc ++ flat_map page_records pages)%list,
       (log ++ map request (run_urls instanceUrl url pages))%list).
Proof.
  intros Hend pages.
  induction pages as [|r rest IH]; intros url acc log fuel Hurl Hcont Hans.
  - simpl in Hans. destruct Hans as [Hremote _].
    cbn [length plus flat_map run_urls map]. rewrite app_nil_r.
    now apply Hend.
  - inversion Hcont as [|? ? Hr Hrest]; subst.
    cbn [run_urls app] in Hans.
    destruct (paginate_follows (S (length rest + fuel)) url r acc log Hurl) as [path [Hpath Hstep]].
    + cbn [answers] in Hans. destruct (JS.truthy (page_nextRecordsUrl r)); apply Hans.
    + assumption.
    + cbn [run_urls]. rewrite Hpath in *. cbn [answers] in Hans. destruct Hans as [_ Hans].
      cbn [length plus]. rewrite Hstep.
      rewrite IH.
      * cbn [flat_map map]. rewrite <- !app_assoc. reflexivity.
      * now apply append_nonempty.
      * assumption.
      * rewrite length_app, Nat.add_comm. exact Hans.
Qed.

(** With no more fuel than continuing pages the loop is still running. *)
Lemma paginate_still_running (e : Response) (pages : list Response) :
  forall (url : string) (acc : list RawRecord) (log : list Request) (fuel : nat),
    url <> "" ->
    Forall (fun r => continuing r = true) pages ->
    answers remote accessToken (length log) (run_urls instanceUrl url pages) (pages ++ [e]) ->
    (fuel <= length pages)%nat ->
    fst (loop fuel (Some url) acc log) = OutOfFuel.
Proof.
  induction pages as [|r rest IH]; intros url acc log fuel Hurl Hcont Hans Hfuel.
  - assert (fuel = O) as -> by (simpl in Hfuel; lia).
    cbn [Salesforce.paginate]. now rewrite (truthy_nonempty url Hurl).
  - destruct fuel as [|fuel].
    + cbn [Salesforce.paginate]. now rewrite (truthy_nonempty url Hurl).
    + inversion Hcont as [|? ? Hr Hrest]; subst.
      cbn [run_urls app] in Hans.
      destruct (paginate_follows fuel url r acc log Hurl) as [path [Hpath Hstep]].
      * cbn [answers] in Hans. destruct (JS.truthy (page_nextRecordsUrl r)); apply Hans.
      * assumption.
      * rewrite Hpath in Hans. cbn [answers] in Hans. destruct Hans as [_ Hans].
        rewrite Hstep. apply IH.
        -- now apply append_nonempty.
        -- assumption.
        -- rewrite length_app, Nat.add_comm. exact Hans.
        -- simpl in Hfuel. lia.
Qed.

(** Against a remote that always answers with a continuing page, every
    unit of fuel is spent on a request. *)
Lemma paginate_endless :
  (forall idx req, exists r, remote idx req = Resolved r /\ continuing r = true) ->
  forall (fuel : nat) (url : string) (acc : list RawRecord) (log : list Request),
    url <> "" ->
    exists log',
      loop fuel (Some url) acc log = (OutOfFuel, log')
      /\ length log' = (length log + fuel)%nat.
Proof.
  intros Hmore fuel.
  induction fuel as [|fuel IH]; intros url acc log Hurl.
  - exists log. cbn [Salesforce.paginate]. rewrite (truthy_nonempty url Hurl).
    split; [reflexivity|lia].
  - destruct (Hmore (length log) (request url)) as [r [Hremote Hcont]].
    destruct (paginate_follows fuel url r acc log Hurl Hremote Hcont) as [path [_ Hstep]].
    destruct (IH (instanceUrl ++ path)%string (acc ++ page_records r)%list
                 (log ++ [request url])%list) as [log' [Hrun Hlen]].
    + now apply append_nonempty.
    + exists log'. rewrite Hstep. split; [assumption|].
      rewrite Hlen, length_app. simpl. lia.
Qed.

End Pagination.

(** What the loop does whatever the remote answers. *)
Section FetcherInvariants.
Context {P : Platform}.
Variable remote : Remote.
Variable accessToken : JS.Value.
Variable instanceUrl : string.
Hypothesis instanceUrl_nonempty : instanceUrl <> "".

Local Abbreviation loop fuel := (Salesforce.paginate fuel remote accessToken instanceUrl).
Local Abbreviation request := (Salesforce.pageRequest accessToken).

Lemma paginate_unparseable (fuel : nat) (url : string) (r : Response) (m : string)
    (acc : list RawRecord) (log : list Request) :
  url <> "" ->
  remote (length log) (request url) = Resolved r ->
  ok r = true ->
  body r = Unparseable m ->
  loop (S fuel) (Some url) acc log = (Thrown (native_error m), (log ++ [request url])%list).
Proof.
  intros Hurl Hremote Hok Hbody.
  cbn [Salesforce.paginate]. rewrite (truthy_nonempty url Hurl).
  unfold bind at 1. unfold fetch. rewrite Hremote, Hok. cbn [negb].
  unfold bind, json. now rewrite Hbody.
Qed.

(** One iteration, whatever the remote answers: the request is logged, and
    the loop either goes on from a successful page or ends there with an
    error. *)
Lemma paginate_step (fuel : nat) (url : string) (acc : list RawRecord) (log : list Request) :
  url <> "" ->
  (exists r,
     remote (length log) (request url) = Resolved r
     /\ successful r = true
     /\ loop (S fuel) (Some url) acc log
        = loop fuel
            (match JS.truthy (page_nextRecordsUrl r) with
             | Some path => Some (instanceUrl ++ path)
             | None => None
             end)
            (acc ++ page_records r)%list (log ++ [request url])%list)
  \/ (exists e,
        loop (S fuel) (Some url) acc log = (Thrown e, (log ++ [request url])%list)
        /\ (err_status e = None \/ exists code, err_status e = Some code /\ not_2xx code)).
Proof.
  intros Hurl.
  destruct (remote (length log) (request url)) as [r|m] eqn:Hremote.
  - destruct (successful r) eqn:Hpage.
    + left. exists r. split; [reflexivity|]. split; [exact Hpage|].
      now apply paginate_reads.
    + right. cbn [Salesforce.paginate]. rewrite (truthy_nonempty url Hurl).
      unfold bind at 1. unfold fetch. rewrite Hremote.
      unfold successful, readable in Hpage.
      destruct (ok r) eqn:Hok; cbn [negb andb] in *.
      * unfold bind, json.
        destruct (body r) as [[o|items|]|m]; try discriminate Hpage;
          eexists; (split; [reflexivity|now left]).
      * rewrite queryError_outcome. eexists. split; [reflexivity|].
        unfold page_failure.
        assert (Hcode : not_2xx (status r)).
        { unfold ok in Hok. unfold not_2xx.
          destruct (Z.leb_spec 200 (status r)); [|lia].
          destruct (Z.leb_spec (status r) 299); [discriminate Hok|lia]. }
        destruct (body r) as [[o|[|entry items]|]|m];
          first [now left | right; exists (status r); now split].
  - right. cbn [Salesforce.paginate]. rewrite (truthy_nonempty url Hurl).
    unfold bind at 1. unfold fetch. rewrite Hremote.
    eexists. split; [reflexivity|now left].
Qed.

(** A normal return tells how the run went. *)
Lemma paginate_returns_inv (fuel : nat) :
  forall (url : string) (acc : list RawRecord) (log : list Request)
         (recs : list RawRecord) (log' : list Request),
    url <> "" ->
    loop fuel (Some url) acc log = (Returned recs, log') ->
    exists pages last,
      Forall (fun r => continuing r = true) pages
      /\ final last = true
      /\ answers remote accessToken (length log) (run_urls instanceUrl url pages) (pages ++ [last])
      /\ recs = (acc ++ flat_map page_records (pages ++ [last]))%list
      /\ log' = (log ++ map request (run_urls instanceUrl url pages))%list
      /\ (length pages < fuel)%nat.
Proof.
  induction fuel as [|fuel IH]; intros url acc log recs log' Hurl Hrun.
  - cbn [Salesforce.paginate] in Hrun. rewrite (truthy_nonempty url Hurl) in Hrun.
    discriminate Hrun.
  - destruct (paginate_step fuel url acc log Hurl)
      as [[r [Hremote [Hpage Hstep]]] | [e [Hstep _]]];
      rewrite Hstep in Hrun; [|discriminate Hrun].
    destruct (JS.truthy (page_nextRecordsUrl r)) as [path|] eqn:Hnext.
    + apply IH in Hrun; [|now apply append_nonempty].
      destruct Hrun as [pages [last [Hcont [Hfinal [Hans [-> [-> Hlen]]]]]]].
      exists (r :: pages), last.
      assert (Hr : continuing r = true).
      { unfold continuing. now rewrite Hpage, Hnext. }
      split; [now constructor|]. split; [assumption|].
      cbn [run_urls app answers]. rewrite Hnext.
      split; [split; [assumption|]|].
      * rewrite length_app, Nat.add_comm in Hans. exact Hans.
      * cbn [flat_map map length]. rewrite <- !app_assoc.
        split; [reflexivity|]. split; [reflexivity|simpl; lia].
    + rewrite (paginate_null remote accessToken instanceUrl) in Hrun.
      injection Hrun as <- <-.
      exists [], r.
      assert (Hr : final r = true).
      { unfold final. now rewrite Hpage, Hnext. }
      split; [constructor|]. split; [assumption|].
      cbn [run_urls app answers flat_map map length]. rewrite app_nil_r.
      split; [now split|]. split; [reflexivity|]. split; [reflexivity|simpl; lia].
Qed.

(** Whatever the remote does, the log only grows, by page requests, at
    most one per unit of fuel, for the URL the loop was given or for one
    under the instance URL. *)
Lemma paginate_requests (fuel : nat) :
  forall (next : option string) (acc : list RawRecord) (log : list Request),
    exists urls,
      snd (loop fuel next acc log) = (log ++ map request urls)%list
      /\ (length urls <= fuel)%nat
      /\ Forall (fun u => Some u = next \/ exists rest, u = instanceUrl ++ rest) urls.
Proof.
  induction fuel as [|fuel IH]; intros next acc log.
  - exists []. cbn [Salesforce.paginate]. rewrite app_nil_r.
    destruct (JS.truthy next); repeat split; auto.
  - destruct (JS.truthy next) as [url|] eqn:Hnext.
    + apply truthy_Some_inv in Hnext. destruct Hnext as [-> Hurl].
      destruct (paginate_step fuel url acc log Hurl)
        as [[r [_ [_ Hstep]]] | [e [Hstep _]]]; rewrite Hstep.
      * match goal with
        | |- context [Salesforce.paginate fuel remote accessToken instanceUrl ?n ?a ?l] =>
            destruct (IH n a l) as [urls [Hlog [Hlen Hall]]]
        end.
        exists (url :: urls). rewrite Hlog, <- app_assoc. split; [reflexivity|].
        split; [simpl; lia|]. constructor; [now left|].
        eapply Forall_impl; [|exact Hall].
        intros u [Hu|Hu]; [|now right].
        destruct (JS.truthy (page_nextRecordsUrl r)); [|discriminate Hu].
        injection Hu as ->. right. now eexists.
      * exists [url]. split; [reflexivity|]. split; [simpl; lia|].
        constructor; [now left|constructor].
    + exists []. cbn [Salesforce.paginate]. rewrite Hnext, app_nil_r.
      repeat split; [simpl; lia|constructor].
Qed.

(** An error thrown by the loop carries no status, or one outside 200..299. *)
Lemma paginate_thrown_status (fuel : nat) :
  forall (next : option string) (acc : list RawRecord) (log log' : list Request) (e : JsError),
    loop fuel next acc log = (Thrown e, log') ->
    err_status e = None \/ exists code, err_status e = Some code /\ not_2xx code.
Proof.
  induction fuel as [|fuel IH]; intros next acc log log' e Hrun.
  - cbn [Salesforce.paginate] in Hrun. destruct (JS.truthy next); discriminate Hrun.
  - destruct (JS.truthy next) as [url|] eqn:Hnext.
    + apply truthy_Some_inv in Hnext. destruct Hnext as [-> Hurl].
      destruct (paginate_step fuel url acc log Hurl)
        as [[r [_ [_ Hstep]]] | [e' [Hstep Hstatus]]]; rewrite Hstep in Hrun.
      * eapply IH. exact Hrun.
      * now injection Hrun as <- _.
    + cbn [Salesforce.paginate] in Hrun. rewrite Hnext in Hrun. discriminate Hrun.
Qed.

End FetcherInvariants.

Section Fetcher.
Context {P : Platform}.

Lemma run_urls_length (base url : string) (pages : list Response) :
  Forall (fun r => continuing r = true) pages ->
  length (run_urls base url pages) = S (length pages).
Proof.
  revert url. induction pages as [|r rest IH]; intros url Hcont; [reflexivity|].
  inversion Hcont as [|? ? Hr Hrest]; subst.
  destruct (continuing_inv r Hr) as [_ [path Hpath]].
  cbn [run_urls]. rewrite Hpath. cbn [length]. now rewrite IH.
Qed.

Lemma querySalesforce_configured (fuel : nat) (host : Host) (remote : Remote)
    (accessToken : JS.Value) (base : string) :
  JS.truthy (SF_INSTANCE_URL (process_env host)) = Some base ->
  base <> ""
  /\ Salesforce.queryUrl base <> ""
  /\ Salesforce.querySalesforce fuel host remote accessToken
     = Salesforce.paginate fuel remote accessToken base (Some (Salesforce.queryUrl base)) [].
Proof.
  intros Hbase. destruct (truthy_Some_inv _ _ Hbase) as [_ Hne].
  split; [assumption|]. split; [now apply append_nonempty|].
  unfold Salesforce.querySalesforce. now rewrite Hbase.
Qed.

(** C2, as amended. A page response is successful when its status is 2xx
    and its body is a JSON document other than [null]. When the pages before
    the last are successful and carry a non-empty continuation and the last
    is successful with the continuation absent, null or empty,
    [querySalesforce] returns the pages' [records] arrays concatenated in
    request order (an absent array counting as empty) after exactly one
    request per page, the first for the query URL and each later one for the
    instance URL followed by the previous continuation. *)
Theorem querySalesforce_concatenates_pages (host : Host) (remote : Remote)
    (accessToken : JS.Value) (base : string) (pages : list Response)
    (last : Response) (log : list Request) (fuel : nat) :
  JS.truthy (SF_INSTANCE_URL (process_env host)) = Some base ->
  Forall (fun r => continuing r = true) pages ->
  final last = true ->
  answers remote accessToken (length log)
    (run_urls base (Salesforce.queryUrl base) pages) (pages ++ [last]) ->
  (length pages < fuel)%nat ->
  Salesforce.querySalesforce fuel host remote accessToken log
  = (Returned (flat_map page_records (pages ++ [last])),
     (log ++ map (Salesforce.pageRequest accessToken)
               (run_urls base (Salesforce.queryUrl base) pages))%list)
  /\ length (run_urls base (Salesforce.queryUrl base) pages) = length (pages ++ [last]).
Proof.
  intros Hbase Hcont Hfinal Hans Hfuel.
  destruct (querySalesforce_configured fuel host remote accessToken base Hbase)
    as [Hne [Hurl ->]].
  split.
  - replace fuel with (S (length pages + (fuel - S (length pages)))) by lia.
    rewrite (paginate_run remote accessToken base Hne last
               (fun acc => Returned (acc ++ page_records last)%list)).
    + rewrite flat_map_app. cbn [flat_map app]. now rewrite app_nil_r.
    + intros f url acc lg Hu Hr. now apply paginate_stops.
    + assumption.
    + assumption.
    + assumption.
  - rewrite run_urls_length by assumption. rewrite length_app. simpl. lia.
Qed.

(** C3 (the code diverges). When some page request is answered with a
    non-2xx status after any number of successful continuing pages, no
    records come back and the failed request is the last one issued, however
    much further the loop would be allowed to run. What [querySalesforce]
    throws is an error with code [QUERY_ERROR] whose status is that
    response's status, unless the body of the response is the JSON document
    [null]: then reading its first entry fails, and what is thrown is that
    [TypeError], which has neither code nor status. *)
Theorem querySalesforce_page_failure (host : Host) (remote : Remote)
    (accessToken : JS.Value) (base : string) (pages : list Response)
    (bad : Response) (log : list Request) (fuel : nat) :
  JS.truthy (SF_INSTANCE_URL (process_env host)) = Some base ->
  Forall (fun r => continuing r = true) pages ->
  ok bad = false ->
  answers remote accessToken (length log)
    (run_urls base (Salesforce.queryUrl base) pages) (pages ++ [bad]) ->
  (length pages < fuel)%nat ->
  Salesforce.querySalesforce fuel host remote accessToken log
  = (Thrown
       match body bad with
       | Parsed JNull =>
           {| err_message := "Cannot read properties of null (reading '0')";
              err_code := None;
              err_status := None |}
       | Parsed (JArray (entry :: _)) =>
           {| err_message := JS.or_else (ee_message entry) "Failed to query Salesforce";
              err_code := Some "QUERY_ERROR";
              err_status := Some (status bad) |}
       | _ =>
           {| err_message := "Failed to query Salesforce";
              err_code := Some "QUERY_ERROR";
              err_status := Some (status bad) |}
       end,
     (log ++ map (Salesforce.pageRequest accessToken)
               (run_urls base (Salesforce.queryUrl base) pages))%list)
  /\ length (run_urls base (Salesforce.queryUrl base) pages) = S (length pages).
Proof.
  intros Hbase Hcont Hbad Hans Hfuel.
  destruct (querySalesforce_configured fuel host remote accessToken base Hbase)
    as [Hne [Hurl ->]].
  split; [|now apply run_urls_length].
  replace fuel with (S (length pages + (fuel - S (length pages)))) by lia.
  rewrite (paginate_run remote accessToken base Hne bad
             (fun _ => Thrown (page_failure bad))).
  - unfold page_failure. now destruct (body bad) as [[o|[|entry items]|]|m].
  - intros f url acc lg Hu Hr. now apply paginate_aborts.
  - assumption.
  - assumption.
  - assumption.
Qed.

(** C9, as amended. With a configured instance URL: whenever the run
    reaches, after successful pages that each carry a non-empty
    continuation, a successful page whose continuation is absent, null or
    empty, the loop terminates, having issued exactly one request per page
    up to and including that page, and it has not terminated after fewer
    iterations; it terminates normally only so: whenever it returns, the
    page answered last was such a page and the pages before it carried a
    non-empty continuation; and nothing in the client caps the number of
    pages, so against a remote that answers every request with a successful
    page carrying a non-empty continuation the loop is still running after
    any number of iterations, each of which issued a request. *)
Theorem pagination_terminates_when_remote_stops (host : Host)
    (accessToken : JS.Value) (base : string) :
  JS.truthy (SF_INSTANCE_URL (process_env host)) = Some base ->
  (forall remote pages last log fuel,
     Forall (fun r => continuing r = true) pages ->
     final last = true ->
     answers remote accessToken (length log)
       (run_urls base (Salesforce.queryUrl base) pages) (pages ++ [last]) ->
     ((length pages < fuel)%nat ->
        exists recs log',
          Salesforce.querySalesforce fuel host remote accessToken log = (Returned recs, log')
          /\ length log' = (length log + length (pages ++ [last]))%nat)
     /\ ((fuel <= length pages)%nat ->
        fst (Salesforce.querySalesforce fuel host remote accessToken log) = OutOfFuel))
  /\ (forall remote log fuel recs log',
        Salesforce.querySalesforce fuel host remote accessToken log = (Returned recs, log') ->
        exists pages last,
          Forall (fun r => continuing r = true) pages
          /\ final last = true
          /\ answers remote accessToken (length log)
               (run_urls base (Salesforce.queryUrl base) pages) (pages ++ [last])
          /\ length log' = (length log + length (pages ++ [last]))%nat)
  /\ (forall remote log fuel,
        (forall idx req, exists r, remote idx req = Resolved r /\ continuing r = true) ->
        exists log',
          Salesforce.querySalesforce fuel host remote accessToken log = (OutOfFuel, log')
          /\ length log' = (length log + fuel)%nat).
Proof.
  intros Hbase. split; [|split].
  2: { intros remote log fuel recs log' Hrun.
       destruct (querySalesforce_configured fuel host remote accessToken base Hbase)
         as [Hne [Hurl Hquery]].
       rewrite Hquery in Hrun.
       apply (paginate_returns_inv remote accessToken base Hne) in Hrun; [|assumption].
       destruct Hrun as [pages [last [Hcont [Hfinal [Hans [_ [-> _]]]]]]].
       exists pages, last. repeat split; try assumption.
       rewrite !length_app, length_map, run_urls_length by assumption. simpl. lia. }
  - intros remote pages last log fuel Hcont Hfinal Hans. split.
    + intros Hfuel.
      destruct (querySalesforce_configured fuel host remote accessToken base Hbase)
        as [Hne [Hurl ->]].
      replace fuel with (S (length pages + (fuel - S (length pages)))) by lia.
      rewrite (paginate_run remote accessToken base Hne last
                 (fun acc => Returned (acc ++ page_records last)%list)).
      * eexists _, _. split; [reflexivity|].
        rewrite !length_app, length_map, run_urls_length by assumption.
        simpl. lia.
      * intros f url acc lg Hu Hr. now apply paginate_stops.
      * assumption.
      * assumption.
      * assumption.
    + intros Hfuel.
      destruct (querySalesforce_configured fuel host remote accessToken base Hbase)
        as [Hne [Hurl ->]].
      now apply (paginate_still_running remote accessToken base Hne last pages).
  - intros remote log fuel Hmore.
    destruct (querySalesforce_configured fuel host remote accessToken base Hbase)
      as [Hne [Hurl ->]].
    now apply paginate_endless.
Qed.

End Fetcher.

(** ** Pagination on concrete runs *)
Section PaginationRuns.
Local Existing Instance Reference.platform.

Lemma querySalesforce_concatenates_pages_witness :
  let host := configured (Some "id") (Some "secret") (Some "refresh")
                (Some "https://acme.my.salesforce.com") in
  let remote := scripted
    [ page [opportunity "1"; opportunity "2"] (Some "/services/data/v59.0/query/01g-2000");
      page [opportunity "3"; opportunity "4"] (Some "/services/data/v59.0/query/01g-4000");
      page [opportunity "5"] None ] in
  let run := @Salesforce.querySalesforce Reference.platform 3 host remote (JS.Text "token") [] in
  fst run = Returned [opportunity "1"; opportunity "2"; opportunity "3";
                      opportunity "4"; opportunity "5"]
  /\ map req_url (snd run)
     = [ Salesforce.queryUrl "https://acme.my.salesforce.com";
         "https://acme.my.salesforce.com/services/data/v59.0/query/01g-2000";
         "https://acme.my.salesforce.com/services/data/v59.0/query/01g-4000" ].
Proof.
  intros host remote run. subst run.
  destruct (@querySalesforce_concatenates_pages Reference.platform host remote (JS.Text "token")
              "https://acme.my.salesforce.com"
              [ page [opportunity "1"; opportunity "2"]
                  (Some "/services/data/v59.0/query/01g-2000");
                page [opportunity "3"; opportunity "4"]
                  (Some "/services/data/v59.0/query/01g-4000") ]
              (page [opportunity "5"] None) [] 3) as [Hrun _].
  - reflexivity.
  - repeat constructor.
  - reflexivity.
  - simpl. repeat split; reflexivity.
  - simpl. lia.
  - rewrite Hrun. split; reflexivity.
Defined.

(** A page whose [records] field is absent contributes nothing. *)
Example page_without_records :
  let host := configured None None None (Some "https://acme.my.salesforce.com") in
  let remote := scripted
    [ {| status := 200;
         body := Parsed (JObject {| access_token := JS.Undefined; error_description := None;
                                    records := None;
                                    nextRecordsUrl := Some "/services/data/v59.0/query/01g-2000" |}) |};
      page [opportunity "1"] None ] in
  fst (@Salesforce.querySalesforce Reference.platform 2 host remote (JS.Text "token") [])
  = Returned [opportunity "1"].
Proof. reflexivity. Qed.

(** The loop leaves at a page that carries an empty continuation field. *)
Example empty_continuation_ends_the_loop :
  let host := configured None None None (Some "https://acme.my.salesforce.com") in
  let remote := scripted [ page [opportunity "1"] (Some ""); page [opportunity "2"] None ] in
  @Salesforce.querySalesforce Reference.platform 2 host remote (JS.Text "token") []
  = (Returned [opportunity "1"],
     [Salesforce.pageRequest (JS.Text "token")
        (Salesforce.queryUrl "https://acme.my.salesforce.com")]).
Proof. reflexivity. Qed.

(** C2, as stated, fails: with "carries the continuation field" and "omits
    it" read off the presence of the field, the result would have to run
    through the first page that omits the field. *)
Lemma querySalesforce_stops_before_field_is_omitted :
  ~ (forall (P : Platform) (host : Host) (remote : Remote) (accessToken : JS.Value)
            (base : string) (pages : list Response) (last : Response)
            (log : list Request) (fuel : nat),
       JS.truthy (SF_INSTANCE_URL (process_env host)) = Some base ->
       Forall (fun r => carries_field r = true) pages ->
       omits_field last = true ->
       (forall k r req, nth_error (pages ++ [last]) k = Some r ->
                        remote (length log + k)%nat req = Resolved r) ->
       (length pages < fuel)%nat ->
       fst (Salesforce.querySalesforce fuel host remote accessToken log)
       = Returned (flat_map page_records (pages ++ [last]))).
Proof.
  intros Hclaim.
  specialize (Hclaim Reference.platform
    (configured None None None (Some "https://acme.my.salesforce.com"))
    (scripted [ page [opportunity "1"] (Some ""); page [opportunity "2"] None ])
    (JS.Text "token") "https://acme.my.salesforce.com"
    [ page [opportunity "1"] (Some "") ] (page [opportunity "2"] None) [] 2%nat).
  assert (Hrun : Returned [opportunity "1"] = Returned [opportunity "1"; opportunity "2"]).
  { apply Hclaim.
    - reflexivity.
    - repeat constructor.
    - reflexivity.
    - intros k r req Hk. destruct k as [|[|k]]; cbn in Hk.
      + now injection Hk as <-.
      + now injection Hk as <-.
      + destruct k; discriminate.
    - simpl. lia. }
  discriminate Hrun.
Qed.

(** The error array of the REST API gives the [QUERY_ERROR] its message. *)
Example page_failure_with_error_array :
  let host := configured None None None (Some "https://acme.my.salesforce.com") in
  let bad := {| status := 503;
                body := Parsed (JArray [ {| ee_message := Some "Service unavailable";
                                            ee_errorCode := Some "SERVER_UNAVAILABLE" |} ]) |} in
  let remote := scripted
    [ page [opportunity "1"; opportunity "2"] (Some "/services/data/v59.0/query/01g-2000");
      bad; page [opportunity "3"] None ] in
  @Salesforce.querySalesforce Reference.platform 10 host remote (JS.Text "token") []
  = (Thrown {| err_message := "Service unavailable";
               err_code := Some "QUERY_ERROR";
               err_status := Some 503 |},
     [ Salesforce.pageRequest (JS.Text "token")
         (Salesforce.queryUrl "https://acme.my.salesforce.com");
       Salesforce.pageRequest (JS.Text "token")
         "https://acme.my.salesforce.com/services/data/v59.0/query/01g-2000" ]).
Proof. reflexivity. Qed.

Lemma querySalesforce_page_failure_witness :
  let host := configured None None None (Some "https://acme.my.salesforce.com") in
  let bad := {| status := 503; body := Parsed JNull |} in
  let remote := scripted
    [ page [opportunity "1"; opportunity "2"] (Some "/services/data/v59.0/query/01g-2000");
      bad; page [opportunity "3"] None ] in
  let run := @Salesforce.querySalesforce Reference.platform 10 host remote (JS.Text "token") [] in
  fst run = Thrown {| err_message := "Cannot read properties of null (reading '0')";
                      err_code := None;
                      err_status := None |}
  /\ length (snd run) = 2%nat.
Proof.
  intros host bad remote run. subst run.
  destruct (@querySalesforce_page_failure Reference.platform host remote (JS.Text "token")
              "https://acme.my.salesforce.com"
              [ page [opportunity "1"; opportunity "2"]
                  (Some "/services/data/v59.0/query/01g-2000") ]
              bad [] 10) as [Hrun _].
  - reflexivity.
  - repeat constructor.
  - reflexivity.
  - simpl. repeat split; reflexivity.
  - simpl. lia.
  - rewrite Hrun. split; reflexivity.
Defined.

(** C9, as stated, fails: with "omits the continuation field" read off the
    presence of the field, a run whose first page carries an empty
    continuation and whose second page omits the field would have to
    terminate after two requests; it terminates after one, at a page that
    omits nothing. *)
Lemma pagination_stops_at_empty_continuation :
  ~ (forall (P : Platform) (host : Host) (remote : Remote) (accessToken : JS.Value)
            (base : string) (pages : list Response) (last : Response)
            (log : list Request) (fuel : nat),
       JS.truthy (SF_INSTANCE_URL (process_env host)) = Some base ->
       Forall (fun r => carries_field r = true) pages ->
       omits_field last = true ->
       (forall k r req, nth_error (pages ++ [last]) k = Some r ->
                        remote (length log + k)%nat req = Resolved r) ->
       (length pages < fuel)%nat ->
       exists recs log',
         Salesforce.querySalesforce fuel host remote accessToken log = (Returned recs, log')
         /\ length log' = (length log + length (pages ++ [last]))%nat).
Proof.
  intros Hclaim.
  destruct (Hclaim Reference.platform
    (configured None None None (Some "https://acme.my.salesforce.com"))
    (scripted [ page [opportunity "1"] (Some ""); page [opportunity "2"] None ])
    (JS.Text "token") "https://acme.my.salesforce.com"
    [ page [opportunity "1"] (Some "") ] (page [opportunity "2"] None) [] 2%nat)
    as [recs [log' [Hrun Hlen]]].
  - reflexivity.
  - repeat constructor.
  - reflexivity.
  - intros k r req Hk. destruct k as [|[|k]]; cbn in Hk.
    + now injection Hk as <-.
    + now injection Hk as <-.
    + destruct k; discriminate.
  - simpl. lia.
  - rewrite empty_continuation_ends_the_loop in Hrun.
    injection Hrun as _ <-. discriminate Hlen.
Qed.

(** A remote that never omits the field does not keep the loop running
    when the field it sends is empty. *)
Example termination_without_omission :
  @Salesforce.querySalesforce Reference.platform 50
    (configured None None None (Some "https://acme.my.salesforce.com"))
    (endless (fun _ => page [opportunity "1"] (Some ""))) (JS.Text "token") []
  = (Returned [opportunity "1"],
     [ Salesforce.pageRequest (JS.Text "token")
         (Salesforce.queryUrl "https://acme.my.salesforce.com") ]).
Proof. reflexivity. Qed.

Lemma pagination_terminates_when_remote_stops_witness :
  let host := configured None None None (Some "https://acme.my.salesforce.com") in
  (exists recs log',
     @Salesforce.querySalesforce Reference.platform 3 host
       (scripted [ page [opportunity "1"] (Some "/a"); page [opportunity "2"] (Some "/b");
                   page [opportunity "3"] (Some "") ]) (JS.Text "token") []
     = (Returned recs, log')
     /\ length log' = 3%nat)
  /\ fst (@Salesforce.querySalesforce Reference.platform 2 host
            (scripted [ page [opportunity "1"] (Some "/a"); page [opportunity "2"] (Some "/b");
                        page [opportunity "3"] (Some "") ]) (JS.Text "token") [])
     = OutOfFuel
  /\ (exists log',
        @Salesforce.querySalesforce Reference.platform 50 host
          (endless (fun _ => page [] (Some "/more"))) (JS.Text "token") []
        = (OutOfFuel, log')
        /\ length log' = 50%nat).
Proof.
  intros host.
  destruct (@pagination_terminates_when_remote_stops Reference.platform host (JS.Text "token")
              "https://acme.my.salesforce.com" eq_refl) as [Hstops [_ Hendless]].
  split.
  - apply (Hstops (scripted [ page [opportunity "1"] (Some "/a");
                               page [opportunity "2"] (Some "/b");
                               page [opportunity "3"] (Some "") ])
             [ page [opportunity "1"] (Some "/a"); page [opportunity "2"] (Some "/b") ]
             (page [opportunity "3"] (Some "")) [] 3%nat).
    + repeat constructor.
    + reflexivity.
    + simpl. repeat split; reflexivity.
    + simpl. lia.
  - split.
    + apply (Hstops (scripted [ page [opportunity "1"] (Some "/a");
                                 page [opportunity "2"] (Some "/b");
                                 page [opportunity "3"] (Some "") ])
               [ page [opportunity "1"] (Some "/a"); page [opportunity "2"] (Some "/b") ]
               (page [opportunity "3"] (Some "")) [] 2%nat).
      * repeat constructor.
      * reflexivity.
      * simpl. repeat split; reflexivity.
      * simpl. lia.
    + apply (Hendless (endless (fun _ => page [] (Some "/more"))) [] 50%nat).
      intros idx req. eexists. split; reflexivity.
Defined.

End PaginationRuns.

(** ** Token acquisition and configuration *)
Section Authenticator.
Context {P : Platform}.

Lemma refreshAccessToken_config_error (host : Host) (remote : Remote) (log : list Request) :
  JS.truthy (SF_CLIENT_ID (process_env host)) = None
  \/ JS.truthy (SF_CLIENT_SECRET (process_env host)) = None
  \/ JS.truthy (SF_REFRESH_TOKEN (process_env host)) = None ->
  Salesforce.refreshAccessToken host remote log
  = (Thrown (configError "Missing Salesforce credentials in environment variables"), log).
Proof.
  unfold Salesforce.refreshAccessToken.
  intros [H | [H | H]]; rewrite H;
    repeat match goal with
           | |- context [match JS.truthy ?v with _ => _ end] => destruct (JS.truthy v)
           end; reflexivity.
Qed.

Lemma refreshAccessToken_sends (host : Host) (remote : Remote) (log : list Request)
    (client_id client_secret refresh_token : string) :
  JS.truthy (SF_CLIENT_ID (process_env host)) = Some client_id ->
  JS.truthy (SF_CLIENT_SECRET (process_env host)) = Some client_secret ->
  JS.truthy (SF_REFRESH_TOKEN (process_env host)) = Some refresh_token ->
  snd (Salesforce.refreshAccessToken host remote log)
  = (log ++ [token_request client_id client_secret refresh_token])%list.
Proof.
  intros Hid Hsecret Hrefresh.
  unfold Salesforce.refreshAccessToken. rewrite Hid, Hsecret, Hrefresh.
  fold (token_request client_id client_secret refresh_token).
  unfold bind at 1. unfold fetch.
  destruct (remote (length log) (token_request client_id client_secret refresh_token))
    as [r|m]; [|reflexivity].
  destruct (ok r); cbn [negb].
  - unfold bind, json. destruct (body r) as [[o|items|]|m]; reflexivity.
  - unfold bind, json_or_empty. destruct (body r) as [[o|items|]|m]; reflexivity.
Qed.

(** C1 (the code diverges). With the three credentials set, a 2xx token
    response whose JSON body parses makes [refreshAccessToken] return the
    body's [access_token] as it is: the token when there is one, and
    [undefined], not an error, when the field is missing (or the body is an
    array). No [AUTH_ERROR] is thrown on this path: the only failure is the
    [TypeError] of reading the field of the document [null]. *)
Theorem refreshAccessToken_returns_access_token_field (host : Host) (remote : Remote)
    (log : list Request) (client_id client_secret refresh_token : string)
    (r : Response) (j : Json) :
  JS.truthy (SF_CLIENT_ID (process_env host)) = Some client_id ->
  JS.truthy (SF_CLIENT_SECRET (process_env host)) = Some client_secret ->
  JS.truthy (SF_REFRESH_TOKEN (process_env host)) = Some refresh_token ->
  remote (length log) (token_request client_id client_secret refresh_token) = Resolved r ->
  ok r = true ->
  body r = Parsed j ->
  Salesforce.refreshAccessToken host remote log
  = (match j with
     | JObject o => Returned (access_token o)
     | JArray _ => Returned JS.Undefined
     | JNull =>
         Thrown {| err_message := "Cannot read properties of null (reading 'access_token')";
                   err_code := None;
                   err_status := None |}
     end,
     (log ++ [token_request client_id client_secret refresh_token])%list).
Proof.
  intros Hid Hsecret Hrefresh Hremote Hok Hbody.
  unfold Salesforce.refreshAccessToken. rewrite Hid, Hsecret, Hrefresh.
  fold (token_request client_id client_secret refresh_token).
  unfold bind at 1. unfold fetch. rewrite Hremote, Hok. cbn [negb].
  unfold bind, json. rewrite Hbody. now destruct j.
Qed.

(** A non-2xx token response is an [AUTH_ERROR] with status 401, unless its
    body is [null]. *)
Lemma refreshAccessToken_auth_error (host : Host) (remote : Remote)
    (log : list Request) (client_id client_secret refresh_token : string) (r : Response) :
  JS.truthy (SF_CLIENT_ID (process_env host)) = Some client_id ->
  JS.truthy (SF_CLIENT_SECRET (process_env host)) = Some client_secret ->
  JS.truthy (SF_REFRESH_TOKEN (process_env host)) = Some refresh_token ->
  remote (length log) (token_request client_id client_secret refresh_token) = Resolved r ->
  ok r = false ->
  Salesforce.refreshAccessToken host remote log
  = (Thrown (token_failure r),
     (log ++ [token_request client_id client_secret refresh_token])%list).
Proof.
  intros Hid Hsecret Hrefresh Hremote Hok.
  unfold Salesforce.refreshAccessToken. rewrite Hid, Hsecret, Hrefresh.
  fold (token_request client_id client_secret refresh_token).
  unfold bind at 1. unfold fetch. rewrite Hremote, Hok. cbn [negb].
  unfold bind, json_or_empty, token_failure.
  destruct (body r) as [[o|items|]|m]; reflexivity.
Qed.

(** C4, as amended. Each stage checks the configuration it uses:
    [refreshAccessToken] throws a [CONFIG_ERROR] with status 500, the request
    log untouched, when the client identifier, the client secret or the
    refresh token is missing or empty, and [querySalesforce] does so when
    the instance URL is missing or empty. *)
Theorem config_error_per_stage (host : Host) (remote : Remote)
    (accessToken : JS.Value) (fuel : nat) (log : list Request) :
  (JS.truthy (SF_CLIENT_ID (process_env host)) = None
   \/ JS.truthy (SF_CLIENT_SECRET (process_env host)) = None
   \/ JS.truthy (SF_REFRESH_TOKEN (process_env host)) = None ->
   Salesforce.refreshAccessToken host remote log
   = (Thrown {| err_message := "Missing Salesforce credentials in environment variables";
                err_code := Some "CONFIG_ERROR";
                err_status := Some 500 |}, log))
  /\ (JS.truthy (SF_INSTANCE_URL (process_env host)) = None ->
      Salesforce.querySalesforce fuel host remote accessToken log
      = (Thrown {| err_message := "Missing SF_INSTANCE_URL in environment variables";
                   err_code := Some "CONFIG_ERROR";
                   err_status := Some 500 |}, log)).
Proof.
  split.
  - apply refreshAccessToken_config_error.
  - intros Hurl. unfold Salesforce.querySalesforce. now rewrite Hurl.
Qed.

(** C5 (the code diverges). A request whose method is not [GET] is answered
    with 405 and [METHOD_NOT_ALLOWED], without CORS headers and without any
    outbound request; [OPTIONS] is such a method. *)
Theorem handler_answers_non_GET_with_405 (fuel : nat) (host : Host) (remote : Remote)
    (log : list Request) (verb : string) :
  String.eqb verb "GET" = false ->
  Salesforce.handler fuel host remote {| method := verb |} log
  = (Returned {| statusCode := 405;
                 headers := [];
                 payload := JsonFailure "Method not allowed" "METHOD_NOT_ALLOWED" |}, log).
Proof.
  intros Hverb. unfold Salesforce.handler. cbn [method]. now rewrite Hverb.
Qed.

(** The branch of the handler that answers [OPTIONS] with 200 is never taken. *)
Lemma handler_never_ends_without_body (fuel : nat) (host : Host) (remote : Remote)
    (req : IncomingMessage) (log log' : list Request) (res : ServerResponse) :
  Salesforce.handler fuel host remote req log = (Returned res, log') ->
  payload res <> Ended.
Proof.
  unfold Salesforce.handler.
  destruct (String.eqb_spec (method req) "GET") as [Hget|Hother]; cbn [negb].
  - rewrite Hget. cbn [String.eqb Ascii.eqb Bool.eqb].
    unfold bind.
    destruct (Salesforce.refreshAccessToken host remote log) as [[token|e|] lg].
    + destruct (Salesforce.querySalesforce fuel host remote token lg) as [[rs|e|] lg'];
        unfold ret; intros [= <- _]; discriminate.
    + intros [= <- _]; discriminate.
    + discriminate.
  - unfold ret. intros [= <- _]; discriminate.
Qed.

End Authenticator.

Section AuthenticatorRuns.
Local Existing Instance Reference.platform.

Lemma refreshAccessToken_returns_access_token_field_witness :
  Salesforce.refreshAccessToken
    (configured (Some "id") (Some "secret") (Some "refresh")
       (Some "https://acme.my.salesforce.com"))
    (scripted [token_response 200 JS.Undefined None]) []
  = (Returned JS.Undefined, [token_request "id" "secret" "refresh"]).
Proof.
  apply (refreshAccessToken_returns_access_token_field
           (configured (Some "id") (Some "secret") (Some "refresh")
              (Some "https://acme.my.salesforce.com"))
           (scripted [token_response 200 JS.Undefined None]) [] "id" "secret" "refresh"
           (token_response 200 JS.Undefined None)
           (JObject {| access_token := JS.Undefined; error_description := None;
                       records := None; nextRecordsUrl := None |}));
    reflexivity.
Defined.

(** After a 2xx token response without [access_token] the handler goes on
    to query with the text [undefined] as bearer token. *)
Example handler_queries_with_undefined_token :
  let run := Salesforce.handler 5
    (configured (Some "id") (Some "secret") (Some "refresh")
       (Some "https://acme.my.salesforce.com"))
    (scripted [token_response 200 JS.Undefined None; page [] None])
    {| method := "GET" |} [] in
  option_map statusCode (match fst run with Returned res => Some res | _ => None end) = Some 200
  /\ map req_headers (snd run)
     = [ [("Content-Type", "application/x-www-form-urlencoded")];
         [("Authorization", "Bearer undefined"); ("Content-Type", "application/json")] ].
Proof. split; reflexivity. Qed.

(** The development server checks the same response for the field. *)
Example server_rejects_missing_access_token :
  fst (Server.handleSalesforceAPI 5
         {| SF_CLIENT_ID := Some "id"; SF_CLIENT_SECRET := Some "secret";
            SF_REFRESH_TOKEN := Some "refresh";
            SF_INSTANCE_URL := Some "https://acme.my.salesforce.com" |}
         (host_in "UTC")
         (scripted [token_response 200 JS.Undefined None; page [] None]) [])
  = Returned {| statusCode := 500;
                headers := [("Content-Type", "application/json")];
                payload := JsonFailure "OAuth failed" "API_ERROR" |}.
Proof. reflexivity. Qed.

Example refreshAccessToken_returns_the_token :
  fst (Salesforce.refreshAccessToken
         (configured (Some "id") (Some "secret") (Some "refresh") None)
         (scripted [token_response 200 (JS.Text "00D-token") None]) [])
  = Returned (JS.Text "00D-token").
Proof. reflexivity. Qed.

Example refreshAccessToken_rejected :
  fst (Salesforce.refreshAccessToken
         (configured (Some "id") (Some "secret") (Some "refresh") None)
         (scripted [token_response 400 JS.Undefined (Some "expired access/refresh token")]) [])
  = Thrown {| err_message := "expired access/refresh token";
              err_code := Some "AUTH_ERROR";
              err_status := Some 401 |}.
Proof. reflexivity. Qed.

(** C4, as stated, fails: with only the instance URL missing the
    authenticator sends its request and returns the token. *)
Lemma authenticator_does_not_check_instance_url :
  ~ (forall (P : Platform) (host : Host) (remote : Remote) (accessToken : JS.Value)
            (fuel : nat) (log : list Request),
       JS.truthy (SF_CLIENT_ID (process_env host)) = None
       \/ JS.truthy (SF_CLIENT_SECRET (process_env host)) = None
       \/ JS.truthy (SF_REFRESH_TOKEN (process_env host)) = None
       \/ JS.truthy (SF_INSTANCE_URL (process_env host)) = None ->
       (exists e, Salesforce.refreshAccessToken host remote log = (Thrown e, log)
                  /\ err_code e = Some "CONFIG_ERROR" /\ err_status e = Some 500)
       /\ (exists e, Salesforce.querySalesforce fuel host remote accessToken log = (Thrown e, log)
                     /\ err_code e = Some "CONFIG_ERROR" /\ err_status e = Some 500)).
Proof.
  intros Hclaim.
  destruct (Hclaim Reference.platform
              (configured (Some "id") (Some "secret") (Some "refresh") None)
              (scripted [token_response 200 (JS.Text "00D-token") None])
              (JS.Text "00D-token") 1%nat []) as [[e [Hrun _]] _].
  - right. right. right. reflexivity.
  - cbv in Hrun. discriminate Hrun.
Qed.

Example authenticator_runs_without_instance_url :
  Salesforce.refreshAccessToken
    (configured (Some "id") (Some "secret") (Some "refresh") None)
    (scripted [token_response 200 (JS.Text "00D-token") None]) []
  = (Returned (JS.Text "00D-token"), [token_request "id" "secret" "refresh"]).
Proof. reflexivity. Qed.

(** The fetcher, called on its own, does not look at the credentials. *)
Example fetcher_runs_without_credentials :
  fst (Salesforce.querySalesforce 1
         (configured None None None (Some "https://acme.my.salesforce.com"))
         (scripted [page [opportunity "1"] None]) (JS.Text "00D-token") [])
  = Returned [opportunity "1"].
Proof. reflexivity. Qed.

Lemma handler_answers_non_GET_with_405_witness :
  Salesforce.handler 5
    (configured (Some "id") (Some "secret") (Some "refresh")
       (Some "https://acme.my.salesforce.com"))
    (scripted [token_response 200 (JS.Text "00D-token") None; page [] None])
    {| method := "OPTIONS" |} []
  = (Returned {| statusCode := 405;
                 headers := [];
                 payload := JsonFailure "Method not allowed" "METHOD_NOT_ALLOWED" |}, []).
Proof. apply handler_answers_non_GET_with_405. reflexivity. Defined.

Lemma config_error_per_stage_witness :
  Salesforce.refreshAccessToken (configured (Some "id") (Some "") (Some "refresh") None)
    (scripted []) []
  = (Thrown {| err_message := "Missing Salesforce credentials in environment variables";
               err_code := Some "CONFIG_ERROR";
               err_status := Some 500 |}, [])
  /\ Salesforce.querySalesforce 1 (configured (Some "id") (Some "") (Some "refresh") None)
       (scripted []) (JS.Text "00D-token") []
     = (Thrown {| err_message := "Missing SF_INSTANCE_URL in environment variables";
                  err_code := Some "CONFIG_ERROR";
                  err_status := Some 500 |}, []).
Proof.
  destruct (config_error_per_stage
              (configured (Some "id") (Some "") (Some "refresh") None)
              (scripted []) (JS.Text "00D-token") 1 []) as [Hauth Hfetch].
  split.
  - apply Hauth. right. left. reflexivity.
  - apply Hfetch. reflexivity.
Defined.

(** With the instance URL alone missing, the handler reports the
    configuration error only after the token request has gone out. *)
Example handler_reports_missing_instance_url_after_token_request :
  Salesforce.handler 1 (configured (Some "id") (Some "secret") (Some "refresh") None)
    (scripted [token_response 200 (JS.Text "00D-token") None]) {| method := "GET" |} []
  = (Returned {| statusCode := 500;
                 headers := Salesforce.corsHeaders;
                 payload := JsonFailure "Missing SF_INSTANCE_URL in environment variables"
                              "CONFIG_ERROR" |},
     [token_request "id" "secret" "refresh"]).
Proof. reflexivity. Qed.

Example handler_serves_GET :
  fst (Salesforce.handler 2
         (configured (Some "id") (Some "secret") (Some "refresh")
            (Some "https://acme.my.salesforce.com"))
         (scripted [token_response 200 (JS.Text "00D-token") None; page [opportunity "1"] None])
         {| method := "GET" |} [])
  = Returned {| statusCode := 200;
                headers := Salesforce.corsHeaders;
                payload := JsonSuccess
                  [ [ ("Amount", "0"); ("Close Date", ""); ("Quote sent TImestamp 2", "");
                      ("Stage", ""); ("Opportunity Owner", "Unknown"); ("Close Month", "") ] ]
                  1 "2024-01-01T00:00:00.000Z" |}.
Proof. reflexivity. Qed.

(** A failed page request reaches the caller with the upstream status and
    without data. *)
Example handler_surfaces_upstream_status :
  Salesforce.handler 10
    (configured (Some "id") (Some "secret") (Some "refresh")
       (Some "https://acme.my.salesforce.com"))
    (scripted
       [ token_response 200 (JS.Text "00D-token") None;
         page [opportunity "1"] (Some "/services/data/v59.0/query/01g-2000");
         {| status := 503; body := Unparseable "Unexpected token < in JSON at position 0" |};
         page [opportunity "2"] None ])
    {| method := "GET" |} []
  = (Returned {| statusCode := 503;
                 headers := Salesforce.corsHeaders;
                 payload := JsonFailure "Failed to query Salesforce" "QUERY_ERROR" |},
     [ token_request "id" "secret" "refresh";
       Salesforce.pageRequest (JS.Text "00D-token")
         (Salesforce.queryUrl "https://acme.my.salesforce.com");
       Salesforce.pageRequest (JS.Text "00D-token")
         "https://acme.my.salesforce.com/services/data/v59.0/query/01g-2000" ]).
Proof. reflexivity. Qed.

End AuthenticatorRuns.

(** ** Timestamps *)
Section Timestamps.
Context {P : Platform}.

(** The handler names the zone in which the instant is rendered. *)
Lemma formatTimestamp_fixed_zone (host : Host) (sent : option string) :
  Salesforce.formatTimestamp host sent =
  match JS.truthy sent with
  | None => ""
  | Some s =>
      match Date_parse (host_timeZone host) s with
      | None => "Invalid Date"
      | Some t => DateTimeFormat "en-US" Salesforce.timestampOptions "America/New_York" t
      end
  end.
Proof. reflexivity. Qed.

(** Two hosts that read the same instant off a timestamp print the same text. *)
Lemma formatTimestamp_host_independent (host1 host2 : Host) (s : string) :
  Date_parse (host_timeZone host1) s = Date_parse (host_timeZone host2) s ->
  Salesforce.formatTimestamp host1 (Some s) = Salesforce.formatTimestamp host2 (Some s).
Proof.
  intros Hparse. rewrite !formatTimestamp_fixed_zone.
  destruct (JS.truthy (Some s)) as [t|] eqn:Ht; [|reflexivity].
  apply truthy_Some_inv in Ht. destruct Ht as [[= <-] _]. now rewrite Hparse.
Qed.

(** The development server names no zone, so the host's zone is used. *)
Lemma server_formatTimestamp_host_zone (host : Host) (sent : option string) :
  Server.formatTimestamp host sent =
  match JS.truthy sent with
  | None => ""
  | Some s =>
      match Date_parse (host_timeZone host) s with
      | None => "Invalid Date"
      | Some t => DateTimeFormat "en-US" Server.timestampOptions (host_timeZone host) t
      end
  end.
Proof. reflexivity. Qed.

End Timestamps.

Section TimestampRuns.
Local Existing Instance Reference.platform.

(** The two calendar conversions are inverse to each other on every
    thirty-first day of the century that starts on 1970-01-01, and agree
    with known dates. *)
Lemma civil_days_roundtrip :
  forallb (fun k => let n := 31 * Z.of_nat k in
                    let '(y, m, d) := Reference.civil_from_days n in
                    Reference.days_from_civil y m d =? n)
          (seq 0 1200) = true.
Proof. vm_compute. reflexivity. Qed.

Example calendar_anchors :
  Reference.days_from_civil 1970 1 1 = 0
  /\ Reference.civil_from_days 19597 = (2023, 8, 28)
  /\ Reference.weekday 19597 = 1
  /\ Reference.civil_from_days (Reference.nth_sunday 2023 3 2) = (2023, 3, 12)
  /\ Reference.civil_from_days (Reference.nth_sunday 2023 11 1) = (2023, 11, 5)
  /\ Reference.civil_from_days (Reference.nth_sunday 2024 3 2) = (2024, 3, 10)
  /\ Reference.civil_from_days (Reference.nth_sunday 2024 11 1) = (2024, 11, 3).
Proof. repeat split; reflexivity. Qed.

Example daylight_time_boundaries :
  Reference.format_en_US "America/New_York" 1678604340000 = "3/12/2023, 1:59 AM"
  /\ Reference.format_en_US "America/New_York" 1678604400000 = "3/12/2023, 3:00 AM"
  /\ Reference.format_en_US "America/New_York" 1699163940000 = "11/5/2023, 1:59 AM"
  /\ Reference.format_en_US "America/New_York" 1699164000000 = "11/5/2023, 1:00 AM"
  /\ (forall zone, Reference.parse_iso zone "2023-08-28T12:07:00.000+0000" = Some 1693224420000)
  /\ (forall zone, Reference.parse_iso zone "2023-08-28T08:07:00.000-04:00" = Some 1693224420000)
  /\ (forall zone, Reference.parse_iso zone "1970-01-01T00:00:00.000Z" = Some 0)
  /\ Reference.parse_iso "America/New_York" "2023-08-28T08:07:00.000" = Some 1693224420000
  /\ Reference.parse_iso "America/New_York" "2023-03-12T02:30:00.000" = Some 1678606200000
  /\ Reference.parse_iso "America/New_York" "2023-11-05T01:30:00.000" = Some 1699162200000.
Proof. repeat split; reflexivity. Qed.

(** A timestamp without an offset is a local time of the host: the instant,
    and with it the text the handler prints, then follows the host's zone. *)
Example timestamp_without_offset_is_local :
  Salesforce.formatTimestamp (host_in "UTC") (Some "2023-08-28T12:07:00.000")
  = "8/28/2023, 8:07 AM"
  /\ Salesforce.formatTimestamp (host_in "America/Los_Angeles") (Some "2023-08-28T12:07:00.000")
     = "8/28/2023, 3:07 PM".
Proof. split; reflexivity. Qed.

(** C8 (the code diverges in [server.js]). On every platform the handler
    formats the parsed instant for the zone America/New_York and the
    development server formats it for the host's zone. On the reference
    platform the handler renders "2023-08-28T12:07:00.000+0000" as
    "8/28/2023, 8:07 AM" whatever the host's zone, while the development
    server gives 12:07 PM on a host in UTC and 5:07 AM on one in Los Angeles.
    A null timestamp gives the empty string in both. *)
Theorem server_timestamp_follows_host_zone :
  (forall (Q : Platform) host s t,
     JS.truthy (Some s) = Some s ->
     @Date_parse Q (host_timeZone host) s = Some t ->
     @Salesforce.formatTimestamp Q host (Some s)
     = @DateTimeFormat Q "en-US" Salesforce.timestampOptions "America/New_York" t
     /\ @Server.formatTimestamp Q host (Some s)
        = @DateTimeFormat Q "en-US" Server.timestampOptions (host_timeZone host) t)
  /\ (forall host,
     Salesforce.formatTimestamp host (Some "2023-08-28T12:07:00.000+0000")
     = "8/28/2023, 8:07 AM")
  /\ Server.formatTimestamp (host_in "America/New_York") (Some "2023-08-28T12:07:00.000+0000")
     = "8/28/2023, 8:07 AM"
  /\ Server.formatTimestamp (host_in "UTC") (Some "2023-08-28T12:07:00.000+0000")
     = "8/28/2023, 12:07 PM"
  /\ Server.formatTimestamp (host_in "America/Los_Angeles") (Some "2023-08-28T12:07:00.000+0000")
     = "8/28/2023, 5:07 AM"
  /\ Salesforce.formatTimestamp (host_in "UTC") None = ""
  /\ Server.formatTimestamp (host_in "UTC") None = "".
Proof.
  split.
  - intros Q host s t Hs Ht.
    rewrite formatTimestamp_fixed_zone, server_formatTimestamp_host_zone.
    now rewrite Hs, Ht.
  - split; [intros host; rewrite formatTimestamp_fixed_zone|]; repeat split; reflexivity.
Qed.

Lemma server_timestamp_follows_host_zone_witness :
  Salesforce.formatTimestamp (host_in "UTC") (Some "2023-08-28T12:07:00.000+0000")
  = "8/28/2023, 8:07 AM"
  /\ Server.formatTimestamp (host_in "UTC") (Some "2023-08-28T12:07:00.000+0000")
     = "8/28/2023, 12:07 PM".
Proof.
  exact (proj1 server_timestamp_follows_host_zone Reference.platform (host_in "UTC")
           "2023-08-28T12:07:00.000+0000" 1693224420000 eq_refl eq_refl).
Defined.

End TimestampRuns.

(** * Further properties of the code *)

(** ** Splitting and joining *)

Lemma occurrences_app (c : ascii) (a b : string) :
  occurrences c (a ++ b) = (occurrences c a + occurrences c b)%nat.
Proof. induction a as [|x a IH]; simpl; [reflexivity|]. rewrite IH. lia. Qed.

Lemma free_of_cons (c x : ascii) (s : string) :
  free_of c (String x s) -> Ascii.eqb x c = false /\ free_of c s.
Proof.
  unfold free_of. simpl. destruct (Ascii.eqb x c); [discriminate|]. now split.
Qed.

Lemma split_free (sep : ascii) (s : string) : free_of sep s -> JS.split sep s = [s].
Proof.
  induction s as [|x s IH]; intros Hfree; [reflexivity|].
  apply free_of_cons in Hfree. destruct Hfree as [Hx Hs].
  rewrite split_other by assumption. now rewrite IH.
Qed.

Lemma split_app_separator (sep : ascii) (a b : string) :
  free_of sep a -> JS.split sep (a ++ String sep b) = a :: JS.split sep b.
Proof.
  induction a as [|x a IH]; intros Hfree.
  - apply split_separator.
  - apply free_of_cons in Hfree. destruct Hfree as [Hx Ha].
    cbn [append]. rewrite split_other by assumption. now rewrite IH.
Qed.

(** Joining the pieces of a split gives the text back. *)
Lemma join_split (sep : ascii) (s : string) :
  Node.join (String sep EmptyString) (JS.split sep s) = s.
Proof.
  induction s as [|x s IH]; [reflexivity|].
  destruct (Ascii.eqb x sep) eqn:Hx.
  - apply Ascii.eqb_eq in Hx. subst x. rewrite split_separator.
    pose proof (split_nonempty sep s) as Hne.
    destruct (JS.split sep s) as [|y ys] eqn:E; [contradiction|].
    cbn [Node.join]. cbn [Node.join] in IH.
    destruct ys; simpl in *; now rewrite IH.
  - rewrite split_other by assumption.
    pose proof (split_nonempty sep s) as Hne.
    destruct (JS.split sep s) as [|y ys] eqn:E; [contradiction|].
    cbn [hd tl]. destruct ys; simpl in *; now rewrite <- IH.
Qed.

(** Splitting a join of separator-free pieces gives the pieces back. *)
Lemma split_join (sep : ascii) (parts : list string) :
  parts <> [] ->
  Forall (free_of sep) parts ->
  JS.split sep (Node.join (String sep EmptyString) parts) = parts.
Proof.
  induction parts as [|a rest IH]; intros Hne Hfree; [contradiction|].
  inversion Hfree as [|? ? Ha Hrest]; subst.
  destruct rest as [|b rest'].
  - simpl. now apply split_free.
  - change (Node.join (String sep EmptyString) (a :: b :: rest'))
      with (a ++ String sep (Node.join (String sep EmptyString) (b :: rest'))).
    rewrite split_app_separator by assumption.
    rewrite IH; [reflexivity|discriminate|assumption].
Qed.

(** ** Dates that are not plain dates *)
Section LooseDates.
Context {P : Platform}.

Lemma Number_ofZ_safe (z : Z) : Z.abs z < 2 ^ 53 -> Number_ofZ z = Int z.
Proof.
  intros Hz. unfold Number_ofZ.
  destruct (Z.ltb_spec (Z.abs z) (2 ^ 53)); [reflexivity|lia].
Qed.

Lemma digits_prefix_stops (acc : option Z) (s : string) :
  starts_with_digit s = false -> JS.digits_prefix acc s = acc.
Proof.
  destruct s as [|c s]; [reflexivity|]. simpl.
  destruct (JS.digit_value c); [discriminate|reflexivity].
Qed.

Lemma parseInt10_two_digits_then (a b : nat) (rest : string) :
  (a < 10)%nat -> (b < 10)%nat ->
  JS.parseInt10_value (String (digit a) (String (digit b) rest))
  = JS.digits_prefix (Some (Z.of_nat (10 * a + b))) rest.
Proof.
  intros Ha Hb.
  do 10 (destruct a as [|a]; [each_digit b Hb|]). exfalso; lia.
Qed.

Lemma parseInt_two_digits_then (a b : nat) (rest : string) :
  (a < 10)%nat -> (b < 10)%nat -> starts_with_digit rest = false ->
  parseInt (Some (String (digit a) (String (digit b) rest))) = Int (Z.of_nat (10 * a + b)).
Proof.
  intros Ha Hb Hrest. unfold parseInt. cbn [JS.ToString].
  rewrite parseInt10_two_digits_then, digits_prefix_stops by assumption.
  apply Number_ofZ_safe. lia.
Qed.

Lemma first_field_starts_alike (sep : ascii) (s : string) :
  starts_with_digit s = false ->
  starts_with_digit (hd EmptyString (JS.split sep s)) = false.
Proof.
  destruct s as [|c s]; [reflexivity|]. intros Hs.
  destruct (Ascii.eqb c sep) eqn:Hc.
  - apply Ascii.eqb_eq in Hc. subst c. now rewrite split_separator.
  - rewrite split_other by assumption. exact Hs.
Qed.

(** X1. Whatever follows a YYYY-MM-DD date in [CloseDate], as long as it
    does not start with a digit (a time part, for one), is ignored: both
    helpers give what they give for the date alone. *)
Theorem date_helpers_ignore_what_follows_the_date
    (y1 y2 y3 y4 m1 m2 d1 d2 : nat) (suffix : string) :
  (y1 < 10)%nat -> (y2 < 10)%nat -> (y3 < 10)%nat -> (y4 < 10)%nat ->
  (m1 < 10)%nat -> (m2 < 10)%nat -> (d1 < 10)%nat -> (d2 < 10)%nat ->
  starts_with_digit suffix = false ->
  Salesforce.formatDateMDY (Some (iso_date y1 y2 y3 y4 m1 m2 d1 d2 ++ suffix))
    = JS.decimal (Z.of_nat (10 * m1 + m2)) ++ "/" ++ JS.decimal (Z.of_nat (10 * d1 + d2))
        ++ "/" ++ year_text y1 y2 y3 y4
  /\ Salesforce.deriveCloseMonth (Some (iso_date y1 y2 y3 y4 m1 m2 d1 d2 ++ suffix))
    = JS.decimal (Z.of_nat (10 * m1 + m2)) ++ "/1/" ++ year_text y1 y2 y3 y4.
Proof.
  intros Hy1 Hy2 Hy3 Hy4 Hm1 Hm2 Hd1 Hd2 Hsuffix.
  assert (Hsplit :
    JS.split "-" (iso_date y1 y2 y3 y4 m1 m2 d1 d2 ++ suffix) =
      year_text y1 y2 y3 y4
      :: String (digit m1) (String (digit m2) EmptyString)
      :: String (digit d1) (String (digit d2) (hd EmptyString (JS.split "-" suffix)))
      :: tl (JS.split "-" suffix)).
  { unfold iso_date, year_text. cbn [append].
    repeat first [ rewrite split_separator
                 | rewrite split_other by (apply digit_not_dash; assumption) ].
    reflexivity. }
  unfold Salesforce.formatDateMDY, Salesforce.deriveCloseMonth.
  assert (Htruthy : JS.truthy (Some (iso_date y1 y2 y3 y4 m1 m2 d1 d2 ++ suffix))
                    = Some (iso_date y1 y2 y3 y4 m1 m2 d1 d2 ++ suffix)) by reflexivity.
  rewrite Htruthy, Hsplit. cbn [nth_error JS.ToString].
  rewrite (parseInt_two_digits_then m1 m2 EmptyString) by (assumption || reflexivity).
  rewrite (parseInt_two_digits_then d1 d2) by (auto using first_field_starts_alike).
  split; reflexivity.
Qed.

(** X2. A non-empty [CloseDate] without any dash is not rejected: the month
    and the day come out as the text NaN and the whole input stands where the
    year belongs. *)
Theorem date_helpers_on_text_without_dash (s : string) :
  s <> "" ->
  free_of "-" s ->
  Salesforce.formatDateMDY (Some s) = "NaN/NaN/" ++ s
  /\ Salesforce.deriveCloseMonth (Some s) = "NaN/1/" ++ s
  /\ Server.formatDateMDY (Some s) = "NaN/NaN/" ++ s
  /\ Server.deriveCloseMonth (Some s) = "NaN/1/" ++ s.
Proof.
  intros Hne Hfree.
  unfold Server.formatDateMDY, Server.deriveCloseMonth,
    Salesforce.formatDateMDY, Salesforce.deriveCloseMonth.
  rewrite (truthy_nonempty s Hne), (split_free "-" s Hfree).
  repeat split; reflexivity.
Qed.

End LooseDates.

Lemma date_helpers_ignore_what_follows_the_date_witness :
  @Salesforce.formatDateMDY Reference.platform (Some "2023-07-20T00:00:00.000-04:00")
  = "7/20/2023"
  /\ @Salesforce.deriveCloseMonth Reference.platform (Some "2023-07-20T00:00:00.000-04:00")
     = "7/1/2023".
Proof.
  apply (@date_helpers_ignore_what_follows_the_date Reference.platform
           2 0 2 3 0 7 2 0 "T00:00:00.000-04:00"); (lia || reflexivity).
Defined.

Lemma date_helpers_on_text_without_dash_witness :
  @Salesforce.formatDateMDY Reference.platform (Some "20230720") = "NaN/NaN/20230720"
  /\ @Salesforce.deriveCloseMonth Reference.platform (Some "20230720") = "NaN/1/20230720"
  /\ @Server.formatDateMDY Reference.platform (Some "20230720") = "NaN/NaN/20230720"
  /\ @Server.deriveCloseMonth Reference.platform (Some "20230720") = "NaN/1/20230720".
Proof.
  apply (@date_helpers_on_text_without_dash Reference.platform "20230720");
    [discriminate|reflexivity].
Defined.

(** ** The token request *)

Lemma form_encode_cons (c : ascii) (s : string) :
  JS.form_encode (String c s) = JS.form_encode (String c EmptyString) ++ JS.form_encode s.
Proof.
  cbn [JS.form_encode].
  destruct (JS.is_alnum c || JS.is_one_of "*-._" c); [reflexivity|].
  destruct (Ascii.eqb c " "); reflexivity.
Qed.

Lemma form_encode_char_plain (c : ascii) :
  occurrences "&" (JS.form_encode (String c EmptyString)) = O
  /\ occurrences "=" (JS.form_encode (String c EmptyString)) = O.
Proof. destruct c as [[] [] [] [] [] [] [] []]; split; reflexivity. Qed.

Lemma form_encode_plain (s : string) :
  free_of "&" (JS.form_encode s) /\ free_of "=" (JS.form_encode s).
Proof.
  unfold free_of. induction s as [|c s [IHa IHe]]; [split; reflexivity|].
  rewrite form_encode_cons, !occurrences_app, IHa, IHe.
  destruct (form_encode_char_plain c) as [-> ->]. split; reflexivity.
Qed.

Lemma form_decode_char (c : ascii) (t : string) :
  form_decode (JS.form_encode (String c EmptyString) ++ t) = String c (form_decode t).
Proof. destruct c as [[] [] [] [] [] [] [] []]; reflexivity. Qed.

(** Decoding undoes encoding. *)
Lemma form_decode_encode (s : string) : form_decode (JS.form_encode s) = s.
Proof.
  induction s as [|c s IH]; [reflexivity|].
  now rewrite form_encode_cons, form_decode_char, IH.
Qed.

Lemma form_encode_injective (a b : string) :
  JS.form_encode a = JS.form_encode b -> a = b.
Proof.
  intros H. rewrite <- (form_decode_encode a), <- (form_decode_encode b). now rewrite H.
Qed.

Section TokenRequest.
Context {P : Platform}.

Lemma token_request_body (client_id client_secret refresh_token : string) :
  req_body (token_request client_id client_secret refresh_token)
  = Some ("grant_type=refresh_token&client_id=" ++ JS.form_encode client_id
          ++ String "&" ("client_secret=" ++ JS.form_encode client_secret
          ++ String "&" ("refresh_token=" ++ JS.form_encode refresh_token))).
Proof.
  unfold token_request. cbn [req_body JS.URLSearchParams_toString].
  change (JS.form_encode "grant_type") with "grant_type".
  change (JS.form_encode "refresh_token") with "refresh_token".
  change (JS.form_encode "client_id") with "client_id".
  change (JS.form_encode "client_secret") with "client_secret".
  cbn [append]. reflexivity.
Qed.

(** X3. With the three credentials set, [refreshAccessToken] sends exactly one
    request, a POST to the login host, whose body is
    [grant_type=refresh_token&client_id=I&client_secret=S&refresh_token=R]
    where, whatever characters the credentials contain, [I], [S] and [R]
    contain neither [&] nor [=] and are read back as the three credentials
    by decoding [+] as a space and [%XY] as a byte. *)
Theorem token_request_carries_the_credentials (host : Host) (remote : Remote)
    (log : list Request) (client_id client_secret refresh_token : string) :
  JS.truthy (SF_CLIENT_ID (process_env host)) = Some client_id ->
  JS.truthy (SF_CLIENT_SECRET (process_env host)) = Some client_secret ->
  JS.truthy (SF_REFRESH_TOKEN (process_env host)) = Some refresh_token ->
  exists id secret refresh : string,
    snd (Salesforce.refreshAccessToken host remote log)
    = (log ++ [ {| req_url := "https://login.salesforce.com/services/oauth2/token";
                   req_method := "POST";
                   req_headers := [("Content-Type", "application/x-www-form-urlencoded")];
                   req_body := Some ("grant_type=refresh_token&client_id=" ++ id
                                     ++ "&client_secret=" ++ secret
                                     ++ "&refresh_token=" ++ refresh)%string |} ])%list
    /\ (free_of "&" id /\ free_of "=" id /\ form_decode id = client_id)
    /\ (free_of "&" secret /\ free_of "=" secret /\ form_decode secret = client_secret)
    /\ (free_of "&" refresh /\ free_of "=" refresh /\ form_decode refresh = refresh_token).
Proof.
  intros Hid Hsecret Hrefresh.
  pose proof (token_request_body client_id client_secret refresh_token) as Hbody.
  exists (JS.form_encode client_id), (JS.form_encode client_secret),
    (JS.form_encode refresh_token).
  split.
  - rewrite (refreshAccessToken_sends host remote log _ _ _ Hid Hsecret Hrefresh).
    unfold token_request in *. cbn [req_body] in Hbody. rewrite Hbody.
    cbn [append]. reflexivity.
  - repeat split; first [apply form_encode_plain | apply form_decode_encode].
Qed.

End TokenRequest.

(** ** The fetcher under any remote *)
Section FetcherTheorems.
Context {P : Platform}.

(** X4. [querySalesforce] returns complete results only: whenever it returns,
    the instance URL is configured, every request it issued was answered
    with a 2xx status and a body that is a JSON document other than [null],
    all but the last answer carried a non-empty continuation, the last one
    carried none, and the records returned are those of all the answers, in
    order. *)
Theorem querySalesforce_returns_only_complete_results (fuel : nat) (host : Host)
    (remote : Remote) (accessToken : JS.Value) (log log' : list Request)
    (recs : list RawRecord) :
  Salesforce.querySalesforce fuel host remote accessToken log = (Returned recs, log') ->
  exists base pages last,
    JS.truthy (SF_INSTANCE_URL (process_env host)) = Some base
    /\ Forall (fun r => continuing r = true) pages
    /\ final last = true
    /\ answers remote accessToken (length log)
         (run_urls base (Salesforce.queryUrl base) pages) (pages ++ [last])
    /\ recs = flat_map page_records (pages ++ [last])
    /\ log' = (log ++ map (Salesforce.pageRequest accessToken)
                        (run_urls base (Salesforce.queryUrl base) pages))%list
    /\ (length pages < fuel)%nat.
Proof.
  unfold Salesforce.querySalesforce.
  destruct (JS.truthy (SF_INSTANCE_URL (process_env host))) as [base|] eqn:Hbase;
    [|discriminate].
  intros Hrun. destruct (truthy_Some_inv _ _ Hbase) as [_ Hne].
  apply (paginate_returns_inv remote accessToken base Hne) in Hrun;
    [|now apply append_nonempty].
  destruct Hrun as [pages [last Hrun]]. exists base, pages, last. now split.
Qed.

(** X5. Whatever the remote answers, [querySalesforce] leaves the requests
    already logged in place and adds page requests only: GET requests that
    carry the bearer token, at most one per iteration, each for a URL that
    starts with the configured instance URL. *)
Theorem querySalesforce_requests_stay_under_instance_url (fuel : nat) (host : Host)
    (remote : Remote) (accessToken : JS.Value) (log : list Request) :
  exists urls,
    snd (Salesforce.querySalesforce fuel host remote accessToken log)
    = (log ++ map (fun url =>
                     {| req_url := url;
                        req_method := "GET";
                        req_headers :=
                          [("Authorization", ("Bearer " ++ JS.Value_toString accessToken)%string);
                           ("Content-Type", "application/json")];
                        req_body := None |}) urls)%list
    /\ (length urls <= fuel)%nat
    /\ Forall (fun url => exists base rest,
                 SF_INSTANCE_URL (process_env host) = Some base /\ url = base ++ rest) urls.
Proof.
  unfold Salesforce.querySalesforce.
  destruct (JS.truthy (SF_INSTANCE_URL (process_env host))) as [base|] eqn:Hbase.
  - destruct (truthy_Some_inv _ _ Hbase) as [Hsome Hne].
    destruct (paginate_requests remote accessToken base fuel
                (Some (Salesforce.queryUrl base)) [] log) as [urls [Hlog [Hlen Hall]]].
    exists urls. split; [exact Hlog|]. split; [assumption|].
    eapply Forall_impl; [|exact Hall].
    intros u [[= ->]|[rest ->]]; exists base; eexists; (split; [exact Hsome|reflexivity]).
  - exists []. cbn [map]. rewrite app_nil_r.
    split; [reflexivity|]. split; [simpl; lia|constructor].
Qed.

(** X6. A page answered with a 2xx status and a body that is not JSON makes
    [querySalesforce] throw the parser's error, which has neither code nor
    status, and not a [QUERY_ERROR]; the records of the pages before are
    dropped and no further request is issued. *)
Theorem querySalesforce_unparseable_page (host : Host) (remote : Remote)
    (accessToken : JS.Value) (base : string) (pages : list Response)
    (garbled : Response) (m : string) (log : list Request) (fuel : nat) :
  JS.truthy (SF_INSTANCE_URL (process_env host)) = Some base ->
  Forall (fun r => continuing r = true) pages ->
  ok garbled = true ->
  body garbled = Unparseable m ->
  answers remote accessToken (length log)
    (run_urls base (Salesforce.queryUrl base) pages) (pages ++ [garbled]) ->
  (length pages < fuel)%nat ->
  Salesforce.querySalesforce fuel host remote accessToken log
  = (Thrown {| err_message := m; err_code := None; err_status := None |},
     (log ++ map (Salesforce.pageRequest accessToken)
               (run_urls base (Salesforce.queryUrl base) pages))%list).
Proof.
  intros Hbase Hcont Hok Hbody Hans Hfuel.
  destruct (querySalesforce_configured fuel host remote accessToken base Hbase)
    as [Hne [Hurl ->]].
  replace fuel with (S (length pages + (fuel - S (length pages)))) by lia.
  rewrite (paginate_run remote accessToken base Hne garbled
             (fun _ => Thrown (native_error m))).
  - reflexivity.
  - intros f url acc lg Hu Hr. now apply paginate_unparseable with (r := garbled).
  - assumption.
  - assumption.
  - assumption.
Qed.

End FetcherTheorems.

(** ** The handler, end to end *)
Section Handler.
Context {P : Platform}.

Lemma handler_GET (fuel : nat) (host : Host) (remote : Remote) (log : list Request) :
  Salesforce.handler fuel host remote GET log =
  match Salesforce.refreshAccessToken host remote log with
  | (Returned accessToken, log1) =>
      match Salesforce.querySalesforce fuel host remote accessToken log1 with
      | (Returned opportunities, log2) =>
          (Returned {| statusCode := 200;
                       headers := Salesforce.corsHeaders;
                       payload := JsonSuccess (Salesforce.transformData host opportunities)
                                    (length opportunities) (host_now host) |}, log2)
      | (Thrown e, log2) => (Returned (Salesforce.errorResponse Salesforce.corsHeaders e), log2)
      | (OutOfFuel, log2) => (OutOfFuel, log2)
      end
  | (Thrown e, log1) => (Returned (Salesforce.errorResponse Salesforce.corsHeaders e), log1)
  | (OutOfFuel, log1) => (OutOfFuel, log1)
  end.
Proof.
  unfold Salesforce.handler, GET. cbn [method String.eqb Ascii.eqb Bool.eqb negb].
  unfold bind.
  destruct (Salesforce.refreshAccessToken host remote log) as [[token|e|] log1];
    [|reflexivity|reflexivity].
  destruct (Salesforce.querySalesforce fuel host remote token log1) as [[recs|e|] log2];
    unfold ret; [|reflexivity|reflexivity].
  unfold Salesforce.transformData. now rewrite length_map.
Qed.

(** What [refreshAccessToken] makes of each outcome of the token exchange. *)
Lemma refreshAccessToken_outcome (host : Host) (remote : Remote) (log : list Request)
    (sent : Request) (outcome : FetchOutcome) :
  token_exchange host remote log sent outcome ->
  Salesforce.refreshAccessToken host remote log
  = (match outcome with
     | Rejected m => Thrown (native_error m)
     | Resolved r =>
         if ok r then
           match body r with
           | Parsed j => token_read j
           | Unparseable m => Thrown (native_error m)
           end
         else Thrown (token_failure r)
     end, (log ++ [sent])%list).
Proof.
  intros [id [secret [refresh [Hid [Hsecret [Hrefresh [-> Hremote]]]]]]].
  unfold Salesforce.refreshAccessToken. rewrite Hid, Hsecret, Hrefresh.
  fold (token_request id secret refresh).
  unfold bind at 1. unfold fetch. rewrite Hremote.
  destruct outcome as [r|m]; [|reflexivity].
  destruct (ok r); cbn [negb].
  - unfold bind, json. destruct (body r) as [[o|items|]|m]; reflexivity.
  - unfold bind, json_or_empty, token_failure.
    destruct (body r) as [[o|items|]|m]; reflexivity.
Qed.


Lemma or_else_twice (v : option string) (d d' : string) :
  d <> "" -> JS.or_else (Some (JS.or_else v d)) d' = JS.or_else v d.
Proof.
  intros Hd. unfold JS.or_else at 1.
  rewrite truthy_nonempty; [reflexivity|].
  unfold JS.or_else. destruct (JS.truthy v) as [s|] eqn:Hv; [|assumption].
  now apply truthy_Some_inv in Hv.
Qed.

(** X7. A GET with a credential missing or empty is answered with 500 and
    [CONFIG_ERROR], with the CORS headers, and nothing is requested from
    outside. *)
Theorem handler_reports_missing_credentials (fuel : nat) (host : Host) (remote : Remote)
    (log : list Request) :
  JS.truthy (SF_CLIENT_ID (process_env host)) = None
  \/ JS.truthy (SF_CLIENT_SECRET (process_env host)) = None
  \/ JS.truthy (SF_REFRESH_TOKEN (process_env host)) = None ->
  Salesforce.handler fuel host remote GET log
  = (Returned {| statusCode := 500;
                 headers := [ ("Access-Control-Allow-Origin", "*");
                              ("Access-Control-Allow-Methods", "GET, OPTIONS");
                              ("Access-Control-Allow-Headers", "Content-Type") ];
                 payload := JsonFailure
                              "Missing Salesforce credentials in environment variables"
                              "CONFIG_ERROR" |}, log).
Proof.
  intros Hmissing. rewrite handler_GET.
  now rewrite (refreshAccessToken_config_error host remote log Hmissing).
Qed.

(** X8. When the token endpoint answers with a status outside 200..299, a
    GET is answered with 401 and [AUTH_ERROR]; the message is the body's
    [error_description] when the body is a JSON object with a non-empty
    one, and a fixed text otherwise (also for a body that is not JSON).
    The one exception is the body [null]: reading its description fails,
    and the answer is 500 and [UNKNOWN_ERROR] with the message of that
    [TypeError]. The token request is the only request made. *)
Theorem handler_reports_rejected_credentials (fuel : nat) (host : Host) (remote : Remote)
    (log : list Request) (sent : Request) (r : Response) :
  token_exchange host remote log sent (Resolved r) ->
  ok r = false ->
  Salesforce.handler fuel host remote GET log
  = (Returned
       match body r with
       | Parsed JNull =>
           {| statusCode := 500;
              headers := Salesforce.corsHeaders;
              payload := JsonFailure
                           "Cannot read properties of null (reading 'error_description')"
                           "UNKNOWN_ERROR" |}
       | Parsed (JObject o) =>
           {| statusCode := 401;
              headers := Salesforce.corsHeaders;
              payload := JsonFailure
                           (JS.or_else (error_description o)
                              "Failed to authenticate with Salesforce")
                           "AUTH_ERROR" |}
       | _ =>
           {| statusCode := 401;
              headers := Salesforce.corsHeaders;
              payload := JsonFailure "Failed to authenticate with Salesforce" "AUTH_ERROR" |}
       end, (log ++ [sent])%list).
Proof.
  intros Hexchange Hok. rewrite handler_GET.
  rewrite (refreshAccessToken_outcome host remote log sent _ Hexchange). rewrite Hok.
  unfold Salesforce.errorResponse, token_failure.
  destruct (body r) as [[o|items|]|m]; try reflexivity.
  cbn [err_message err_code err_status]. now rewrite or_else_twice by discriminate.
Qed.

(** X9. When the token request fails at the network level, or is answered
    2xx with a body that is not JSON, a GET is answered with 500 and
    [UNKNOWN_ERROR], with the platform's message (a fixed text when that
    message is empty). *)
Theorem handler_reports_unexpected_failure (fuel : nat) (host : Host) (remote : Remote)
    (log : list Request) (sent : Request) (outcome : FetchOutcome) (m : string) :
  token_exchange host remote log sent outcome ->
  outcome = Rejected m
  \/ (exists r, outcome = Resolved r /\ ok r = true /\ body r = Unparseable m) ->
  Salesforce.handler fuel host remote GET log
  = (Returned {| statusCode := 500;
                 headers := Salesforce.corsHeaders;
                 payload := JsonFailure (JS.or_else (Some m) "An unexpected error occurred")
                                        "UNKNOWN_ERROR" |}, (log ++ [sent])%list).
Proof.
  intros Hexchange Hfailure. rewrite handler_GET.
  rewrite (refreshAccessToken_outcome host remote log sent _ Hexchange).
  destruct Hfailure as [-> | [r [-> [Hok Hbody]]]]; [reflexivity|].
  now rewrite Hok, Hbody.
Qed.



Lemma refreshAccessToken_thrown_status (host : Host) (remote : Remote)
    (log log' : list Request) (e : JsError) :
  Salesforce.refreshAccessToken host remote log = (Thrown e, log') ->
  err_status e = None \/ exists code, err_status e = Some code /\ not_2xx code.
Proof.
  unfold Salesforce.refreshAccessToken.
  assert (Hconfig : forall l : list Request,
            @throw JS.Value
              {| err_message := "Missing Salesforce credentials in environment variables";
                 err_code := Some "CONFIG_ERROR"; err_status := Some 500 |} l = (Thrown e, log') ->
            err_status e = None \/ exists code, err_status e = Some code /\ not_2xx code).
  { intros l [= <- _]. right. exists 500. split; [reflexivity|]. unfold not_2xx. lia. }
  destruct (JS.truthy (SF_CLIENT_ID (process_env host))); [|apply Hconfig].
  destruct (JS.truthy (SF_CLIENT_SECRET (process_env host))); [|apply Hconfig].
  destruct (JS.truthy (SF_REFRESH_TOKEN (process_env host))); [|apply Hconfig].
  unfold bind at 1. unfold fetch.
  match goal with |- context [remote ?i ?q] => destruct (remote i q) as [r|m] end.
  - destruct (ok r); cbn [negb].
    + unfold bind, json. destruct (body r) as [[o|items|]|m]; try discriminate;
        intros [= <- _]; now left.
    + unfold bind, json_or_empty.
      destruct (body r) as [[o|items|]|m]; intros [= <- _];
        first [now left | right; exists 401; split; [reflexivity|unfold not_2xx; lia]].
  - intros [= <- _]. now left.
Qed.

Lemma status_or_500_not_2xx (e : JsError) :
  err_status e = None \/ (exists code, err_status e = Some code /\ not_2xx code) ->
  not_2xx (Salesforce.status_or_500 e).
Proof.
  unfold Salesforce.status_or_500, not_2xx.
  intros [-> | [code [-> Hcode]]]; [lia|].
  destruct (Z.eqb_spec code 0); [lia|exact Hcode].
Qed.

(** X12. The status and the payload of every response agree: a payload
    with data goes out with status 200, and its [recordCount] is the number
    of rows, each with the six keys; a payload with an error goes out with
    a status outside 200..299; no response goes out without a payload. *)
Theorem handler_status_matches_payload (fuel : nat) (host : Host) (remote : Remote)
    (req : IncomingMessage) (log log' : list Request) (res : ServerResponse) :
  Salesforce.handler fuel host remote req log = (Returned res, log') ->
  match payload res with
  | JsonSuccess data recordCount _ =>
      statusCode res = 200 /\ recordCount = length data
      /\ Forall (fun row => map fst row = sixKeys) data
  | JsonFailure _ _ => not_2xx (statusCode res)
  | Ended => False
  end.
Proof.
  destruct (String.eqb (method req) "GET") eqn:Hmethod.
  - apply String.eqb_eq in Hmethod.
    replace req with GET by (destruct req; unfold GET; now f_equal).
    rewrite handler_GET.
    destruct (Salesforce.refreshAccessToken host remote log) as [[token|e|] log1] eqn:Hauth.
    + destruct (Salesforce.querySalesforce fuel host remote token log1)
        as [[recs|e|] log2] eqn:Hquery.
      * intros [= <- _]. cbn [payload statusCode].
        unfold Salesforce.transformData. rewrite length_map.
        repeat split. apply Forall_forall. intros row Hin.
        apply in_map_iff in Hin. destruct Hin as [r [<- _]]. reflexivity.
      * intros [= <- _]. cbn [payload statusCode Salesforce.errorResponse].
        apply status_or_500_not_2xx.
        unfold Salesforce.querySalesforce in Hquery.
        destruct (JS.truthy (SF_INSTANCE_URL (process_env host))).
        -- eapply paginate_thrown_status. exact Hquery.
        -- injection Hquery as <- _. right. exists 500.
           split; [reflexivity|]. unfold not_2xx. lia.
      * discriminate.
    + intros [= <- _]. cbn [payload statusCode Salesforce.errorResponse].
      apply status_or_500_not_2xx. eapply refreshAccessToken_thrown_status. exact Hauth.
    + discriminate.
  - unfold Salesforce.handler. rewrite Hmethod. cbn [negb]. unfold ret.
    intros [= <- _]. cbn [payload statusCode]. unfold not_2xx. lia.
Qed.

End Handler.

(** ** The development server's pipeline *)
Section ServerPipeline.
Context {P : Platform}.
Variable remote : Remote.
Variable accessToken : JS.Value.
Variable instanceUrl : string.

Local Abbreviation loop fuel := (Server.paginate fuel remote accessToken instanceUrl).
Local Abbreviation request := (Salesforce.pageRequest accessToken).






(** The loop keeps what was logged before. *)
Lemma server_paginate_extends_log (fuel : nat) :
  forall (next : option string) (acc : list RawRecord) (log : list Request),
    exists more, snd (loop fuel next acc log) = (log ++ more)%list.
Proof.
  induction fuel as [|fuel IH]; intros next acc log.
  - exists []. cbn [Server.paginate]. rewrite app_nil_r. now destruct (JS.truthy next).
  - cbn [Server.paginate]. destruct (JS.truthy next) as [url|]; [|exists []; now rewrite app_nil_r].
    unfold bind at 1. unfold fetch.
    match goal with |- context [remote ?i ?q] => set (q0 := q); destruct (remote i q0) as [r|m] end;
      [|exists [q0]; reflexivity].
    unfold bind, json.
    destruct (body r) as [[o|items|]|m]; try (exists [q0]; reflexivity); unfold ret; cbn;
      match goal with
      | |- context [Server.paginate fuel remote accessToken instanceUrl ?n ?a ?l] =>
          destruct (IH n a l) as [more Hmore]
      end;
      exists (q0 :: more); rewrite Hmore, <- app_assoc; reflexivity.
Qed.

(** X13. As long as the remote answers every request with a 2xx status, the
    loop of the development server and the loop of the handler do the same:
    the same requests, the same records, the same errors. *)
Theorem server_loop_agrees_on_2xx (fuel : nat) :
  (forall idx req r, remote idx req = Resolved r -> ok r = true) ->
  forall (next : option string) (acc : list RawRecord) (log : list Request),
    Server.paginate fuel remote accessToken instanceUrl next acc log
    = Salesforce.paginate fuel remote accessToken instanceUrl next acc log.
Proof.
  intros Hok. induction fuel as [|fuel IH]; intros next acc log; [reflexivity|].
  cbn [Server.paginate Salesforce.paginate].
  destruct (JS.truthy next) as [url|]; [|reflexivity].
  unfold bind at 1 5. unfold fetch.
  change {| req_url := url; req_method := "GET";
            req_headers := [("Authorization", "Bearer " ++ JS.Value_toString accessToken);
                            ("Content-Type", "application/json")];
            req_body := None |} with (request url).
  destruct (remote (length log) (request url)) as [r|m] eqn:Hremote; [|reflexivity].
  rewrite (Hok _ _ _ Hremote). cbn [negb].
  unfold bind, json. destruct (body r) as [[o|items|]|m]; try reflexivity; unfold ret; cbn.
  - destruct (records o); rewrite ?app_nil_r;
      destruct (JS.truthy (nextRecordsUrl o)); apply IH.
  - rewrite app_nil_r. apply IH.
Qed.

End ServerPipeline.

Section ServerHandler.
Context {P : Platform}.

Lemma handleSalesforceAPI_unfold (fuel : nat) (settings : ProcessEnv) (host : Host)
    (remote : Remote) (log : list Request) :
  Server.handleSalesforceAPI fuel settings host remote log =
  let failure := fun (e : JsError) =>
    {| statusCode := 500;
       headers := [("Content-Type", "application/json")];
       payload := JsonFailure (err_message e) "API_ERROR" |} in
  let sent := (log ++ [server_token_request settings])%list in
  let query := fun (accessToken : JS.Value) =>
    match Server.paginate fuel remote accessToken
            (JS.ToString (SF_INSTANCE_URL settings))
            (Some (server_queryUrl settings)) [] sent with
    | (Returned allRecords, log') =>
        (Returned {| statusCode := 200;
                     headers := [("Content-Type", "application/json")];
                     payload := JsonSuccess (map (Server.transformRecord host) allRecords)
                                  (length allRecords) (host_now host) |}, log')
    | (Thrown e, log') => (Returned (failure e), log')
    | (OutOfFuel, log') => (OutOfFuel, log')
    end in
  match remote (length log) (server_token_request settings) with
  | Rejected m => (Returned (failure (native_error m)), sent)
  | Resolved r =>
      match body r with
      | Unparseable m => (Returned (failure (native_error m)), sent)
      | Parsed JNull => (Returned (failure (TypeError_null "access_token")), sent)
      | Parsed (JArray _) => (Returned (failure (native_error "OAuth failed")), sent)
      | Parsed (JObject o) =>
          match JS.truthy (JS.defined (access_token o)) with
          | None =>
              (Returned (failure (native_error
                           (JS.or_else (error_description o) "OAuth failed"))), sent)
          | Some _ => query (access_token o)
          end
      end
  end.
Proof.
  unfold Server.handleSalesforceAPI. cbv zeta.
  unfold bind at 1. unfold fetch.
  change {| req_url := "https://login.salesforce.com/services/oauth2/token";
            req_method := "POST";
            req_headers := [("Content-Type", "application/x-www-form-urlencoded")];
            req_body := Some (JS.URLSearchParams_toString
              [("grant_type", "refresh_token");
               ("client_id", JS.ToString (SF_CLIENT_ID settings));
               ("client_secret", JS.ToString (SF_CLIENT_SECRET settings));
               ("refresh_token", JS.ToString (SF_REFRESH_TOKEN settings))]) |}
    with (server_token_request settings).
  destruct (remote (length log) (server_token_request settings)) as [r|m]; [|reflexivity].
  unfold bind at 1. unfold json.
  destruct (body r) as [[o|items|]|m]; try reflexivity.
  unfold ret at 1. unfold bind at 1. cbn [get_access_token]. unfold ret at 1.
  destruct (JS.truthy (JS.defined (access_token o))); [|reflexivity].
  unfold bind, server_queryUrl.
  destruct (Server.paginate fuel remote (access_token o)
              (JS.ToString (SF_INSTANCE_URL settings)) _ [] _) as [[recs|e|] log'];
    unfold ret; [|reflexivity|reflexivity].
  now rewrite length_map.
Qed.

(** X14. The development server looks for the token, not at the status:
    whatever the status of the token response, a JSON body without a
    non-empty [access_token] is answered with 500 and [API_ERROR], and no
    query is made. The message is the body's [error_description] when the
    body is an object with a non-empty one, "OAuth failed" for another
    object or an array, and for the body [null] the message of the
    [TypeError] that reading the token raises. *)
Theorem server_requires_access_token (fuel : nat) (settings : ProcessEnv) (host : Host)
    (remote : Remote) (log : list Request) (r : Response) (tokenData : Json) :
  remote (length log) (server_token_request settings) = Resolved r ->
  body r = Parsed tokenData ->
  granted_token tokenData = None ->
  Server.handleSalesforceAPI fuel settings host remote log
  = (Returned {| statusCode := 500;
                 headers := [("Content-Type", "application/json")];
                 payload := JsonFailure
                              match tokenData with
                              | JObject o => JS.or_else (error_description o) "OAuth failed"
                              | JArray _ => "OAuth failed"
                              | JNull =>
                                  "Cannot read properties of null (reading 'access_token')"
                              end
                              "API_ERROR" |},
     (log ++ [server_token_request settings])%list).
Proof.
  intros Hremote Hbody Htoken.
  rewrite handleSalesforceAPI_unfold. cbv zeta. rewrite Hremote, Hbody.
  destruct tokenData as [o|items|]; try reflexivity.
  cbn [granted_token] in Htoken. now rewrite Htoken.
Qed.

(** X15. The development server does not check its configuration: the first
    thing it does, whatever is set, is to post the token request, in which a
    constant that is not set appears as the text [undefined]; what was
    logged before stays in place. *)
Theorem server_posts_token_request_first (fuel : nat) (settings : ProcessEnv) (host : Host)
    (remote : Remote) (log : list Request) :
  exists more,
    snd (Server.handleSalesforceAPI fuel settings host remote log)
    = (log ++ server_token_request settings :: more)%list
  /\ req_body (server_token_request
                 {| SF_CLIENT_ID := None; SF_CLIENT_SECRET := None;
                    SF_REFRESH_TOKEN := None; SF_INSTANCE_URL := SF_INSTANCE_URL settings |})
     = Some "grant_type=refresh_token&client_id=undefined&client_secret=undefined&refresh_token=undefined".
Proof.
  rewrite handleSalesforceAPI_unfold. cbv zeta.
  destruct (remote (length log) (server_token_request settings)) as [r|m];
    [|exists []; split; reflexivity].
  destruct (body r) as [[o|items|]|m]; try (exists []; split; reflexivity).
  destruct (JS.truthy (JS.defined (access_token o))); [|exists []; split; reflexivity].
  destruct (server_paginate_extends_log remote (access_token o)
              (JS.ToString (SF_INSTANCE_URL settings)) fuel
              (Some (server_queryUrl settings)) []
              (log ++ [server_token_request settings])%list) as [more Hmore].
  exists more.
  destruct (Server.paginate fuel remote (access_token o)
              (JS.ToString (SF_INSTANCE_URL settings)) _ [] _) as [[recs|e|] log'];
    cbn [snd] in *; subst log'; rewrite <- app_assoc; split; reflexivity.
Qed.


End ServerHandler.

(** ** The configuration file *)

Lemma env_get_last (name value : string) (env : DevServer.Env) :
  DevServer.env_get name (env ++ [(name, value)])%list = Some value.
Proof.
  induction env as [|[k v] env IH]; simpl.
  - now rewrite String.eqb_refl.
  - now rewrite IH.
Qed.

Lemma loadEnvFile_lines (lines : list string) :
  Forall (free_of (ascii_of_nat 10)) lines ->
  DevServer.loadEnvFile (Some (Node.join LF lines)) = flat_map DevServer.envLine lines.
Proof.
  intros Hfree. destruct lines as [|l lines]; [reflexivity|].
  unfold DevServer.loadEnvFile, LF. rewrite split_join; [reflexivity|discriminate|assumption].
Qed.

Lemma envLine_definition (key value : string) :
  key <> "" -> free_of "=" key -> Node.trim key <> "__proto__" ->
  DevServer.envLine (key ++ String "=" value) = [(Node.trim key, Node.trim value)].
Proof.
  intros Hkey Hfree Hproto. unfold DevServer.envLine.
  rewrite split_app_separator by assumption.
  rewrite (truthy_nonempty key Hkey).
  pose proof (split_nonempty "=" value) as Hne.
  pose proof (join_split "=" value) as Hjoin.
  destruct (JS.split "=" value) as [|x xs]; [contradiction|].
  destruct (String.eqb_spec (Node.trim key) "__proto__"); [contradiction|].
  now rewrite Hjoin.
Qed.

Lemma envLine_ignored (line : string) :
  free_of "=" line \/ (exists value, line = String "=" value) ->
  DevServer.envLine line = [].
Proof.
  unfold DevServer.envLine. intros [Hfree | [value ->]].
  - rewrite split_free by assumption. now destruct (JS.truthy (Some line)).
  - now rewrite split_separator.
Qed.

Lemma env_get_app (name : string) (a b : DevServer.Env) :
  DevServer.env_get name (a ++ b)%list
  = match DevServer.env_get name b with
    | Some later => Some later
    | None => DevServer.env_get name a
    end.
Proof.
  induction a as [|[k v] a IH]; cbn [app DevServer.env_get].
  - now destruct (DevServer.env_get name b).
  - rewrite IH. now destruct (DevServer.env_get name b).
Qed.

(** A line that does not assign to a name leaves it as it is. *)
Lemma envLine_other (name line : string) :
  assigned_name line <> Some name ->
  DevServer.env_get name (DevServer.envLine line) = None.
Proof.
  unfold assigned_name, DevServer.envLine.
  destruct (JS.split "=" line) as [|key [|v vs]]; try reflexivity.
  - now destruct (JS.truthy (Some key)).
  - cbn [JS.truthy]. destruct (String.eqb key ""); [reflexivity|].
    intros Hother.
    destruct (String.eqb (Node.trim key) "__proto__"); [reflexivity|].
    cbn [DevServer.env_get].
    destruct (String.eqb_spec (Node.trim key) name) as [Hsame|]; [|reflexivity].
    exfalso. apply Hother. now f_equal.
Qed.

Lemma env_get_others (name : string) (lines : list string) :
  Forall (fun line => assigned_name line <> Some name) lines ->
  DevServer.env_get name (flat_map DevServer.envLine lines) = None.
Proof.
  induction 1 as [|line lines Hline _ IH]; [reflexivity|].
  cbn [flat_map]. now rewrite env_get_app, IH, envLine_other.
Qed.

Lemma free_of_definition (c : ascii) (key value : string) :
  c <> "="%char -> free_of c key -> free_of c value ->
  free_of c (key ++ String "=" value).
Proof.
  intros Hc Hk Hv. unfold free_of in *. rewrite occurrences_app. cbn [occurrences].
  rewrite Hk, Hv. destruct (Ascii.eqb_spec "=" c) as [<-|]; [contradiction|reflexivity].
Qed.

(** The value a file gives a name: that of the last line that assigns to it. *)
Lemma loadEnvFile_last_line (before after : list string) (key value : string) :
  Forall (free_of (ascii_of_nat 10)) (before ++ after) ->
  free_of (ascii_of_nat 10) key -> free_of (ascii_of_nat 10) value ->
  key <> "" -> free_of "=" key -> Node.trim key <> "__proto__" ->
  Forall (fun line => assigned_name line <> Some (Node.trim key)) after ->
  DevServer.env_get (Node.trim key)
    (DevServer.loadEnvFile
       (Some (Node.join LF (before ++ (key ++ String "=" value)%string :: after))))
  = Some (Node.trim value).
Proof.
  intros Hlines Hk Hv Hkey Hfree Hproto Hafter.
  apply Forall_app in Hlines. destruct Hlines as [Hb Ha].
  rewrite loadEnvFile_lines.
  - rewrite flat_map_app. cbn [flat_map].
    rewrite envLine_definition by assumption.
    rewrite !env_get_app, env_get_others by assumption.
    cbn [DevServer.env_get]. now rewrite String.eqb_refl.
  - apply Forall_app. split; [assumption|]. constructor; [|assumption].
    apply free_of_definition; [discriminate|assumption|assumption].
Qed.

(** X17. In the configuration file the last line [KEY=VALUE] for a key
    (other than [__proto__]) decides, wherever in the file it stands: the
    key and the value are trimmed of white space around them (a carriage
    return at the end of the line included), and whatever follows the first
    [=], further [=] included, is the value; earlier lines for the key and
    lines for other keys do not change it. *)
Theorem loadEnvFile_last_definition_wins (before after : list string) (key value : string) :
  Forall (free_of (ascii_of_nat 10)) (before ++ after) ->
  free_of (ascii_of_nat 10) key -> free_of (ascii_of_nat 10) value ->
  key <> "" -> free_of "=" key -> Node.trim key <> "__proto__" ->
  Forall (fun line => assigned_name line <> Some (Node.trim key)) after ->
  DevServer.env_get (Node.trim key)
    (DevServer.loadEnvFile
       (Some (Node.join LF (before ++ (key ++ "=" ++ value)%string :: after))))
  = Some (Node.trim value).
Proof. apply loadEnvFile_last_line. Qed.

(** X18. A line of the configuration file without [=], or one that starts
    with [=], defines nothing: the file reads as it does without that line.
    A file that cannot be read defines nothing either. *)
Theorem loadEnvFile_skips_other_lines (before after : list string) (line : string) :
  Forall (free_of (ascii_of_nat 10)) (before ++ line :: after) ->
  free_of "=" line \/ (exists value, line = String "=" value) ->
  DevServer.loadEnvFile (Some (Node.join LF (before ++ line :: after)))
  = DevServer.loadEnvFile (Some (Node.join LF (before ++ after)))
  /\ DevServer.loadEnvFile None = [].
Proof.
  intros Hfree Hline. split; [|reflexivity].
  assert (Hrest : Forall (free_of (ascii_of_nat 10)) (before ++ after)).
  { apply Forall_app in Hfree. destruct Hfree as [Hb Hla].
    inversion Hla; subst. apply Forall_app. now split. }
  rewrite !loadEnvFile_lines by assumption.
  rewrite !flat_map_app. cbn [flat_map]. now rewrite (envLine_ignored line Hline).
Qed.

(** X19. A setting whose last line in the configuration file, wherever it
    stands, gives it a non-empty value comes from the file, whatever the
    process environment holds; one whose last line gives it an empty value
    comes from the process environment; and without a readable file all
    four come from the process environment. *)
Theorem config_prefers_the_file (before after : list string) (key value name : string)
    (process_env : ProcessEnv) :
  Forall (free_of (ascii_of_nat 10)) (before ++ after) ->
  free_of (ascii_of_nat 10) key -> free_of (ascii_of_nat 10) value ->
  key <> "" -> free_of "=" key ->
  Node.trim key = name ->
  is_setting name = true ->
  Forall (fun line => assigned_name line <> Some name) after ->
  setting name
    (DevServer.config
       (Some (Node.join LF (before ++ (key ++ "=" ++ value)%string :: after))) process_env)
  = (if String.eqb (Node.trim value) "" then setting name process_env
     else Some (Node.trim value))
  /\ DevServer.config None process_env = process_env.
Proof.
  intros Hlines Hk Hv Hkey Hfree Hname Hsetting Hafter.
  split; [|destruct process_env; reflexivity].
  assert (Hproto : Node.trim key <> "__proto__")
    by (rewrite Hname; intros ->; discriminate Hsetting).
  rewrite <- Hname in Hafter.
  pose proof (loadEnvFile_last_line before after key value
                Hlines Hk Hv Hkey Hfree Hproto Hafter) as Hget.
  rewrite Hname in Hget.
  unfold is_setting in Hsetting. unfold setting, DevServer.config. cbv zeta.
  cbn [SF_CLIENT_ID SF_CLIENT_SECRET SF_REFRESH_TOKEN SF_INSTANCE_URL].
  clear Hname Hafter.
  destruct (String.eqb name "SF_CLIENT_ID") eqn:H1;
    [apply String.eqb_eq in H1; rewrite H1 in Hget|
     destruct (String.eqb name "SF_CLIENT_SECRET") eqn:H2;
       [apply String.eqb_eq in H2; rewrite H2 in Hget|
        destruct (String.eqb name "SF_REFRESH_TOKEN") eqn:H3;
          [apply String.eqb_eq in H3; rewrite H3 in Hget|
           destruct (String.eqb name "SF_INSTANCE_URL") eqn:H4;
             [apply String.eqb_eq in H4; rewrite H4 in Hget|discriminate Hsetting]]]];
    change (key ++ "=" ++ value)%string with (key ++ String "=" value)%string;
    rewrite Hget; unfold DevServer.or_env; cbn [JS.truthy];
    destruct (String.eqb (Node.trim value) ""); reflexivity.
Qed.

(** ** Paths *)

Lemma split_app (sep : ascii) (a b : string) :
  JS.split sep (a ++ String sep b) = (JS.split sep a ++ JS.split sep b)%list.
Proof.
  induction a as [|c a IH].
  - apply split_separator.
  - cbn [append]. destruct (Ascii.eqb c sep) eqn:Hc.
    + apply Ascii.eqb_eq in Hc. subst c. now rewrite !split_separator, IH.
    + rewrite !split_other by assumption. rewrite IH.
      pose proof (split_nonempty sep a) as Hne.
      destruct (JS.split sep a); [contradiction|reflexivity].
Qed.

Lemma plain_segment_free (s : string) : plain_segment s -> free_of "/" s.
Proof. now intros [_ [_ [_ H]]]. Qed.

Lemma normalize_push (above : bool) (stack rest : list string) (seg : string) :
  plain_segment seg ->
  Node.normalize_segments above stack (seg :: rest)
  = Node.normalize_segments above (seg :: stack) rest.
Proof.
  intros [H0 [H1 [H2 _]]]. cbn [Node.normalize_segments].
  destruct (String.eqb_spec seg ""); [contradiction|].
  destruct (String.eqb_spec seg "."); [contradiction|].
  destruct (String.eqb_spec seg ".."); [contradiction|]. reflexivity.
Qed.

Lemma normalize_skip_empty (above : bool) (stack rest : list string) :
  Node.normalize_segments above stack ("" :: rest)
  = Node.normalize_segments above stack rest.
Proof. reflexivity. Qed.

Lemma normalize_pop (above : bool) (top : string) (below rest : list string) :
  top <> ".." ->
  Node.normalize_segments above (top :: below) (".." :: rest)
  = Node.normalize_segments above below rest.
Proof.
  intros Htop. cbn [Node.normalize_segments].
  change (String.eqb ".." "" || String.eqb ".." ".") with false.
  change (String.eqb ".." "..") with true. cbv iota.
  now destruct (String.eqb_spec top "..").
Qed.

Lemma normalize_plain (above : bool) (segs : list string) :
  Forall plain_segment segs ->
  forall stack rest,
    Node.normalize_segments above stack (segs ++ rest)%list
    = Node.normalize_segments above (rev segs ++ stack)%list rest.
Proof.
  induction segs as [|seg segs IH]; intros Hplain stack rest; [reflexivity|].
  inversion Hplain; subst. cbn [app]. rewrite normalize_push by assumption.
  rewrite IH by assumption. cbn [rev]. now rewrite <- app_assoc.
Qed.

Lemma normalize_split_join (above : bool) (segs stack rest : list string) :
  Forall plain_segment segs ->
  Node.normalize_segments above stack (JS.split "/" (Node.join "/" segs) ++ rest)%list
  = Node.normalize_segments above (rev segs ++ stack)%list rest.
Proof.
  intros Hplain. destruct segs as [|seg segs]; [reflexivity|].
  rewrite split_join.
  - now apply normalize_plain.
  - discriminate.
  - eapply Forall_impl; [|exact Hplain]. apply plain_segment_free.
Qed.

Lemma filter_plain (segs : list string) :
  Forall plain_segment segs ->
  filter (fun p => negb (String.eqb p "")) segs = segs.
Proof.
  induction segs as [|seg segs IH]; intros Hplain; [reflexivity|].
  inversion Hplain as [|? ? [H0 _] Hrest]; subst. cbn [filter].
  destruct (String.eqb_spec seg ""); [contradiction|]. cbn [negb]. now rewrite IH.
Qed.

Lemma append_empty_right (a b : string) : a ++ b = "" -> b = "".
Proof. destruct a; [easy|discriminate]. Qed.

Lemma join_snoc_nonempty (sep : string) (segs : list string) (name : string) :
  name <> "" -> Node.join sep (segs ++ [name])%list <> "".
Proof.
  intros Hname. induction segs as [|seg segs IH]; [exact Hname|].
  cbn [app Node.join]. destruct (segs ++ [name])%list eqn:E.
  - now destruct segs.
  - intros H. apply append_empty_right in H. apply append_empty_right in H. now apply IH.
Qed.

Lemma ends_with_slash_app (a b : string) :
  b <> "" -> Node.ends_with_slash (a ++ b) = Node.ends_with_slash b.
Proof.
  intros Hb. induction a as [|c a IH]; [reflexivity|].
  cbn [append Node.ends_with_slash]. destruct (a ++ b) eqn:E.
  - apply append_empty_right in E. contradiction.
  - exact IH.
Qed.

Lemma ends_with_slash_free (s : string) : free_of "/" s -> Node.ends_with_slash s = false.
Proof.
  induction s as [|c s IH]; intros Hfree; [reflexivity|].
  apply free_of_cons in Hfree. destruct Hfree as [Hc Hs].
  cbn [Node.ends_with_slash]. destruct s; [exact Hc|now apply IH].
Qed.

(** What [path.join] makes of a URL under the public directory of an
    absolute script directory. *)
Lemma path_join_public (segs out : list string) (url : string) :
  Forall plain_segment segs ->
  url <> "" ->
  Node.ends_with_slash url = false ->
  Node.normalize_segments false ("public" :: rev segs) (JS.split "/" url) = out ->
  Node.join "/" out <> "" ->
  Node.path_join [absolute segs; "public"; url] = "/" ++ Node.join "/" out.
Proof.
  intros Hplain Hurl Hend Hout Hbody.
  unfold Node.path_join, absolute. cbn [filter String.eqb append negb].
  destruct (String.eqb_spec url ""); [contradiction|]. cbn [negb Node.join].
  unfold Node.path_normalize. cbn [append String.eqb Node.starts_with_slash negb].
  match goal with
  | |- context [Node.ends_with_slash ?p] =>
      assert (Hends : Node.ends_with_slash p = false);
      [ | assert (Hsplit : JS.split "/" p
                           = "" :: (JS.split "/" (Node.join "/" segs)
                                      ++ "public" :: JS.split "/" url)%list);
          [ | rewrite Hends, Hsplit ] ]
  end.
  - assert (Htail : "/public/" ++ url <> "") by discriminate.
    change (Node.ends_with_slash ("/" ++ (Node.join "/" segs ++ ("/public/" ++ url))) = false).
    rewrite (ends_with_slash_app "/" (Node.join "/" segs ++ ("/public/" ++ url))).
    + rewrite (ends_with_slash_app (Node.join "/" segs) ("/public/" ++ url) Htail).
      rewrite (ends_with_slash_app "/public/" url Hurl). exact Hend.
    + intros H. apply append_empty_right in H. contradiction.
  - change (JS.split "/"
              (String "/" (Node.join "/" segs ++ String "/" ("public" ++ String "/" url)))
            = "" :: (JS.split "/" (Node.join "/" segs) ++ "public" :: JS.split "/" url)%list).
    now rewrite split_separator, split_app, (split_app_separator "/" "public" url).
  - cbn [Node.normalize_segments String.eqb orb].
    rewrite normalize_split_join by assumption. rewrite app_nil_r.
    rewrite (normalize_push false (rev segs) (JS.split "/" url) "public")
      by (repeat split; try discriminate; reflexivity).
    rewrite Hout.
    destruct (String.eqb_spec (Node.join "/" out) ""); [contradiction|reflexivity].
Qed.

Lemma extname_last_segment (segs : list string) (name : string) :
  Forall plain_segment segs -> plain_segment name ->
  Node.path_extname (absolute (segs ++ [name])) = Node.path_extname name.
Proof.
  intros Hsegs Hname.
  assert (Hall : Forall plain_segment (segs ++ [name])%list)
    by (apply Forall_app; split; [assumption|now constructor]).
  unfold Node.path_extname, absolute.
  change ("/" ++ Node.join "/" (segs ++ [name])%list)
    with (String "/" (Node.join "/" (segs ++ [name])%list)).
  rewrite split_separator, split_join.
  - cbn [filter String.eqb negb]. rewrite filter_plain by assumption. rewrite last_last.
    rewrite (split_free "/" name) by now apply plain_segment_free.
    now rewrite (filter_plain [name]) by now constructor.
  - now destruct segs.
  - eapply Forall_impl; [|exact Hall]. apply plain_segment_free.
Qed.

(** ** The listener of the development server *)
Section Listener.
Context {P : Platform}.

Lemma handleSalesforceAPI_status (fuel : nat) (settings : ProcessEnv) (host : Host)
    (remote : Remote) (log log' : list Request) (res : ServerResponse) :
  Server.handleSalesforceAPI fuel settings host remote log = (Returned res, log') ->
  statusCode res = 200 \/ statusCode res = 500.
Proof.
  rewrite handleSalesforceAPI_unfold. cbv zeta.
  destruct (remote (length log) (server_token_request settings)) as [r|m];
    [|intros [= <- _]; now right].
  destruct (body r) as [[o|items|]|m]; try (intros [= <- _]; now right).
  destruct (JS.truthy (JS.defined (access_token o))); [|intros [= <- _]; now right].
  destruct (Server.paginate fuel remote (access_token o)
              (JS.ToString (SF_INSTANCE_URL settings)) _ [] _) as [[recs|e|] lg];
    [intros [= <- _]; now left|intros [= <- _]; now right|discriminate].
Qed.

(** X20. Every reply of the development server carries the two CORS headers
    first and has status 200, 404 or 500; only a request for /api/salesforce
    makes it call out; and OPTIONS, for any URL, is answered with 200 and no
    body, without calling out. *)
Theorem listener_replies (fuel : nat) (settings : ProcessEnv) (host : Host)
    (remote : Remote) (dirname : string) (readFile : string -> option string)
    (req : DevServer.HttpRequest) (log log' : list Request) (res : DevServer.Reply) :
  DevServer.requestListener fuel settings host remote dirname readFile req log
  = (Returned res, log') ->
  firstn 2 (DevServer.reply_headers res)
  = [ ("Access-Control-Allow-Origin", "*"); ("Access-Control-Allow-Methods", "GET, OPTIONS") ]
  /\ (DevServer.reply_status res = 200 \/ DevServer.reply_status res = 404
      \/ DevServer.reply_status res = 500)
  /\ (DevServer.http_url req <> "/api/salesforce" -> log' = log)
  /\ (DevServer.http_method req = "OPTIONS" ->
      log' = log
      /\ res = {| DevServer.reply_status := 200;
                  DevServer.reply_headers := DevServer.corsHeaders;
                  DevServer.reply_body := DevServer.NoBody |}).
Proof.
  unfold DevServer.requestListener.
  destruct (String.eqb_spec (DevServer.http_method req) "OPTIONS") as [Hoptions|Hother].
  - unfold ret. intros [= <- <-]. cbn. repeat split; auto.
  - destruct (String.eqb_spec (DevServer.http_url req) "/api/salesforce") as [Hapi|Hstatic].
    + unfold bind.
      destruct (Server.handleSalesforceAPI fuel settings host remote log)
        as [[api|e|] lg] eqn:Hrun; [|discriminate|discriminate].
      unfold ret. intros [= <- <-]. cbn.
      pose proof (handleSalesforceAPI_status _ _ _ _ _ _ _ Hrun) as [Hs|Hs];
        rewrite Hs; repeat split; auto; contradiction.
    + cbv zeta.
      match goal with
      | |- context [readFile ?path] => destruct (readFile path)
      end; unfold ret; intros [= <- <-]; cbn; repeat split; auto; contradiction.
Qed.

(** X21. A request for a file name directly under the root, whatever its
    method other than OPTIONS, reads that name in the directory [public]
    beside the script: it is answered 404 with the text "Not Found" when
    the file cannot be read, and 200 with the content otherwise, the
    content type following the extension of the name (octet-stream when
    the extension is not in the table); a request for the root is served
    as one for /index.html. *)
Theorem listener_serves_public_files (fuel : nat) (settings : ProcessEnv) (host : Host)
    (remote : Remote) (segs : list string) (readFile : string -> option string)
    (verb name : string) (log : list Request) :
  Forall plain_segment segs ->
  plain_segment name ->
  String.eqb verb "OPTIONS" = false ->
  DevServer.requestListener fuel settings host remote (absolute segs) readFile
    {| DevServer.http_method := verb; DevServer.http_url := "/" ++ name |} log
  = (Returned
       match readFile (absolute (segs ++ ["public"; name])) with
       | None =>
           {| DevServer.reply_status := 404;
              DevServer.reply_headers := DevServer.corsHeaders;
              DevServer.reply_body := DevServer.Raw "Not Found" |}
       | Some content =>
           {| DevServer.reply_status := 200;
              DevServer.reply_headers :=
                (DevServer.corsHeaders ++
                 [("Content-Type",
                   match DevServer.mimeTypes (Node.path_extname name) with
                   | Some t => t
                   | None => "application/octet-stream"
                   end)])%list;
              DevServer.reply_body := DevServer.Raw content |}
       end, log)
  /\ DevServer.requestListener fuel settings host remote (absolute segs) readFile
       {| DevServer.http_method := verb; DevServer.http_url := "/" |} log
     = DevServer.requestListener fuel settings host remote (absolute segs) readFile
         {| DevServer.http_method := verb; DevServer.http_url := "/index.html" |} log.
Proof.
  intros Hsegs Hname Hverb.
  split; [|unfold DevServer.requestListener;
           cbn [DevServer.http_method DevServer.http_url]; now rewrite Hverb].
  pose proof Hname as [Hne [_ [_ Hfree]]].
  unfold DevServer.requestListener. cbn [DevServer.http_method DevServer.http_url].
  rewrite Hverb.
  assert (Hapi : String.eqb ("/" ++ name) "/api/salesforce" = false).
  { apply String.eqb_neq. intros [= ->]. discriminate Hfree. }
  assert (Hroot : String.eqb ("/" ++ name) "/" = false).
  { apply String.eqb_neq. intros [= ->]. contradiction. }
  rewrite Hapi, Hroot. cbv zeta.
  rewrite (path_join_public segs (segs ++ ["public"; name])%list ("/" ++ name)).
  - change ("/" ++ Node.join "/" (segs ++ ["public"; name])%list)
      with (absolute (segs ++ ["public"; name])).
    replace (segs ++ ["public"; name])%list with ((segs ++ ["public"]) ++ [name])%list
      by (now rewrite <- app_assoc).
    rewrite extname_last_segment.
    + now destruct (readFile _).
    + apply Forall_app. split; [assumption|].
      constructor; [|constructor]. repeat split; try discriminate; reflexivity.
    + assumption.
  - assumption.
  - discriminate.
  - rewrite (ends_with_slash_app "/" name Hne). now apply ends_with_slash_free.
  - change ("/" ++ name) with (String "/" name).
    rewrite split_separator, (split_free "/" name Hfree).
    rewrite normalize_skip_empty, normalize_push by assumption.
    cbn [Node.normalize_segments rev].
    now rewrite rev_involutive, <- !app_assoc.
  - replace (segs ++ ["public"; name])%list with ((segs ++ ["public"]) ++ [name])%list
      by (now rewrite <- app_assoc).
    now apply join_snoc_nonempty.
Qed.

(** X22. The public directory does not confine the listener: a request for
    /../NAME reads NAME in the directory of the script itself, and its
    content, if it can be read, is sent with status 200. *)
Theorem listener_reads_outside_public (fuel : nat) (settings : ProcessEnv) (host : Host)
    (remote : Remote) (segs : list string) (readFile : string -> option string)
    (verb name content : string) (log : list Request) :
  Forall plain_segment segs ->
  plain_segment name ->
  String.eqb verb "OPTIONS" = false ->
  readFile (absolute (segs ++ [name])) = Some content ->
  DevServer.requestListener fuel settings host remote (absolute segs) readFile
    {| DevServer.http_method := verb; DevServer.http_url := "/../" ++ name |} log
  = (Returned
       {| DevServer.reply_status := 200;
          DevServer.reply_headers :=
            (DevServer.corsHeaders ++
             [("Content-Type",
               match DevServer.mimeTypes (Node.path_extname name) with
               | Some t => t
               | None => "application/octet-stream"
               end)])%list;
          DevServer.reply_body := DevServer.Raw content |}, log).
Proof.
  intros Hsegs Hname Hverb Hfile.
  pose proof Hname as [Hne [_ [_ Hfree]]].
  unfold DevServer.requestListener. cbn [DevServer.http_method DevServer.http_url].
  rewrite Hverb.
  change (String.eqb ("/../" ++ name) "/api/salesforce") with false.
  change (String.eqb ("/../" ++ name) "/") with false. cbv zeta iota.
  rewrite (path_join_public segs (segs ++ [name])%list ("/../" ++ name)).
  - change ("/" ++ Node.join "/" (segs ++ [name])%list) with (absolute (segs ++ [name])).
    rewrite extname_last_segment by assumption. now rewrite Hfile.
  - assumption.
  - discriminate.
  - rewrite (ends_with_slash_app "/../" name Hne). now apply ends_with_slash_free.
  - change ("/../" ++ name) with (String "/" (".." ++ String "/" name)).
    rewrite split_separator, (split_app_separator "/" ".." name) by reflexivity.
    rewrite (split_free "/" name Hfree).
    rewrite normalize_skip_empty, normalize_pop by discriminate.
    rewrite normalize_push by assumption. cbn [Node.normalize_segments rev].
    now rewrite rev_involutive.
  - now apply join_snoc_nonempty.
Qed.

End Listener.

(** ** Concrete runs *)
Ltac plain_segments :=
  repeat first [ apply Forall_nil | apply Forall_cons | split | discriminate | reflexivity ].

Section FurtherRuns.
Local Existing Instance Reference.platform.

Local Abbreviation instance := "https://acme.my.salesforce.com".
Local Abbreviation more := "/services/data/v59.0/query/01g-2000".
Local Abbreviation granted := (token_response 200 (JS.Text "token") None).
Local Abbreviation granted_json :=
  (JObject {| access_token := JS.Text "token"; error_description := None;
              records := None; nextRecordsUrl := None |}).
Local Abbreviation unavailable :=
  (JArray [ {| ee_message := Some "Service unavailable";
               ee_errorCode := Some "SERVER_UNAVAILABLE" |} ]).
Local Abbreviation files :=
  (fun path : string =>
     if String.eqb path "/srv/app/public/styles.css" then Some "body { margin: 0 }"
     else if String.eqb path "/srv/app/.env.local" then Some "SF_CLIENT_SECRET=secret"
     else None).

Lemma token_request_carries_the_credentials_witness :
  let host := configured (Some "3MVG9.id") (Some "s&c=r t") (Some "5Aep861+x") None in
  exists id secret refresh : string,
    snd (Salesforce.refreshAccessToken host (scripted []) [])
    = [ {| req_url := "https://login.salesforce.com/services/oauth2/token";
           req_method := "POST";
           req_headers := [("Content-Type", "application/x-www-form-urlencoded")];
           req_body := Some ("grant_type=refresh_token&client_id=" ++ id
                             ++ "&client_secret=" ++ secret
                             ++ "&refresh_token=" ++ refresh)%string |} ]
    /\ (free_of "&" id /\ free_of "=" id /\ form_decode id = "3MVG9.id")
    /\ (free_of "&" secret /\ free_of "=" secret /\ form_decode secret = "s&c=r t")
    /\ (free_of "&" refresh /\ free_of "=" refresh /\ form_decode refresh = "5Aep861+x").
Proof.
  intros host.
  apply (@token_request_carries_the_credentials Reference.platform host (scripted []) []
           "3MVG9.id" "s&c=r t" "5Aep861+x"); reflexivity.
Defined.

(** The body that goes out for these credentials. *)
Example token_request_body_sample :
  req_body (token_request "3MVG9.id" "s&c=r t" "5Aep861+x")
  = Some "grant_type=refresh_token&client_id=3MVG9.id&client_secret=s%26c%3Dr+t&refresh_token=5Aep861%2Bx".
Proof. reflexivity. Qed.

Lemma querySalesforce_returns_only_complete_results_witness :
  let remote := scripted [ page [opportunity "1"] (Some more); page [opportunity "2"] None ] in
  exists base pages last,
    JS.truthy (SF_INSTANCE_URL (process_env acme)) = Some base
    /\ Forall (fun r => continuing r = true) pages
    /\ final last = true
    /\ answers remote (JS.Text "token") 0 (run_urls base (Salesforce.queryUrl base) pages)
         (pages ++ [last])
    /\ [opportunity "1"; opportunity "2"] = flat_map page_records (pages ++ [last])
    /\ snd (Salesforce.querySalesforce 5 acme remote (JS.Text "token") [])
       = ([] ++ map (Salesforce.pageRequest (JS.Text "token"))
                  (run_urls base (Salesforce.queryUrl base) pages))%list
    /\ (length pages < 5)%nat.
Proof.
  intros remote.
  apply (@querySalesforce_returns_only_complete_results Reference.platform 5 acme remote
           (JS.Text "token") []).
  reflexivity.
Defined.

Lemma querySalesforce_unparseable_page_witness :
  let garbled := {| status := 200; body := Unparseable "Unexpected token < in JSON" |} in
  let remote := scripted [ page [opportunity "1"] (Some more); garbled ] in
  Salesforce.querySalesforce 5 acme remote (JS.Text "token") []
  = (Thrown {| err_message := "Unexpected token < in JSON";
               err_code := None; err_status := None |},
     [ Salesforce.pageRequest (JS.Text "token") (Salesforce.queryUrl instance);
       Salesforce.pageRequest (JS.Text "token") (instance ++ more) ]).
Proof.
  intros garbled remote.
  apply (@querySalesforce_unparseable_page Reference.platform acme remote (JS.Text "token")
           instance [ page [opportunity "1"] (Some more) ] garbled
           "Unexpected token < in JSON" [] 5).
  - reflexivity.
  - repeat constructor.
  - reflexivity.
  - reflexivity.
  - simpl. repeat split; reflexivity.
  - simpl. lia.
Defined.

Lemma handler_reports_missing_credentials_witness :
  let host := configured (Some "id") (Some "") (Some "refresh") (Some instance) in
  Salesforce.handler 5 host (scripted [granted]) GET []
  = (Returned {| statusCode := 500;
                 headers := [ ("Access-Control-Allow-Origin", "*");
                              ("Access-Control-Allow-Methods", "GET, OPTIONS");
                              ("Access-Control-Allow-Headers", "Content-Type") ];
                 payload := JsonFailure
                              "Missing Salesforce credentials in environment variables"
                              "CONFIG_ERROR" |}, []).
Proof.
  intros host.
  apply (@handler_reports_missing_credentials Reference.platform 5 host (scripted [granted]) []).
  right. left. reflexivity.
Defined.

Lemma handler_reports_rejected_credentials_witness :
  let refused := token_response 400 JS.Undefined (Some "expired access/refresh token") in
  Salesforce.handler 5 acme (scripted [refused]) GET []
  = (Returned {| statusCode := 401;
                 headers := Salesforce.corsHeaders;
                 payload := JsonFailure "expired access/refresh token" "AUTH_ERROR" |},
     [token_request "id" "secret" "refresh"]).
Proof.
  intros refused.
  apply (@handler_reports_rejected_credentials Reference.platform 5 acme (scripted [refused]) []
           (token_request "id" "secret" "refresh") refused).
  - exists "id", "secret", "refresh". repeat split; reflexivity.
  - reflexivity.
Defined.

Lemma handler_reports_unexpected_failure_witness :
  Salesforce.handler 5 acme (scripted []) GET []
  = (Returned {| statusCode := 500;
                 headers := Salesforce.corsHeaders;
                 payload := JsonFailure "fetch failed" "UNKNOWN_ERROR" |},
     [token_request "id" "secret" "refresh"]).
Proof.
  apply (@handler_reports_unexpected_failure Reference.platform 5 acme (scripted []) []
           (token_request "id" "secret" "refresh") (Rejected "fetch failed") "fetch failed").
  - exists "id", "secret", "refresh". repeat split; reflexivity.
  - left. reflexivity.
Defined.



(** The body [null] on a failed exchange or a failed page: the caller gets
    500 and the message of the [TypeError]. *)
Example handler_on_null_bodies :
  fst (Salesforce.handler 5 acme (scripted [ {| status := 400; body := Parsed JNull |} ]) GET [])
  = Returned {| statusCode := 500;
                headers := Salesforce.corsHeaders;
                payload := JsonFailure
                             "Cannot read properties of null (reading 'error_description')"
                             "UNKNOWN_ERROR" |}
  /\ fst (Salesforce.handler 5 acme
            (scripted [ granted; {| status := 503; body := Parsed JNull |} ]) GET [])
     = Returned {| statusCode := 500;
                   headers := Salesforce.corsHeaders;
                   payload := JsonFailure "Cannot read properties of null (reading '0')"
                                "UNKNOWN_ERROR" |}
  /\ fst (Salesforce.handler 5 acme
            (scripted [ granted; {| status := 200; body := Parsed JNull |} ]) GET [])
     = Returned {| statusCode := 500;
                   headers := Salesforce.corsHeaders;
                   payload := JsonFailure "Cannot read properties of null (reading 'records')"
                                "UNKNOWN_ERROR" |}
  /\ map req_headers
       (snd (Salesforce.handler 5 acme
               (scripted [ token_response 200 JS.Null None; page [] None ]) GET []))
     = [ [("Content-Type", "application/x-www-form-urlencoded")];
         [("Authorization", "Bearer null"); ("Content-Type", "application/json")] ].
Proof. repeat split; reflexivity. Qed.

Lemma handler_status_matches_payload_witness :
  let remote := scripted [ granted; page [opportunity "1"] None ] in
  let data := Salesforce.transformData acme [opportunity "1"] in
  200 = 200 /\ 1%nat = length data /\ Forall (fun row => map fst row = sixKeys) data.
Proof.
  intros remote data.
  apply (@handler_status_matches_payload Reference.platform 5 acme remote GET []
           [ token_request "id" "secret" "refresh";
             Salesforce.pageRequest (JS.Text "token") (Salesforce.queryUrl instance) ]
           {| statusCode := 200;
              headers := Salesforce.corsHeaders;
              payload := JsonSuccess data 1 (host_now acme) |}).
  reflexivity.
Defined.

Lemma server_loop_agrees_on_2xx_witness :
  let remote := endless (fun idx => page [opportunity "1"]
                                      (if (idx <? 2)%nat then Some more else None)) in
  Server.paginate 5 remote (JS.Text "token") instance (Some (instance ++ "/start")%string) [] []
  = Salesforce.paginate 5 remote (JS.Text "token") instance
      (Some (instance ++ "/start")%string) [] [].
Proof.
  intros remote.
  apply (@server_loop_agrees_on_2xx Reference.platform remote (JS.Text "token") instance 5).
  intros idx req r [= <-]. reflexivity.
Defined.

Lemma server_requires_access_token_witness :
  let refused := token_response 400 JS.Undefined (Some "expired access/refresh token") in
  Server.handleSalesforceAPI 5 (process_env acme) acme (scripted [refused]) []
  = (Returned {| statusCode := 500;
                 headers := [("Content-Type", "application/json")];
                 payload := JsonFailure "expired access/refresh token" "API_ERROR" |},
     [token_request "id" "secret" "refresh"]).
Proof.
  intros refused.
  apply (@server_requires_access_token Reference.platform 5 (process_env acme) acme
           (scripted [refused]) [] refused
           (JObject {| access_token := JS.Undefined;
                       error_description := Some "expired access/refresh token";
                       records := None; nextRecordsUrl := None |})); reflexivity.
Defined.


Lemma listener_replies_witness :
  let res := {| DevServer.reply_status := 200;
                DevServer.reply_headers := DevServer.corsHeaders;
                DevServer.reply_body := DevServer.NoBody |} in
  firstn 2 (DevServer.reply_headers res)
  = [ ("Access-Control-Allow-Origin", "*"); ("Access-Control-Allow-Methods", "GET, OPTIONS") ]
  /\ (DevServer.reply_status res = 200 \/ DevServer.reply_status res = 404
      \/ DevServer.reply_status res = 500)
  /\ ("/api/salesforce" <> "/api/salesforce" -> @nil Request = [])
  /\ ("OPTIONS" = "OPTIONS" -> @nil Request = [] /\ res = res).
Proof.
  intros res.
  apply (@listener_replies Reference.platform 5 (process_env acme) acme (scripted [granted])
           "/srv/app" files
           {| DevServer.http_method := "OPTIONS"; DevServer.http_url := "/api/salesforce" |}
           [] [] res).
  reflexivity.
Defined.

Lemma listener_serves_public_files_witness :
  DevServer.requestListener 5 (process_env acme) acme (scripted []) "/srv/app" files
    {| DevServer.http_method := "GET"; DevServer.http_url := "/styles.css" |} []
  = (Returned {| DevServer.reply_status := 200;
                 DevServer.reply_headers :=
                   [ ("Access-Control-Allow-Origin", "*");
                     ("Access-Control-Allow-Methods", "GET, OPTIONS");
                     ("Content-Type", "text/css") ];
                 DevServer.reply_body := DevServer.Raw "body { margin: 0 }" |}, []).
Proof.
  destruct (@listener_serves_public_files Reference.platform 5 (process_env acme) acme
              (scripted []) ["srv"; "app"] files "GET" "styles.css" []) as [Hrun _].
  - plain_segments.
  - plain_segments.
  - reflexivity.
  - exact Hrun.
Defined.

Lemma listener_reads_outside_public_witness :
  DevServer.requestListener 5 (process_env acme) acme (scripted []) "/srv/app" files
    {| DevServer.http_method := "GET"; DevServer.http_url := "/../.env.local" |} []
  = (Returned {| DevServer.reply_status := 200;
                 DevServer.reply_headers :=
                   [ ("Access-Control-Allow-Origin", "*");
                     ("Access-Control-Allow-Methods", "GET, OPTIONS");
                     ("Content-Type", "application/octet-stream") ];
                 DevServer.reply_body := DevServer.Raw "SF_CLIENT_SECRET=secret" |}, []).
Proof.
  apply (@listener_reads_outside_public Reference.platform 5 (process_env acme) acme
           (scripted []) ["srv"; "app"] files "GET" ".env.local" "SF_CLIENT_SECRET=secret" []).
  - plain_segments.
  - plain_segments.
  - reflexivity.
  - reflexivity.
Defined.

End FurtherRuns.

Lemma loadEnvFile_last_definition_wins_witness :
  DevServer.env_get "SF_CLIENT_ID"
    (DevServer.loadEnvFile
       (Some (Node.join LF ["# local settings"; "SF_CLIENT_ID=old"; " SF_CLIENT_ID = a=b ";
                            "SF_INSTANCE_URL=https://acme.my.salesforce.com"; ""])))
  = Some "a=b".
Proof.
  apply (loadEnvFile_last_definition_wins ["# local settings"; "SF_CLIENT_ID=old"]
           ["SF_INSTANCE_URL=https://acme.my.salesforce.com"; ""]
           " SF_CLIENT_ID " " a=b ").
  - repeat constructor.
  - reflexivity.
  - reflexivity.
  - discriminate.
  - reflexivity.
  - vm_compute. discriminate.
  - repeat constructor; vm_compute; discriminate.
Defined.

Lemma loadEnvFile_skips_other_lines_witness :
  DevServer.loadEnvFile (Some (Node.join LF ["A=1"; "# comment"; "B=2"]))
  = DevServer.loadEnvFile (Some (Node.join LF ["A=1"; "B=2"]))
  /\ DevServer.loadEnvFile None = [].
Proof.
  apply (loadEnvFile_skips_other_lines ["A=1"] ["B=2"] "# comment").
  - repeat constructor.
  - left. reflexivity.
Defined.

Lemma config_prefers_the_file_witness :
  let from_process :=
    {| SF_CLIENT_ID := Some "id"; SF_CLIENT_SECRET := Some "secret";
       SF_REFRESH_TOKEN := Some "refresh"; SF_INSTANCE_URL := Some "https://process.example" |} in
  SF_INSTANCE_URL
    (DevServer.config
       (Some (Node.join LF ["SF_INSTANCE_URL=https://old.example";
                            "SF_INSTANCE_URL = https://file.example "; "SF_CLIENT_ID="]))
       from_process)
  = Some "https://file.example"
  /\ DevServer.config None from_process = from_process.
Proof.
  intros from_process.
  apply (config_prefers_the_file ["SF_INSTANCE_URL=https://old.example"] ["SF_CLIENT_ID="]
           "SF_INSTANCE_URL " " https://file.example " "SF_INSTANCE_URL" from_process).
  - repeat constructor.
  - reflexivity.
  - reflexivity.
  - discriminate.
  - reflexivity.
  - reflexivity.
  - reflexivity.
  - repeat constructor; vm_compute; discriminate.
Defined.
